(** * pyfred: the API wrapper generator (script03_apiwrapgen.py)

    A shallow embedding of [main] of script03_apiwrapgen.py: the loop that
    turns every command descriptor of the descriptor store into the text of
    one Python wrapper method, and the properties of that text.

    - A text is a Stdlib string whose characters stand for the code points
      below 256; [str.format] with bare braces is concatenation.  The
      pattern is a [str] pattern, so its white space class is the one of
      Unicode: on these code points, the characters 9 to 13, 28 to 32, 133
      and 160.
    - The descriptor store is an ordered dictionary, kept as an association
      list read at the first entry of a key, because the order of its keys
      is the order of the wrappers.  The documentation store is a [gmap],
      and so are the dictionaries [newparams] and [annots] that the loop
      body fills.
    - A command type is the string the code compares; [returns] is the
      sequence the code compares with the empty list and unpacks.  The
      entries of [sig] are the name and type pairs of the data model; the
      module [Loaded] at the end takes them as the sequences the reader
      gives, with the exceptions of an entry that is not a pair.
    - The output file and the status stream are logs of the chunks written
      and the lines printed, threaded with the exceptions through a small
      monad: a computation that raises leaves the world as it was at the
      raise, with the file open.
    - [utils], [glovars] and [os.path] are other modules: their functions
      and constants are variables of the sections below. *)

From Stdlib Require Import String Ascii List Arith Lia Bool.
From stdpp Require Import base strings gmap list.

Import ListNotations.
Local Open Scope list_scope.
Local Open Scope stdpp_scope.

(** ** Text helpers *)

Module Text.

(** The newline and the double quote, which a string literal cannot hold. *)
Definition nl : string := String "010"%char EmptyString.
Definition dq : string := String "034"%char EmptyString.

(** [s * n] of Python. *)
Fixpoint repeat_str (s : string) (n : nat) : string :=
  match n with
  | O => EmptyString
  | S k => s +:+ repeat_str s k
  end.

(** [sep.join(l)] of Python. *)
Fixpoint join (sep : string) (l : list string) : string :=
  match l with
  | [] => EmptyString
  | [x] => x
  | x :: xs => x +:+ sep +:+ join sep xs
  end.

(** [c.upper()] on the ASCII letters. *)
Definition upper_ascii (c : ascii) : ascii :=
  let n := nat_of_ascii c in
  if andb (Nat.leb 97 n) (Nat.leb n 122) then ascii_of_nat (n - 32) else c.

(** [s.upper()]. *)
Fixpoint upper (s : string) : string :=
  match s with
  | EmptyString => EmptyString
  | String c t => String (upper_ascii c) (upper t)
  end.

Lemma append_cons (c : ascii) (a b : string) :
  String c a +:+ b = String c (a +:+ b).
Proof. reflexivity. Qed.

Lemma append_nil_l (s : string) : EmptyString +:+ s = s.
Proof. reflexivity. Qed.

Lemma append_nil_r (s : string) : s +:+ EmptyString = s.
Proof.
  induction s as [|c s IH]; [reflexivity|].
  rewrite append_cons. now f_equal.
Qed.

Lemma append_assoc (a b c : string) : (a +:+ b) +:+ c = a +:+ (b +:+ c).
Proof.
  induction a as [|x a IH]; [reflexivity|].
  rewrite !append_cons. now f_equal.
Qed.

Lemma append_eq_nil (a b : string) :
  a +:+ b = EmptyString -> a = EmptyString /\ b = EmptyString.
Proof. destruct a; [rewrite append_nil_l; auto | rewrite append_cons; discriminate]. Qed.

(** A join is empty only for no element or for one empty element. *)
Lemma join_eq_nil (sep : string) (l : list string) :
  sep <> EmptyString ->
  join sep l = EmptyString -> l = [] \/ l = [EmptyString].
Proof.
  intros Hsep. destruct l as [|x [|y l]]; simpl; intros H.
  - now left.
  - right. now subst.
  - apply append_eq_nil in H as [_ H].
    apply append_eq_nil in H as [H _]. contradiction.
Qed.

End Text.

Import Text.

(** ** The pattern PARMAT

  [PARMAT = re.compile('\s*\(\s*\)\s*')]: an opening and a closing
  parenthesis with optional white space before, between and after them.
  Every starred class is greedy and is followed by a character outside the
  class, so a match anchored at the head of a string is unique: skip the
  white space, read the parenthesis, and so on. *)

Module Regex.

(** [\s] of a [str] pattern, the characters for which [str.isspace] holds:
    tab, line feed, vertical tab, form feed and carriage return, the four
    separators 28 to 31, the space, the next line character 133 and the
    no-break space 160. *)
Definition is_space (c : ascii) : bool :=
  match c with
  | "009"%char | "010"%char | "011"%char | "012"%char | "013"%char
  | "028"%char | "029"%char | "030"%char | "031"%char | " "%char
  | "133"%char | "160"%char => true
  | _ => false
  end.

(** The longest white space prefix removed. *)
Fixpoint skip_space (s : string) : string :=
  match s with
  | String c t => if is_space c then skip_space t else s
  | EmptyString => EmptyString
  end.

(** [PARMAT.match(s)]: the text after the match anchored at the head of
    [s], when there is one. *)
Definition PARMAT_match (s : string) : option string :=
  match skip_space s with
  | String "("%char s1 =>
      match skip_space s1 with
      | String ")"%char s2 => Some (skip_space s2)
      | _ => None
      end
  | _ => None
  end.

(** [PARMAT.search(s) is not None]: some suffix of [s] starts with a
    match. *)
Fixpoint PARMAT_search (s : string) : bool :=
  match PARMAT_match s with
  | Some _ => true
  | None =>
      match s with
      | EmptyString => false
      | String _ t => PARMAT_search t
      end
  end.

(** The scanner of [PARMAT.sub('', s)]: at each position, a match is
    dropped and the scan goes on after it, otherwise the character is kept.
    A match is never empty, so [String.length s] steps are enough. *)
Fixpoint sub_scan (fuel : nat) (s : string) : string :=
  match fuel with
  | O => s
  | S k =>
      match PARMAT_match s with
      | Some rest => sub_scan k rest
      | None =>
          match s with
          | EmptyString => EmptyString
          | String c t => String c (sub_scan k t)
          end
      end
  end.

(** [PARMAT.sub('', s)]. *)
Definition PARMAT_sub (s : string) : string := sub_scan (String.length s) s.

End Regex.

Import Regex.

(** *** Facts on the scanner *)

Section RegexFacts.

Lemma skip_space_length (s : string) :
  String.length (skip_space s) <= String.length s.
Proof.
  induction s as [|c t IH]; simpl; [lia|].
  destruct (is_space c); simpl; lia.
Qed.

(** A match takes at least the two parentheses. *)
Lemma PARMAT_match_length (s rest : string) :
  PARMAT_match s = Some rest -> String.length rest + 2 <= String.length s.
Proof.
  unfold PARMAT_match. intros H.
  pose proof (skip_space_length s) as H0.
  destruct (skip_space s) as [|c s1]; [discriminate|].
  destruct (Ascii.eqb_spec c "("%char) as [->|Hc].
  - pose proof (skip_space_length s1) as H1.
    destruct (skip_space s1) as [|d s2] eqn:E1; [discriminate|].
    destruct (Ascii.eqb_spec d ")"%char) as [->|Hd].
    + injection H as <-. pose proof (skip_space_length s2). simpl in *. lia.
    + destruct d as [[] [] [] [] [] [] [] []]; try discriminate; congruence.
  - destruct c as [[] [] [] [] [] [] [] []]; try discriminate; congruence.
Qed.

(** Any fuel above the length gives the same scan. *)
Lemma sub_scan_fuel (n m : nat) (s : string) :
  String.length s <= n -> String.length s <= m -> sub_scan n s = sub_scan m s.
Proof.
  revert m s. induction n as [|n IH]; intros m s Hn Hm.
  - destruct s; simpl in Hn; [|lia]. destruct m; reflexivity.
  - destruct m as [|m].
    + destruct s; simpl in Hm; [|lia]. reflexivity.
    + simpl. destruct (PARMAT_match s) as [rest|] eqn:E.
      * apply PARMAT_match_length in E. apply IH; lia.
      * destruct s as [|c t]; [reflexivity|].
        simpl in Hn, Hm. f_equal. apply IH; lia.
Qed.

(** The scan drops a match at the head and goes on behind it. *)
Lemma PARMAT_sub_match (s rest : string) :
  PARMAT_match s = Some rest -> PARMAT_sub s = PARMAT_sub rest.
Proof.
  intros E. unfold PARMAT_sub.
  pose proof (PARMAT_match_length _ _ E) as Hlen.
  destruct (String.length s) as [|k] eqn:El; [lia|].
  simpl. rewrite E. apply sub_scan_fuel; lia.
Qed.

(** The scan keeps a character at which no match starts. *)
Lemma PARMAT_sub_keep (c : ascii) (t : string) :
  PARMAT_match (String c t) = None ->
  PARMAT_sub (String c t) = String c (PARMAT_sub t).
Proof.
  intros E. unfold PARMAT_sub. simpl String.length.
  cbn [sub_scan]. now rewrite E.
Qed.

Lemma PARMAT_sub_length (s : string) :
  String.length (PARMAT_sub s) <= String.length s.
Proof.
  remember (String.length s) as n eqn:Hn.
  assert (Hle : String.length s <= n) by lia. clear Hn.
  revert s Hle. induction n as [|n IH]; intros s Hle.
  - destruct s; simpl in *; [reflexivity|lia].
  - destruct (PARMAT_match s) as [rest|] eqn:E.
    + rewrite (PARMAT_sub_match _ _ E).
      apply PARMAT_match_length in E.
      assert (String.length (PARMAT_sub rest) <= n) by (apply IH; lia). lia.
    + destruct s as [|c t]; [simpl; lia|].
      rewrite (PARMAT_sub_keep _ _ E). simpl in *.
      assert (String.length (PARMAT_sub t) <= n) by (apply IH; lia). lia.
Qed.

(** A name in which the pattern is found loses at least the parentheses,
    so the substitution changes it. *)
Lemma PARMAT_sub_shorter (s : string) :
  PARMAT_search s = true ->
  String.length (PARMAT_sub s) + 2 <= String.length s.
Proof.
  induction s as [|c t IH]; intros H.
  - discriminate.
  - cbn [PARMAT_search] in H.
    destruct (PARMAT_match (String c t)) as [rest|] eqn:E.
    + rewrite (PARMAT_sub_match _ _ E).
      apply PARMAT_match_length in E.
      pose proof (PARMAT_sub_length rest). lia.
    + rewrite (PARMAT_sub_keep _ _ E). simpl. specialize (IH H). lia.
Qed.

Lemma PARMAT_sub_changes (s : string) :
  PARMAT_search s = true -> PARMAT_sub s <> s.
Proof.
  intros H E. apply PARMAT_sub_shorter in H. rewrite E in H. lia.
Qed.

(** A name in which the pattern is not found is left as it is. *)
Lemma PARMAT_sub_nomatch (s : string) :
  PARMAT_search s = false -> PARMAT_sub s = s.
Proof.
  induction s as [|c t IH]; intros H; [reflexivity|].
  cbn [PARMAT_search] in H.
  destruct (PARMAT_match (String c t)) as [rest|] eqn:E; [discriminate|].
  rewrite (PARMAT_sub_keep _ _ E). f_equal. now apply IH.
Qed.

End RegexFacts.

Example sub_coords : PARMAT_sub "coords()" = "coords".
Proof. reflexivity. Qed.
Example sub_coords_ws : PARMAT_sub "coords ( )" = "coords".
Proof. reflexivity. Qed.
Example sub_two : PARMAT_sub "a()b ()c" = "abc".
Proof. reflexivity. Qed.
Example search_plain : PARMAT_search "coords" = false.
Proof. reflexivity. Qed.
(** The separators 28 to 31 and the no-break space are white space of the
    pattern. *)
Example search_separator :
  PARMAT_search (String "x"%char (String "("%char (String "031"%char ")"))) = true.
Proof. reflexivity. Qed.
Example sub_separator :
  PARMAT_sub (String "a"%char (String "031"%char " ( )")) = "a".
Proof. reflexivity. Qed.
Example sub_no_break_space :
  PARMAT_sub (String "a"%char (String "160"%char "()")) = "a".
Proof. reflexivity. Qed.

(** ** Exceptions, the output sink and the status stream

    [main] writes to the file object [fid] and prints to the status stream,
    and a dictionary lookup, an unpacking or the subscript of an empty
    sequence can raise: a computation takes the world to a result and the
    world it leaves, also when it raises. *)

Module Run.

Inductive exn : Type :=
| KeyError (key : string)
| ValueError
| IndexError.

Inductive result (A : Type) : Type :=
| Ok (a : A)
| Raise (e : exn).
Arguments Ok {A} a.
Arguments Raise {A} e.

(** The chunks given to [fid.write] and the lines given to [print], both in
    the order of the calls, and whether [fid.close()] was reached. *)
Record world : Type := World {
  artifact : list string;
  status : list string;
  closed : bool
}.

Definition M (A : Type) : Type := world -> result A * world.

#[global] Instance result_ret : MRet result := fun A a => Ok a.
#[global] Instance result_bind : MBind result :=
  fun A B k m => match m with Ok a => k a | Raise e => Raise e end.

#[global] Instance M_ret : MRet M := fun A a w => (Ok a, w).
#[global] Instance M_bind : MBind M :=
  fun A B k m w =>
    match m w with
    | (Ok a, w') => k a w'
    | (Raise e, w') => (Raise e, w')
    end.

(** A computation that only raises or returns, run in a world. *)
Definition lift {A : Type} (r : result A) : M A := fun w => (r, w).

(** [fid.write(s)]. *)
Definition write (s : string) : M unit :=
  fun w => (Ok tt, World (artifact w ++ [s]) (status w) (closed w)).

(** [print(s)]. *)
Definition print (s : string) : M unit :=
  fun w => (Ok tt, World (artifact w) (status w ++ [s]) (closed w)).

(** [fid.close()]. *)
Definition close : M unit :=
  fun w => (Ok tt, World (artifact w) (status w) true).

(** [for x in l: body]. *)
Fixpoint for_each {A : Type} (l : list A) (body : A -> M unit) : M unit :=
  match l with
  | [] => mret tt
  | x :: r => body x;; for_each r body
  end.

(** [[f(x) for x in l]] where [f] can raise. *)
Fixpoint collect {A B : Type} (f : A -> result B) (l : list A) : result (list B) :=
  match l with
  | [] => mret []
  | x :: r => y ← f x; ys ← collect f r; mret (y :: ys)
  end.

(** [d[key]] on the outcome of a lookup. *)
Definition getitem {V : Type} (o : option V) (key : string) : result V :=
  match o with
  | Some v => Ok v
  | None => Raise (KeyError key)
  end.

(** [a, b = l]. *)
Definition unpack2 (l : list string) : result (string * string) :=
  match l with
  | [a; b] => Ok (a, b)
  | _ => Raise ValueError
  end.

(** The world after more chunks and more status lines. *)
Definition logged (w : world) (lines chunks : list string) : world :=
  World (artifact w ++ chunks) (status w ++ lines) (closed w).

End Run.

Import Run.

(** ** The stores *)

(** One entry of the descriptor store: the dictionary with the keys
    [cmdtype], [descr], [returns] and [sig].  [returns] is kept as the
    sequence it is, because the code compares it with [[]] and unpacks it;
    the entries of [sig] are name and type pairs. *)
Record Command : Type := {
  cmdtype : string;
  descr : string;
  returns : list string;
  sig : list (string * string)
}.

(** [apidat[k]] on the descriptor store, an ordered dictionary. *)
Fixpoint apidat_get (apidat : list (string * Command)) (k : string) : option Command :=
  match apidat with
  | [] => None
  | (k', c) :: rest => if String.eqb k' k then Some c else apidat_get rest k
  end.

(** ** Constants of the script *)

Definition I1 : string := repeat_str " " 4.
Definition I2 : string := repeat_str I1 2.
Definition I3 : string := I1 +:+ I2.

Definition CLASTR_head : string :=
"#! /usr/bin/env python
# -*- coding: utf-8 -*-
"
+:+ dq
+:+ dq
+:+ dq
+:+ "
Provide class to wrap all available FRED commands
===============================================================================
Copyright 2017, Arthur Davis
Email: art.davis@gmail.com
This file is part of pyfred. See LICENSE and README.md for details.
----------

".

Definition CLASTR_tail : string :=
" - File generated

WARNING - This file is automatically generated by script03_apiwrapgen.py.
Customizing functions here will override intended API function.
Also any changes will be lost the next time script03_apiwrapgen.py is run.

"
+:+ dq
+:+ dq
+:+ dq
+:+ "
try:
    import win32com.client as w32
except:
    # Load a dummy
    print("
+:+ dq
+:+ "WARNING: win32com not available. Loading dummy library."
+:+ dq
+:+ ")
    from w32dummy import WinMethods
    w32 = WinMethods()

class Wrap(object):
    "
+:+ dq
+:+ dq
+:+ dq
+:+ "
    Class for wrapping all of the FRED functions, subroutines and
    datastructures in one place with a consistent API and minimal quirks.

    Using this class for FRED programming may not be the most efficient
    computationally, but it does provide an easier transition for
    controlling FRED through python then just using the raw win32com API.

    Quirks that are caused by problematic parameter passing through the
    w32 API and/or inconsistent return structures are averted by wrapping
    all functions/subroutines with CreateLib().

    Also quite handy to have around for quick access to documentation when
    using IPython.

    If imported into the global namespace, allows writing scripts that are
    nearly execution compatible with native FRED VBScript.
    "
+:+ dq
+:+ dq
+:+ dq
+:+ "
    def __init__(self, dobj):
        self._dobj = dobj

    @property
    def dobj(self):
        "
+:+ dq
+:+ dq
+:+ dq
+:+ "
        Attribute property for the FRED COM Interface document object
        "
+:+ dq
+:+ dq
+:+ dq
+:+ "
        return self._dobj
".

(** [CLASTR], the class header, with the time of the run in it. *)
Definition CLASTR (TIMENOW : string) : string :=
  CLASTR_head +:+ TIMENOW +:+ CLASTR_tail.

(** The heading of a return section. *)
Definition rethdg : string :=
  nl +:+ I2 +:+ "Returns" +:+ nl +:+ I2 +:+ "-------" +:+ nl.

(** ** Normalising the parameter names

    The loop over [params] that fills the dictionaries [newparams] and
    [annots], both keyed on the raw names. *)

Definition classify (acc : gmap string string * gmap string string) (p : string)
  : gmap string string * gmap string string :=
  if PARMAT_search p
  then (<[p := PARMAT_sub p]> (acc.1), <[p := "Array-like of "]> (acc.2))
  else (<[p := p]> (acc.1), <[p := ""]> (acc.2)).

Definition newparams_annots (params : list string)
  : gmap string string * gmap string string :=
  foldl classify (∅, ∅) params.

(** ** The generator

    The collaborators of the script that live in other modules are taken as
    they are called: [utils.wrap_longlines(text, ncols=..., indent=...)]
    (no [ncols] is the default of the library), [utils.fmt_docstr(doc,
    indent=...)], [utils.vb2pytype(type, rettype=...)], [os.path.join],
    [glovars.STUBDIR] and the clock behind [TIMENOW]. *)

Section Generator.

Variable wrap_longlines : string -> option nat -> string -> string.
Variable fmt_docstr : list (string * string) -> string -> string.
Variable vb2pytype : string -> string -> string.
Variable path_join : string -> string -> string.
Variable STUBDIR : string.
Variable TIMENOW : string.

(** The description at the head of the docstring. *)
Definition descstr (cmdname : string) (c : Command) : string :=
  let descstr :=
    "Wrapper for FRED " +:+ cmdname +:+ " " +:+ upper (cmdtype c) +:+ "." +:+ nl in
  let descstr :=
    if String.eqb (cmdtype c) "datastruct"
    then descstr +:+ (I2 +:+ "Does not require all parameters to be set when invoked." +:+ nl)
    else descstr +:+ (I2 +:+ "Requires all parameters to be set when invoked." +:+ nl) in
  let descstr := descstr +:+ nl in
  let descstr := descstr +:+ I2 in
  descstr +:+ wrap_longlines (descr c) None I2.

(** The return section [retstr], by command type.  Unpacking the return
    entry, and every entry of [sigits], raises on a sequence that is not a
    pair. *)
Definition retstr (cmdname : string) (c : Command) : result string :=
  let rlist := returns c in
  let sigitems := sig c in
  if String.eqb (cmdtype c) "function" then
    match rlist with
    | [] => mret EmptyString
    | _ =>
        '(rname, rtype) ← unpack2 rlist;
        let rtype := vb2pytype rtype "repr" in
        mret (rethdg +:+ (I2 +:+ rname +:+ ": " +:+ rtype +:+ nl))
    end
  else if String.eqb (cmdtype c) "subroutine" then
    if (0 <? length sigitems) || (0 <? length rlist) then
      let sigits := if 0 <? length rlist then [rlist] else [] in
      let sigits :=
        if 0 <? length sigitems
        then sigits ++ map (fun it => [it.1; it.2]) sigitems
        else sigits in
      let opening := if 1 <? length sigits then "[" else EmptyString in
      rstr ← collect (fun it =>
                        '(rn, rt) ← unpack2 it;
                        mret (rn +:+ ": " +:+ vb2pytype rt "repr")) sigits;
      let closing := if 1 <? length sigits then "]" else EmptyString in
      mret (((((rethdg +:+ I2) +:+ opening) +:+ join ", " rstr) +:+ closing) +:+ nl)
    else mret EmptyString
  else if String.eqb (cmdtype c) "datastruct" then
    mret (rethdg +:+ (I2 +:+ "datastruct: <com_record " +:+ cmdname +:+ ">" +:+ nl))
  else mret EmptyString.

(** The body of the loop of [main]: one command. *)
Definition wrap_command (apidat : list (string * Command))
    (docdat : gmap string (list (string * string))) (cmdname : string) : M unit :=
  c ← lift (getitem (apidat_get apidat cmdname) cmdname);
  let cmdtype := cmdtype c in
  if String.eqb cmdtype "unknown" then
    print ("... unknown command: " +:+ cmdname +:+ ". SKIPPING")
  else
    print ("... wrapping " +:+ cmdname);;
    let descstr := descstr cmdname c in
    let sigitems := sig c in
    let params := map fst sigitems in
    let newparams := (newparams_annots params).1 in
    let annots := (newparams_annots params).2 in
    doc ← lift (getitem (docdat !! cmdname) cmdname);
    let docstr := fmt_docstr doc I2 in
    retstr ← lift (retstr cmdname c);
    write (I1 +:+ "# " +:+ repeat_str "=-" 36 +:+ "=" +:+ nl);;
    let params := "self" :: params in
    let newparams := <["self" := "self"]> newparams in
    let paramlist := map (fun p => newparams !!! p) params in
    let arglist :=
      map (fun li =>
             if String.eqb cmdtype "datastruct" && negb (String.eqb li "self")
             then li +:+ "=None" else li) paramlist in
    write (I1 +:+ "def " +:+ cmdname +:+ "("
           +:+ wrap_longlines (join ", " arglist) (Some 50) (repeat_str " " 12)
           +:+ "):" +:+ nl);;
    write (I2 +:+ "r" +:+ dq +:+ dq +:+ dq +:+ nl);;
    write (I2 +:+ "Python API documentation:" +:+ nl);;
    write (I2 +:+ "=========================" +:+ nl);;
    write (I2 +:+ descstr +:+ nl);;
    write nl;;
    (if 0 <? length (tail params) then
       write (I2 +:+ "Parameters" +:+ nl);;
       write (I2 +:+ "----------" +:+ nl);;
       for_each sigitems (fun it =>
         let paramdoc := vb2pytype it.2 "repr" in
         write (I2 +:+ (newparams !!! it.1) +:+ ": " +:+ (annots !!! it.1)
                +:+ paramdoc +:+ nl))
     else mret tt);;
    write retstr;;
    write nl;;
    write (I2 +:+ "FRED documentation:" +:+ nl);;
    write (I2 +:+ "===================" +:+ nl);;
    write docstr;;
    write (I2 +:+ dq +:+ dq +:+ dq +:+ nl);;
    if String.eqb cmdtype "datastruct" then
      write (I2 +:+ "dstruct = w32.Record(" +:+ dq +:+ cmdname +:+ dq
             +:+ ", self._dobj)" +:+ nl);;
      for_each (tail paramlist) (fun p =>
        write (I2 +:+ "if " +:+ p +:+ " is not None:" +:+ nl);;
        write (I2 +:+ I1 +:+ "setattr(dstruct, " +:+ dq +:+ p +:+ dq +:+ ", "
               +:+ p +:+ ")" +:+ nl));;
      write (I2 +:+ "return dstruct" +:+ nl)
    else
      let paramstr :=
        wrap_longlines (join ", " (tail paramlist)) (Some 50) (repeat_str " " 12) in
      let paramstr := if String.eqb paramstr EmptyString then "None" else paramstr in
      let stubpath := path_join STUBDIR (cmdname +:+ ".frs") in
      write (I2 +:+ "lib = self._dobj.CreateLib(r" +:+ dq +:+ stubpath +:+ dq
             +:+ ")" +:+ nl);;
      write (I2 +:+ "return lib.libfunct(" +:+ paramstr +:+ ")" +:+ nl).

(** [main]: the header, then every command of the descriptor store in the
    order of its keys, then the file is closed. *)
Definition main (apidat : list (string * Command))
    (docdat : gmap string (list (string * string))) : M unit :=
  let cmdnames := map fst apidat in
  write (CLASTR TIMENOW);;
  print (nl +:+ "Wrapping commands in python...");;
  for_each cmdnames (wrap_command apidat docdat);;
  close.

End Generator.

(** ** What one command emits

    The text of one wrapper, chunk by chunk, as a function of the command:
    [wrap_command_run] below shows that these are the chunks the loop body
    writes.  [normalized] and [annotation] are the values the dictionaries
    [newparams] and [annots] hold for a raw name. *)

Definition normalized (p : string) : string :=
  if PARMAT_search p then PARMAT_sub p else p.

Definition annotation (p : string) : string :=
  if PARMAT_search p then "Array-like of " else EmptyString.

Section Wrapper.

Variable wrap_longlines : string -> option nat -> string -> string.
Variable fmt_docstr : list (string * string) -> string -> string.
Variable vb2pytype : string -> string -> string.
Variable path_join : string -> string -> string.
Variable STUBDIR : string.

(** The names of the header: the receiver, then the normalised names. *)
Definition paramlist (c : Command) : list string :=
  "self" :: map normalized (map fst (sig c)).

(** The arguments of the header: a default for every name of a datastruct
    that is not [self]. *)
Definition arglist (c : Command) : list string :=
  map (fun li =>
         if String.eqb (cmdtype c) "datastruct" && negb (String.eqb li "self")
         then li +:+ "=None" else li) (paramlist c).

(** The line that opens the definition. *)
Definition def_line (cmdname : string) (c : Command) : string :=
  I1 +:+ "def " +:+ cmdname +:+ "("
  +:+ wrap_longlines (join ", " (arglist c)) (Some 50) (repeat_str " " 12)
  +:+ "):" +:+ nl.

(** One line of the parameter section. *)
Definition param_line (it : string * string) : string :=
  I2 +:+ normalized it.1 +:+ ": " +:+ annotation it.1
  +:+ vb2pytype it.2 "repr" +:+ nl.

(** The parameter section: absent for an empty signature. *)
Definition param_section (c : Command) : list string :=
  match sig c with
  | [] => []
  | _ => [I2 +:+ "Parameters" +:+ nl; I2 +:+ "----------" +:+ nl]
         ++ map param_line (sig c)
  end.

(** The two lines that set one field of a record. *)
Definition field_set (p : string) : list string :=
  [I2 +:+ "if " +:+ p +:+ " is not None:" +:+ nl;
   I2 +:+ I1 +:+ "setattr(dstruct, " +:+ dq +:+ p +:+ dq +:+ ", " +:+ p +:+ ")" +:+ nl].

(** The text between the parentheses of the stub call. *)
Definition paramstr (c : Command) : string :=
  let paramstr :=
    wrap_longlines (join ", " (tail (paramlist c))) (Some 50) (repeat_str " " 12) in
  if String.eqb paramstr EmptyString then "None" else paramstr.

(** The line that calls the stub. *)
Definition call_line (c : Command) : string :=
  I2 +:+ "return lib.libfunct(" +:+ paramstr c +:+ ")" +:+ nl.

(** The body: a record and its fields for a datastruct, the stub call
    otherwise. *)
Definition dispatch (cmdname : string) (c : Command) : list string :=
  if String.eqb (cmdtype c) "datastruct" then
    [I2 +:+ "dstruct = w32.Record(" +:+ dq +:+ cmdname +:+ dq
     +:+ ", self._dobj)" +:+ nl]
    ++ flat_map field_set (tail (paramlist c))
    ++ [I2 +:+ "return dstruct" +:+ nl]
  else
    [I2 +:+ "lib = self._dobj.CreateLib(r" +:+ dq
     +:+ path_join STUBDIR (cmdname +:+ ".frs") +:+ dq +:+ ")" +:+ nl;
     call_line c].

(** The whole wrapper, for the documentation block [doc] and the return
    section [r]. *)
Definition wrapper_text (cmdname : string) (c : Command)
    (doc : list (string * string)) (r : string) : list string :=
  [I1 +:+ "# " +:+ repeat_str "=-" 36 +:+ "=" +:+ nl;
   def_line cmdname c;
   I2 +:+ "r" +:+ dq +:+ dq +:+ dq +:+ nl;
   I2 +:+ "Python API documentation:" +:+ nl;
   I2 +:+ "=========================" +:+ nl;
   I2 +:+ descstr wrap_longlines cmdname c +:+ nl;
   nl]
  ++ param_section c
  ++ [r;
      nl;
      I2 +:+ "FRED documentation:" +:+ nl;
      I2 +:+ "===================" +:+ nl;
      fmt_docstr doc I2;
      I2 +:+ dq +:+ dq +:+ dq +:+ nl]
  ++ dispatch cmdname c.

(** The outcome of the loop body on one command, the status lines it
    prints and the chunks it writes. *)
Definition command_effect (apidat : list (string * Command))
    (docdat : gmap string (list (string * string))) (cmdname : string)
  : result unit * list string * list string :=
  match apidat_get apidat cmdname with
  | None => (Raise (KeyError cmdname), [], [])
  | Some c =>
      if String.eqb (cmdtype c) "unknown" then
        (Ok tt, ["... unknown command: " +:+ cmdname +:+ ". SKIPPING"], [])
      else
        match docdat !! cmdname with
        | None => (Raise (KeyError cmdname), ["... wrapping " +:+ cmdname], [])
        | Some doc =>
            match retstr vb2pytype cmdname c with
            | Raise e => (Raise e, ["... wrapping " +:+ cmdname], [])
            | Ok r => (Ok tt, ["... wrapping " +:+ cmdname], wrapper_text cmdname c doc r)
            end
        end
  end.

(** The outcome of the loop over the commands: the effects of the commands
    up to the first that raises. *)
Fixpoint loop_effect (apidat : list (string * Command))
    (docdat : gmap string (list (string * string))) (cmdnames : list string)
  : result unit * list string * list string :=
  match cmdnames with
  | [] => (Ok tt, [], [])
  | n :: rest =>
      match command_effect apidat docdat n with
      | (Ok _, lines, chunks) =>
          match loop_effect apidat docdat rest with
          | (o, lines', chunks') => (o, lines ++ lines', chunks ++ chunks')
          end
      | (Raise e, lines, chunks) => (Raise e, lines, chunks)
      end
  end.

End Wrapper.

(** ** Sample collaborators

    Concrete stand-ins for the collaborators, used where a statement is
    evaluated on a concrete store: no wrapping of lines, a small type table
    ([String] to [str], [Long] to [int], ...), headings and texts of a
    documentation block one per line, and paths joined with a slash. *)

Module Sample.

Definition wrap_longlines (text : string) (ncols : option nat) (indent : string) : string :=
  text.

Definition fmt_docstr (doc : list (string * string)) (indent : string) : string :=
  foldr (fun ht acc => indent +:+ ht.1 +:+ nl +:+ indent +:+ ht.2 +:+ nl +:+ acc)
        EmptyString doc.

Definition vb2pytype (t rettype : string) : string :=
  if String.eqb t "String" then "str"
  else if String.eqb t "Long" then "int"
  else if String.eqb t "Double" then "float"
  else if String.eqb t "Boolean" then "bool"
  else t.

Definition path_join (a b : string) : string := a +:+ "/" +:+ b.

Definition STUBDIR : string := "stubs".

Definition TIMENOW : string := "2017-06-01 12:00:00".

Definition gen_command := wrap_command wrap_longlines fmt_docstr vb2pytype path_join STUBDIR.

Definition gen_main := main wrap_longlines fmt_docstr vb2pytype path_join STUBDIR.

Definition gen_retstr := retstr vb2pytype.

(** A world with nothing written. *)
Definition w0 : world := World [] [] false.

Definition GetUnits : Command :=
  {| cmdtype := "function"; descr := "Gets the units";
     returns := ["Units"; "String"]; sig := [] |}.

Definition SetUnits : Command :=
  {| cmdtype := "subroutine"; descr := "Sets the units";
     returns := []; sig := [("Units", "String")] |}.

Definition T_ENTITY : Command :=
  {| cmdtype := "datastruct"; descr := "An entity";
     returns := []; sig := [("Idnum", "Long"); ("Name", "String")] |}.

Definition Foo : Command :=
  {| cmdtype := "unknown"; descr := EmptyString; returns := []; sig := [] |}.

Definition GetCoords : Command :=
  {| cmdtype := "subroutine"; descr := "Gets coordinates";
     returns := ["ok"; "Boolean"]; sig := [("n", "Long"); ("coords ( )", "Double")] |}.

Definition apidat : list (string * Command) :=
  [("GetUnits", GetUnits); ("Foo", Foo); ("SetUnits", SetUnits);
   ("T_ENTITY", T_ENTITY); ("GetCoords", GetCoords)].

Definition docdat : gmap string (list (string * string)) :=
  <["GetUnits" := [("Description", "Units of the document")] ]>
  (<["SetUnits" := [("Description", "Sets them")] ]>
  (<["T_ENTITY" := nil]>
  (<["GetCoords" := nil]> ∅))).

End Sample.

(** ** The dictionaries of the loop body *)

Section Dictionaries.

Lemma classify_fst (acc : gmap string string * gmap string string) (x : string) :
  (classify acc x).1 = <[x := normalized x]> (acc.1).
Proof. unfold classify, normalized. now destruct (PARMAT_search x). Qed.

Lemma classify_snd (acc : gmap string string * gmap string string) (x : string) :
  (classify acc x).2 = <[x := annotation x]> (acc.2).
Proof. unfold classify, annotation. now destruct (PARMAT_search x). Qed.

(** After the loop, [newparams] holds the normalised name of every raw
    name it has met. *)
Lemma newparams_lookup (params : list string) (p : string) :
  p ∈ params -> (newparams_annots params).1 !! p = Some (normalized p).
Proof.
  unfold newparams_annots. generalize (∅ : gmap string string, ∅ : gmap string string).
  induction params as [|x l IH] using rev_ind; intros acc Hin.
  - inversion Hin.
  - rewrite foldl_app. simpl. rewrite classify_fst.
    destruct (decide (x = p)) as [->|Hne].
    + apply lookup_insert_eq.
    + rewrite lookup_insert_ne by exact Hne. apply IH.
      apply elem_of_app in Hin as [Hin|Hin]; [exact Hin|].
      apply list_elem_of_singleton in Hin. congruence.
Qed.

(** And [annots] holds its annotation. *)
Lemma annots_lookup (params : list string) (p : string) :
  p ∈ params -> (newparams_annots params).2 !! p = Some (annotation p).
Proof.
  unfold newparams_annots. generalize (∅ : gmap string string, ∅ : gmap string string).
  induction params as [|x l IH] using rev_ind; intros acc Hin.
  - inversion Hin.
  - rewrite foldl_app. simpl. rewrite classify_snd.
    destruct (decide (x = p)) as [->|Hne].
    + apply lookup_insert_eq.
    + rewrite lookup_insert_ne by exact Hne. apply IH.
      apply elem_of_app in Hin as [Hin|Hin]; [exact Hin|].
      apply list_elem_of_singleton in Hin. congruence.
Qed.

(** The receiver is entered under its own name, which is also its
    normalised name. *)
Lemma newparams_self_lookup (params : list string) (p : string) :
  p ∈ params ->
  (<["self" := "self"]> (newparams_annots params).1 : gmap string string) !!! p
  = normalized p.
Proof.
  intros Hin. destruct (decide ("self" = p)) as [<-|Hne].
  - rewrite lookup_total_insert_eq. reflexivity.
  - rewrite lookup_total_insert_ne by exact Hne.
    rewrite lookup_total_alt, (newparams_lookup _ _ Hin). reflexivity.
Qed.

Lemma annots_total_lookup (params : list string) (p : string) :
  p ∈ params -> (newparams_annots params).2 !!! p = annotation p.
Proof.
  intros Hin. rewrite lookup_total_alt, (annots_lookup _ _ Hin). reflexivity.
Qed.

End Dictionaries.

(** ** Running the loop body *)

Section RunFacts.

Variable wrap_longlines : string -> option nat -> string -> string.
Variable fmt_docstr : list (string * string) -> string -> string.
Variable vb2pytype : string -> string -> string.
Variable path_join : string -> string -> string.
Variable STUBDIR : string.

Lemma logged_nil (w : world) : logged w [] [] = w.
Proof. destruct w. unfold logged. simpl. now rewrite !app_nil_r. Qed.

Lemma logged_logged (w : world) (l1 l2 c1 c2 : list string) :
  logged (logged w l1 c1) l2 c2 = logged w (l1 ++ l2) (c1 ++ c2).
Proof. unfold logged. simpl. now rewrite !app_assoc. Qed.

(** A loop whose body writes one chunk. *)
Lemma for_each_write {A : Type} (f : A -> string) (l : list A) (w : world) :
  for_each l (fun x => write (f x)) w = (Ok tt, logged w [] (map f l)).
Proof.
  revert w. induction l as [|x l IH]; intros w.
  - simpl. now rewrite logged_nil.
  - simpl. unfold mbind, M_bind. simpl. rewrite IH.
    unfold logged. simpl. now rewrite <- !app_assoc.
Qed.

(** A loop whose body writes two chunks. *)
Lemma for_each_write2 {A : Type} (f g : A -> string) (l : list A) (w : world) :
  for_each l (fun x => write (f x);; write (g x)) w
  = (Ok tt, logged w [] (flat_map (fun x => [f x; g x]) l)).
Proof.
  revert w. induction l as [|x l IH]; intros w.
  - simpl. now rewrite logged_nil.
  - simpl. unfold mbind, M_bind. simpl. unfold mbind, M_bind in IH. rewrite IH.
    unfold logged. simpl. now rewrite <- !app_assoc.
Qed.

(** A loop depends on its body only at the elements it meets. *)
Lemma for_each_ext {A : Type} (body body' : A -> M unit) (l : list A) (w : world) :
  (forall x w', x ∈ l -> body x w' = body' x w') ->
  for_each l body w = for_each l body' w.
Proof.
  revert w. induction l as [|x l IH]; intros w H; [reflexivity|].
  simpl. unfold mbind, M_bind. rewrite H by constructor.
  destruct (body' x w) as [[[]|e] w']; [|reflexivity].
  apply IH. intros y w'' Hy. apply H. now constructor.
Qed.

Lemma bind_write {B : Type} (s : string) (k : unit -> M B) (w : world) :
  (write s ≫= k) w = k tt (logged w [] [s]).
Proof. unfold mbind, M_bind, write, logged. simpl. now rewrite app_nil_r. Qed.

Lemma bind_print {B : Type} (s : string) (k : unit -> M B) (w : world) :
  (print s ≫= k) w = k tt (logged w [s] []).
Proof. unfold mbind, M_bind, print, logged. simpl. now rewrite app_nil_r. Qed.

Lemma bind_lift_ok {A B : Type} (a : A) (k : A -> M B) (w : world) :
  (lift (Ok a) ≫= k) w = k a w.
Proof. reflexivity. Qed.

Lemma bind_ok {A B : Type} (m : M A) (k : A -> M B) (w w' : world) (a : A) :
  m w = (Ok a, w') -> (m ≫= k) w = k a w'.
Proof. intros H. unfold mbind, M_bind. now rewrite H. Qed.

Lemma write_run (s : string) (w : world) : write s w = (Ok tt, logged w [] [s]).
Proof. unfold write, logged. simpl. now rewrite app_nil_r. Qed.

(** The list comprehension over [params] gives [paramlist]. *)
Lemma paramlist_lookup (c : Command) :
  map (fun p => (<["self" := "self"]> (newparams_annots (map fst (sig c))).1
                 : gmap string string) !!! p)
      ("self" :: map fst (sig c))
  = paramlist c.
Proof.
  unfold paramlist. simpl. f_equal.
  - now rewrite lookup_total_insert_eq.
  - apply map_ext_in. intros p Hp.
    apply newparams_self_lookup. now apply list_elem_of_In.
Qed.

(** The loop over [sigitems] writes the lines of the parameter section. *)
Lemma param_loop_run (c : Command) (w : world) :
  for_each (sig c)
    (fun it =>
       write (I2 +:+ ((<["self" := "self"]> (newparams_annots (map fst (sig c))).1
                       : gmap string string) !!! it.1)
              +:+ ": " +:+ ((newparams_annots (map fst (sig c))).2 !!! it.1)
              +:+ vb2pytype it.2 "repr" +:+ nl)) w
  = (Ok tt, logged w [] (map (param_line vb2pytype) (sig c))).
Proof.
  rewrite <- for_each_write. apply for_each_ext. intros it w' Hit.
  assert (Hin : it.1 ∈ map fst (sig c)).
  { apply list_elem_of_In, in_map, list_elem_of_In, Hit. }
  unfold param_line.
  now rewrite (newparams_self_lookup _ _ Hin), (annots_total_lookup _ _ Hin).
Qed.

(** The parameter section, written or skipped. *)
Lemma param_section_run (c : Command) (w : world) :
  (if 0 <? length (map fst (sig c))
   then
     write (I2 +:+ "Parameters" +:+ nl);;
     write (I2 +:+ "----------" +:+ nl);;
     for_each (sig c)
       (fun it =>
          write (I2 +:+ ((<["self" := "self"]> (newparams_annots (map fst (sig c))).1
                          : gmap string string) !!! it.1)
                 +:+ ": " +:+ ((newparams_annots (map fst (sig c))).2 !!! it.1)
                 +:+ vb2pytype it.2 "repr" +:+ nl))
   else mret tt) w
  = (Ok tt, logged w [] (param_section vb2pytype c)).
Proof.
  unfold param_section.
  destruct (sig c) as [|it l] eqn:Es.
  - simpl. now rewrite logged_nil.
  - rewrite <- Es.
    assert (H : (0 <? length (map fst (sig c))) = true) by now rewrite Es.
    rewrite H, !bind_write, param_loop_run, !logged_logged. reflexivity.
Qed.

Lemma wrap_command_run (apidat : list (string * Command))
    (docdat : gmap string (list (string * string))) (cmdname : string) (w : world) :
  wrap_command wrap_longlines fmt_docstr vb2pytype path_join STUBDIR
    apidat docdat cmdname w
  = (let '(o, lines, chunks) :=
       command_effect wrap_longlines fmt_docstr vb2pytype path_join STUBDIR
         apidat docdat cmdname in
     (o, logged w lines chunks)).
Proof.
  unfold wrap_command, command_effect.
  destruct (apidat_get apidat cmdname) as [c|].
  2:{ unfold mbind, M_bind, lift. simpl. now rewrite logged_nil. }
  unfold mbind at 1. unfold M_bind at 1. unfold lift at 1. simpl getitem. cbv iota beta.
  destruct (String.eqb (cmdtype c) "unknown") eqn:Eu.
  { unfold print, logged. simpl. now rewrite app_nil_r. }
  rewrite bind_print.
  destruct (docdat !! cmdname) as [doc|]; [|reflexivity].
  simpl getitem. rewrite bind_lift_ok.
  destruct (retstr vb2pytype cmdname c) as [r|e]; [|reflexivity].
  rewrite bind_lift_ok.
  rewrite paramlist_lookup.
  rewrite !bind_write, !logged_logged.
  change (tail ("self" :: map fst (sig c))) with (map fst (sig c)).
  change (tail (paramlist c)) with (map normalized (map fst (sig c))).
  rewrite (bind_ok _ _ _ _ _ (param_section_run c _)).
  rewrite !bind_write, !logged_logged.
  unfold wrapper_text, dispatch, call_line, paramstr, def_line, arglist.
  change (tail (paramlist c)) with (map normalized (map fst (sig c))).
  destruct (String.eqb (cmdtype c) "datastruct").
  - rewrite bind_write.
    rewrite (bind_ok _ _ _ _ _ (for_each_write2 _ _ _ _)).
    rewrite write_run, !logged_logged.
    simpl. rewrite <- !app_assoc. reflexivity.
  - rewrite bind_write, write_run, !logged_logged.
    simpl. rewrite <- !app_assoc. reflexivity.
Qed.

(** The loop of [main] over the commands. *)
Lemma loop_run (apidat : list (string * Command))
    (docdat : gmap string (list (string * string))) (cmdnames : list string) (w : world) :
  for_each cmdnames
    (wrap_command wrap_longlines fmt_docstr vb2pytype path_join STUBDIR apidat docdat) w
  = (let '(o, lines, chunks) :=
       loop_effect wrap_longlines fmt_docstr vb2pytype path_join STUBDIR
         apidat docdat cmdnames in
     (o, logged w lines chunks)).
Proof.
  revert w. induction cmdnames as [|n rest IH]; intros w.
  - simpl. now rewrite logged_nil.
  - simpl. unfold mbind, M_bind. rewrite wrap_command_run.
    destruct (command_effect _ _ _ _ _ apidat docdat n) as [[[[]|e] lines] chunks];
      [|reflexivity].
    rewrite IH.
    destruct (loop_effect _ _ _ _ _ apidat docdat rest) as [[o lines'] chunks'].
    now rewrite logged_logged.
Qed.

(** [main]: the header, the effects of the loop, and the file closed when
    the loop has not raised. *)
Lemma main_run (TIMENOW : string) (apidat : list (string * Command))
    (docdat : gmap string (list (string * string))) (w : world) :
  main wrap_longlines fmt_docstr vb2pytype path_join STUBDIR TIMENOW apidat docdat w
  = (let '(o, lines, chunks) :=
       loop_effect wrap_longlines fmt_docstr vb2pytype path_join STUBDIR
         apidat docdat (map fst apidat) in
     (o, World (artifact w ++ CLASTR TIMENOW :: chunks)
               (status w ++ (nl +:+ "Wrapping commands in python...") :: lines)
               (match o with Ok _ => true | Raise _ => closed w end))).
Proof.
  unfold main. rewrite bind_write, bind_print, logged_logged.
  unfold mbind, M_bind. rewrite loop_run.
  destruct (loop_effect _ _ _ _ _ apidat docdat (map fst apidat)) as [[[[]|e] lines] chunks];
    unfold logged, close; simpl; rewrite <- ?app_assoc; reflexivity.
Qed.

End RunFacts.

(** ** The return section *)

Section ReturnSection.

Variable vb2pytype : string -> string -> string.

(** One name and type pair of a return section. *)
Definition pair_text (it : string * string) : string :=
  it.1 +:+ ": " +:+ vb2pytype it.2 "repr".

(** The explicit return entry of a descriptor, when [returns] is a pair. *)
Definition ret_entries (c : Command) : list (string * string) :=
  match returns c with
  | [rn; rt] => [(rn, rt)]
  | _ => []
  end.

(** The return section of a subroutine as the specification words it: the
    explicit return first, then the signature parameters; nothing for no
    value, a bare pair for one, a bracketed list for more. *)
Definition subroutine_return_spec (c : Command) : string :=
  match (ret_entries c ++ sig c)%list with
  | [] => EmptyString
  | [e] => rethdg +:+ I2 +:+ pair_text e +:+ nl
  | es => rethdg +:+ I2 +:+ "[" +:+ join ", " (map pair_text es) +:+ "]" +:+ nl
  end.

(** Texts equal up to the grouping of their pieces. *)
Ltac same_text :=
  unfold pair_text; simpl; rewrite ?append_nil_r, ?append_assoc; reflexivity.

Lemma rethdg_not_nil (s : string) : rethdg +:+ s <> EmptyString.
Proof. discriminate. Qed.

(** Unpacking the entries of a signature never raises. *)
Lemma collect_sig (l : list (string * string)) :
  collect (fun it => '(rn, rt) ← unpack2 it; mret (rn +:+ ": " +:+ vb2pytype rt "repr"))
          (map (fun it => [it.1; it.2]) l)
  = Ok (map pair_text l).
Proof.
  induction l as [|[n t] l IH]; [reflexivity|].
  simpl. unfold mbind, result_bind. simpl. unfold mbind, result_bind in IH. now rewrite IH.
Qed.

(** A subroutine whose [returns] is empty or a pair gets the section of the
    specification. *)
Lemma retstr_subroutine (cmdname : string) (c : Command) :
  cmdtype c = "subroutine" ->
  returns c = [] \/ length (returns c) = 2 ->
  retstr vb2pytype cmdname c = Ok (subroutine_return_spec c).
Proof.
  intros Hk Hr. unfold retstr, subroutine_return_spec, ret_entries. rewrite Hk. simpl.
  destruct (returns c) as [|rn [|rt [|x l]]] eqn:Er;
    try (destruct Hr as [Hr|Hr]; simpl in Hr; (discriminate || lia)).
  - simpl. destruct (sig c) as [|e [|e' l]] eqn:Es.
    + reflexivity.
    + simpl. destruct e as [n t]. unfold mbind, result_bind, mret, result_ret.
      same_text.
    + change (0 <? length (e :: e' :: l)) with true. cbv iota. simpl app.
      rewrite collect_sig. unfold mbind, result_bind, mret, result_ret.
      change (1 <? length (map (fun it => [it.1; it.2]) (e :: e' :: l))) with true.
      cbv iota. same_text.
  - simpl orb. cbv iota. change (0 <? length [rn; rt]) with true. cbv iota.
    destruct (sig c) as [|e l] eqn:Es.
    + simpl. unfold mbind, result_bind, mret, result_ret. same_text.
    + change (0 <? length (e :: l)) with true. cbv iota.
      change (1 <? length ([[rn; rt]] ++ map (fun it => [it.1; it.2]) (e :: l))) with true.
      cbv iota.
      change ([[rn; rt]] ++ map (fun it => [it.1; it.2]) (e :: l))
        with (map (fun it : string * string => [it.1; it.2]) ((rn, rt) :: e :: l)).
      rewrite collect_sig. unfold mbind, result_bind, mret, result_ret.
      same_text.
Qed.

(** A function: nothing for an empty [returns], the pair for a pair, an
    exception for any other length. *)
Lemma retstr_function (cmdname : string) (c : Command) :
  cmdtype c = "function" ->
  retstr vb2pytype cmdname c
  = match returns c with
    | [] => Ok EmptyString
    | [rn; rt] => Ok (rethdg +:+ I2 +:+ rn +:+ ": " +:+ vb2pytype rt "repr" +:+ nl)
    | _ => Raise ValueError
    end.
Proof.
  intros Hk. unfold retstr. rewrite Hk. simpl.
  destruct (returns c) as [|rn [|rt [|x l]]]; reflexivity.
Qed.

Lemma retstr_datastruct (cmdname : string) (c : Command) :
  cmdtype c = "datastruct" ->
  retstr vb2pytype cmdname c
  = Ok (rethdg +:+ (I2 +:+ "datastruct: <com_record " +:+ cmdname +:+ ">" +:+ nl)).
Proof. intros Hk. unfold retstr. now rewrite Hk. Qed.

End ReturnSection.

(** ** The array marker at the end of a name *)

Section Marker.

(** White space only. *)
Fixpoint all_space (s : string) : bool :=
  match s with
  | EmptyString => true
  | String c t => is_space c && all_space t
  end.

(** Neither white space nor an opening parenthesis: a bare name. *)
Fixpoint bare (s : string) : bool :=
  match s with
  | EmptyString => true
  | String c t => negb (is_space c) && negb (Ascii.eqb c "("%char) && bare t
  end.

Lemma skip_space_blank (ws r : string) :
  all_space ws = true -> skip_space (ws +:+ r) = skip_space r.
Proof.
  induction ws as [|c t IH]; intros H; [reflexivity|].
  simpl in H. apply andb_prop in H as [Hc Ht].
  rewrite append_cons. simpl. rewrite Hc. now apply IH.
Qed.

Lemma skip_space_all (ws : string) :
  all_space ws = true -> skip_space ws = EmptyString.
Proof.
  intros H. rewrite <- (append_nil_r ws). now rewrite skip_space_blank.
Qed.

(** The marker, with any white space around and inside it, is one match
    that takes everything. *)
Lemma marker_match (ws1 ws2 ws3 : string) :
  all_space ws1 = true -> all_space ws2 = true -> all_space ws3 = true ->
  PARMAT_match (ws1 +:+ "(" +:+ ws2 +:+ ")" +:+ ws3) = Some EmptyString.
Proof.
  intros H1 H2 H3. unfold PARMAT_match.
  rewrite (skip_space_blank _ _ H1). rewrite append_cons, append_nil_l.
  simpl skip_space at 1. cbv iota.
  rewrite (skip_space_blank _ _ H2). rewrite append_cons, append_nil_l.
  simpl skip_space at 1. cbv iota.
  now rewrite (skip_space_all _ H3).
Qed.

(** No match starts at a character of a bare name. *)
Lemma bare_head_no_match (c : ascii) (t : string) :
  is_space c = false -> Ascii.eqb c "("%char = false ->
  PARMAT_match (String c t) = None.
Proof.
  intros Hs Hp. unfold PARMAT_match. simpl. rewrite Hs.
  destruct c as [[] [] [] [] [] [] [] []]; try reflexivity; discriminate.
Qed.

Lemma PARMAT_search_match (s rest : string) :
  PARMAT_match s = Some rest -> PARMAT_search s = true.
Proof. intros H. destruct s; [discriminate|]. cbn [PARMAT_search]. now rewrite H. Qed.

(** A bare name followed by the marker: the pattern is found and the
    substitution leaves the bare name. *)
Lemma marker_suffix (base ws1 ws2 ws3 : string) :
  bare base = true ->
  all_space ws1 = true -> all_space ws2 = true -> all_space ws3 = true ->
  PARMAT_search (base +:+ ws1 +:+ "(" +:+ ws2 +:+ ")" +:+ ws3) = true
  /\ PARMAT_sub (base +:+ ws1 +:+ "(" +:+ ws2 +:+ ")" +:+ ws3) = base.
Proof.
  intros Hb H1 H2 H3.
  pose proof (marker_match _ _ _ H1 H2 H3) as Hm.
  induction base as [|c t IH].
  - rewrite append_nil_l. split.
    + exact (PARMAT_search_match _ _ Hm).
    + now rewrite (PARMAT_sub_match _ _ Hm).
  - simpl in Hb. apply andb_prop in Hb as [Hb Ht]. apply andb_prop in Hb as [Hs Hp].
    apply negb_true_iff in Hs, Hp.
    destruct (IH Ht) as [IHs IHr].
    rewrite append_cons.
    pose proof (bare_head_no_match c (t +:+ ws1 +:+ "(" +:+ ws2 +:+ ")" +:+ ws3) Hs Hp) as Hn.
    split.
    + cbn [PARMAT_search]. now rewrite Hn.
    + rewrite (PARMAT_sub_keep _ _ Hn). now rewrite IHr.
Qed.

(** The white space skipped and what is left, which does not start with
    white space. *)
Lemma skip_space_split (s : string) :
  exists ws : string,
    all_space ws = true /\ s = ws +:+ skip_space s
    /\ skip_space (skip_space s) = skip_space s.
Proof.
  induction s as [|c t (ws & Hws & Hs & Hi)].
  - exists EmptyString. repeat split.
  - simpl. destruct (is_space c) eqn:Hc.
    + exists (String c ws). split; [simpl; now rewrite Hc|].
      split; [rewrite append_cons; now f_equal|exact Hi].
    + exists EmptyString. split; [reflexivity|]. split; [reflexivity|].
      simpl. now rewrite Hc.
Qed.

(** The three steps of an anchored match. *)
Lemma PARMAT_match_steps (s rest : string) :
  PARMAT_match s = Some rest ->
  exists s1 s2 : string,
    skip_space s = String "("%char s1
    /\ skip_space s1 = String ")"%char s2
    /\ rest = skip_space s2.
Proof.
  unfold PARMAT_match. intros H.
  destruct (skip_space s) as [|c s1]; [discriminate|].
  destruct (Ascii.eqb_spec c "("%char) as [->|Hc].
  - destruct (skip_space s1) as [|d s2] eqn:E1; [discriminate|].
    destruct (Ascii.eqb_spec d ")"%char) as [->|Hd].
    + injection H as <-. exists s1, s2. repeat split. exact E1.
    + destruct d as [[] [] [] [] [] [] [] []]; try discriminate; congruence.
  - destruct c as [[] [] [] [] [] [] [] []]; try discriminate; congruence.
Qed.

(** The shape of an anchored match, for the facts below. *)
Lemma PARMAT_match_shape (s rest : string) :
  PARMAT_match s = Some rest
  <-> exists ws1 ws2 ws3 : string,
        all_space ws1 = true /\ all_space ws2 = true /\ all_space ws3 = true
        /\ s = ws1 +:+ "(" +:+ ws2 +:+ ")" +:+ ws3 +:+ rest
        /\ skip_space rest = rest.
Proof.
  split.
  - intros H. apply PARMAT_match_steps in H as (s1 & s2 & H1 & H2 & ->).
    destruct (skip_space_split s) as (ws1 & Hw1 & Hs & _).
    destruct (skip_space_split s1) as (ws2 & Hw2 & Hs1 & _).
    destruct (skip_space_split s2) as (ws3 & Hw3 & Hs2 & Hi).
    exists ws1, ws2, ws3. repeat split; try assumption.
    rewrite Hs at 1. rewrite H1. f_equal. rewrite append_cons, append_nil_l. f_equal.
    rewrite Hs1 at 1. rewrite H2. f_equal. rewrite append_cons, append_nil_l. f_equal.
    exact Hs2.
  - intros (ws1 & ws2 & ws3 & H1 & H2 & H3 & -> & Hr).
    unfold PARMAT_match.
    rewrite (skip_space_blank _ _ H1). rewrite append_cons, append_nil_l.
    simpl skip_space at 1. cbv iota.
    rewrite (skip_space_blank _ _ H2). rewrite append_cons, append_nil_l.
    simpl skip_space at 1. cbv iota.
    now rewrite (skip_space_blank _ _ H3), Hr.
Qed.

(** A name that holds the array marker: an opening parenthesis followed,
    after white space only, by a closing one. *)
Definition has_marker (s : string) : Prop :=
  exists pre ws post : string,
    all_space ws = true /\ s = pre +:+ "(" +:+ ws +:+ ")" +:+ post.

(** The pattern is found exactly in the names that hold the marker. *)
Lemma PARMAT_search_shape (s : string) : PARMAT_search s = true <-> has_marker s.
Proof.
  unfold has_marker.
  split.
  - induction s as [|c t IH]; intros H; [discriminate|].
    cbn [PARMAT_search] in H.
    destruct (PARMAT_match (String c t)) as [rest|] eqn:E.
    + apply PARMAT_match_shape in E as (ws1 & ws2 & ws3 & _ & H2 & _ & Hs & _).
      exists ws1, ws2, (ws3 +:+ rest). split; [exact H2|exact Hs].
    + destruct (IH H) as (pre & ws & post & Hw & ->).
      exists (String c pre), ws, post. split; [exact Hw|now rewrite append_cons].
  - intros (pre & ws & post & Hw & ->).
    induction pre as [|c pre IH].
    + rewrite append_nil_l.
      apply (PARMAT_search_match _ (skip_space post)).
      destruct (skip_space_split post) as (ws3 & Hw3 & Hp & Hi).
      apply PARMAT_match_shape. exists EmptyString, ws, ws3.
      repeat split; try assumption. rewrite append_nil_l. now rewrite <- Hp.
    + rewrite append_cons. cbn [PARMAT_search].
      now destruct (PARMAT_match _).
Qed.

(** Both branches of the test on the search store the substituted name. *)
Lemma normalized_sub (p : string) : normalized p = PARMAT_sub p.
Proof.
  unfold normalized. destruct (PARMAT_search p) eqn:Hs; [reflexivity|].
  symmetry. now apply PARMAT_sub_nomatch.
Qed.

(** The annotation of a name that holds the marker, and of one that does
    not. *)
Lemma annotation_marker (p : string) : has_marker p -> annotation p = "Array-like of ".
Proof. intros H. apply PARMAT_search_shape in H. unfold annotation. now rewrite H. Qed.

Lemma annotation_plain (p : string) : ~ has_marker p -> annotation p = EmptyString.
Proof.
  intros H. unfold annotation. destruct (PARMAT_search p) eqn:Hs; [|reflexivity].
  contradict H. now apply PARMAT_search_shape.
Qed.

End Marker.

(** ** Properties of the generator *)

(** The bytes of the output file: the chunks written, one after the other. *)
Definition contents (chunks : list string) : string :=
  foldr String.append EmptyString chunks.

Lemma contents_app (a b : list string) :
  contents (a ++ b) = contents a +:+ contents b.
Proof.
  induction a as [|x a IH]; [reflexivity|].
  simpl. rewrite IH. now rewrite append_assoc.
Qed.

(** ** Lists rendered piece by piece

    The elements of a list each followed by the separator, and each
    preceded by it: what stands before and behind one element of a joined
    list. *)

Definition each_then (sep : string) (l : list string) : string :=
  foldr (fun x acc => x +:+ sep +:+ acc) EmptyString l.

Definition each_after (sep : string) (l : list string) : string :=
  foldr (fun x acc => sep +:+ x +:+ acc) EmptyString l.

Lemma join_cons (sep x : string) (l : list string) :
  join sep (x :: l) = x +:+ each_after sep l.
Proof.
  revert x. induction l as [|y l IH]; intros x.
  - simpl. now rewrite append_nil_r.
  - change (join sep (x :: y :: l)) with (x +:+ sep +:+ join sep (y :: l)).
    now rewrite IH.
Qed.

Lemma each_after_middle (sep x : string) (l1 l2 : list string) :
  each_after sep (l1 ++ x :: l2)
  = sep +:+ each_then sep l1 +:+ x +:+ each_after sep l2.
Proof.
  induction l1 as [|a l1 IH]; [reflexivity|].
  simpl. rewrite IH. now rewrite !append_assoc.
Qed.

(** One element of a joined list, with what stands around it. *)
Lemma join_middle (sep x : string) (l1 l2 : list string) :
  join sep (l1 ++ x :: l2) = each_then sep l1 +:+ x +:+ each_after sep l2.
Proof.
  destruct l1 as [|a l1]; [apply join_cons|].
  simpl app. rewrite join_cons, each_after_middle. simpl. now rewrite !append_assoc.
Qed.

(** The element at a position of a joined list. *)
Lemma join_lookup (sep x : string) (l : list string) (i : nat) :
  l !! i = Some x ->
  join sep l = each_then sep (take i l) +:+ x +:+ each_after sep (drop (S i) l).
Proof.
  intros H. rewrite <- (take_drop_middle l i x H) at 1. apply join_middle.
Qed.

Section Claims.

Variable wrap_longlines : string -> option nat -> string -> string.
Variable fmt_docstr : list (string * string) -> string -> string.
Variable vb2pytype : string -> string -> string.
Variable path_join : string -> string -> string.
Variable STUBDIR : string.

Local Abbreviation run_command :=
  (wrap_command wrap_longlines fmt_docstr vb2pytype path_join STUBDIR).
Local Abbreviation run_main :=
  (main wrap_longlines fmt_docstr vb2pytype path_join STUBDIR).
Local Abbreviation text_of :=
  (wrapper_text wrap_longlines fmt_docstr vb2pytype path_join STUBDIR).
Local Abbreviation effects_of :=
  (loop_effect wrap_longlines fmt_docstr vb2pytype path_join STUBDIR).

(** A command that is not skipped, has its documentation and a return
    section: one progress line and the text of the wrapper. *)
Lemma command_ok (apidat : list (string * Command))
    (docdat : gmap string (list (string * string)))
    (cmdname : string) (c : Command) (doc : list (string * string)) (r : string)
    (w : world) :
  apidat_get apidat cmdname = Some c ->
  String.eqb (cmdtype c) "unknown" = false ->
  docdat !! cmdname = Some doc ->
  retstr vb2pytype cmdname c = Ok r ->
  run_command apidat docdat cmdname w
  = (Ok tt, logged w ["... wrapping " +:+ cmdname] (text_of cmdname c doc r)).
Proof.
  intros Ha Hu Hd Hr. rewrite wrap_command_run. unfold command_effect.
  now rewrite Ha, Hu, Hd, Hr.
Qed.

(** A command whose return section raises: the progress line only. *)
Lemma command_raise (apidat : list (string * Command))
    (docdat : gmap string (list (string * string)))
    (cmdname : string) (c : Command) (doc : list (string * string)) (e : exn)
    (w : world) :
  apidat_get apidat cmdname = Some c ->
  String.eqb (cmdtype c) "unknown" = false ->
  docdat !! cmdname = Some doc ->
  retstr vb2pytype cmdname c = Raise e ->
  run_command apidat docdat cmdname w
  = (Raise e, World (artifact w) (status w ++ ["... wrapping " +:+ cmdname]) (closed w)).
Proof.
  intros Ha Hu Hd Hr. rewrite wrap_command_run. unfold command_effect.
  rewrite Ha, Hu, Hd, Hr. unfold logged. now rewrite app_nil_r.
Qed.

(** A raising body stops the loop. *)
Lemma for_each_raise {A : Type} (body : A -> M unit) (x : A) (rest : list A)
    (e : exn) (w w' : world) :
  body x w = (Raise e, w') -> for_each (x :: rest) body w = (Raise e, w').
Proof. intros H. simpl. unfold mbind, M_bind. now rewrite H. Qed.

(** A returning body hands its world to the rest of the loop. *)
Lemma for_each_ok {A : Type} (body : A -> M unit) (x : A) (rest : list A)
    (w w' : world) :
  body x w = (Ok tt, w') -> for_each (x :: rest) body w = for_each rest body w'.
Proof. intros H. simpl. unfold mbind, M_bind. now rewrite H. Qed.

(** A loop over two lists in a row. *)
Lemma for_each_app {A : Type} (body : A -> M unit) (l1 l2 : list A) (w w1 : world) :
  for_each l1 body w = (Ok tt, w1) ->
  for_each (l1 ++ l2) body w = for_each l2 body w1.
Proof.
  revert w. induction l1 as [|x l1 IH]; intros w H.
  - simpl in H. now injection H as ->.
  - simpl in *. unfold mbind, M_bind in *.
    destruct (body x w) as [[[]|e] w']; [|discriminate]. now apply IH.
Qed.

(** The world in which the loop of [main] starts. *)
Definition started (TIMENOW : string) (w : world) : world :=
  World (artifact w ++ [CLASTR TIMENOW])
        (status w ++ [nl +:+ "Wrapping commands in python..."])
        (closed w).

(** [main] raises where a command raises, once the commands before it have
    gone through; the file is not closed. *)
Lemma main_raises (TIMENOW : string) (apidat : list (string * Command))
    (docdat : gmap string (list (string * string)))
    (pre post : list string) (cmdname : string) (e : exn) (w w1 w2 : world) :
  map fst apidat = pre ++ cmdname :: post ->
  for_each pre (run_command apidat docdat) (started TIMENOW w) = (Ok tt, w1) ->
  run_command apidat docdat cmdname w1 = (Raise e, w2) ->
  run_main TIMENOW apidat docdat w = (Raise e, w2).
Proof.
  intros Hkeys Hpre Hcmd. unfold main. rewrite bind_write, bind_print, logged_logged.
  rewrite Hkeys. unfold mbind at 1. unfold M_bind.
  change (logged w ([] ++ [nl +:+ "Wrapping commands in python..."])
                   ([CLASTR TIMENOW] ++ []))
    with (started TIMENOW w).
  rewrite (for_each_app _ _ _ _ _ Hpre).
  now rewrite (for_each_raise _ _ _ _ _ _ Hcmd).
Qed.

(** C6: a command of kind unknown writes nothing to the output file, prints
    exactly one skip notice that names it, and the loop goes on with the
    remaining commands from there. *)
Theorem unknown_command_skipped (apidat : list (string * Command))
    (docdat : gmap string (list (string * string)))
    (cmdname : string) (c : Command) (w : world) :
  apidat_get apidat cmdname = Some c ->
  cmdtype c = "unknown" ->
  let w' := World (artifact w)
                  (status w ++ ["... unknown command: " +:+ cmdname +:+ ". SKIPPING"])
                  (closed w) in
  run_command apidat docdat cmdname w = (Ok tt, w')
  /\ forall rest : list string,
       for_each (cmdname :: rest) (run_command apidat docdat) w
       = for_each rest (run_command apidat docdat) w'.
Proof.
  intros Ha Hk w'.
  assert (H : run_command apidat docdat cmdname w = (Ok tt, w')).
  { rewrite wrap_command_run. unfold command_effect. rewrite Ha, Hk. simpl.
    unfold logged, w'. now rewrite app_nil_r. }
  split; [exact H|]. intros rest. now apply for_each_ok.
Qed.

(** C1, as the code has it: a command that is not of kind unknown and has
    no entry in the documentation store makes the lookup of its entry raise
    a KeyError.  The progress line is printed, nothing is written for the
    command, the loop stops there, and [main] raises with the file left
    open, whatever the commands before it have written. *)
Theorem missing_documentation_raises (apidat : list (string * Command))
    (docdat : gmap string (list (string * string)))
    (cmdname : string) (c : Command) (w : world) :
  apidat_get apidat cmdname = Some c ->
  cmdtype c <> "unknown" ->
  docdat !! cmdname = None ->
  let stop (w0 : world) :=
    (Raise (KeyError cmdname) : result unit,
     World (artifact w0) (status w0 ++ ["... wrapping " +:+ cmdname]) (closed w0)) in
  run_command apidat docdat cmdname w = stop w
  /\ (forall rest : list string,
        for_each (cmdname :: rest) (run_command apidat docdat) w = stop w)
  /\ (forall (TIMENOW : string) (pre post : list string) (w1 : world),
        map fst apidat = pre ++ cmdname :: post ->
        for_each pre (run_command apidat docdat) (started TIMENOW w) = (Ok tt, w1) ->
        run_main TIMENOW apidat docdat w = stop w1).
Proof.
  intros Ha Hk Hd stop.
  assert (Hu : String.eqb (cmdtype c) "unknown" = false) by now apply String.eqb_neq.
  assert (H : forall w0, run_command apidat docdat cmdname w0 = stop w0).
  { intros w0. rewrite wrap_command_run. unfold command_effect.
    rewrite Ha, Hu, Hd. unfold stop, logged. now rewrite app_nil_r. }
  split; [apply H|]. split.
  - intros rest. apply for_each_raise, H.
  - intros TIMENOW pre post w1 Hkeys Hpre.
    apply (main_raises _ _ _ _ _ _ _ _ _ _ Hkeys Hpre (H w1)).
Qed.

(** C8: two runs over the same stores differ in the time stamp of the
    header only: the outcome, the status lines and every chunk after the
    header are the same, and so are the bytes of the file around the time
    stamp. *)
Theorem timestamp_only_difference (t1 t2 : string)
    (apidat : list (string * Command))
    (docdat : gmap string (list (string * string))) (w : world) :
  exists (o : result unit) (body : list string) (w1 w2 : world),
    run_main t1 apidat docdat w = (o, w1)
    /\ run_main t2 apidat docdat w = (o, w2)
    /\ artifact w1 = artifact w ++ CLASTR t1 :: body
    /\ artifact w2 = artifact w ++ CLASTR t2 :: body
    /\ status w1 = status w2
    /\ closed w1 = closed w2
    /\ contents (artifact w1)
       = contents (artifact w) +:+ CLASTR_head +:+ t1 +:+ CLASTR_tail +:+ contents body
    /\ contents (artifact w2)
       = contents (artifact w) +:+ CLASTR_head +:+ t2 +:+ CLASTR_tail +:+ contents body.
Proof.
  rewrite !main_run.
  destruct (effects_of apidat docdat (map fst apidat)) as [[o lines] body].
  eexists o, body, _, _. repeat split; simpl.
  - rewrite contents_app. simpl. unfold CLASTR. now rewrite !append_assoc.
  - rewrite contents_app. simpl. unfold CLASTR. now rewrite !append_assoc.
Qed.

(** C9: for a function whose [returns] is not empty, the command goes
    through exactly when [returns] has two elements; with any other length
    the unpacking of the pair raises, nothing is written for the command,
    the loop stops there and [main] raises. *)
Theorem function_return_must_be_pair (apidat : list (string * Command))
    (docdat : gmap string (list (string * string)))
    (cmdname : string) (c : Command) (doc : list (string * string)) (w : world) :
  apidat_get apidat cmdname = Some c ->
  docdat !! cmdname = Some doc ->
  cmdtype c = "function" ->
  returns c <> [] ->
  let stop (w0 : world) :=
    (Raise ValueError : result unit,
     World (artifact w0) (status w0 ++ ["... wrapping " +:+ cmdname]) (closed w0)) in
  ((exists w', run_command apidat docdat cmdname w = (Ok tt, w'))
   <-> length (returns c) = 2)
  /\ (length (returns c) <> 2 ->
      retstr vb2pytype cmdname c = Raise ValueError
      /\ run_command apidat docdat cmdname w = stop w
      /\ (forall rest : list string,
            for_each (cmdname :: rest) (run_command apidat docdat) w = stop w)
      /\ (forall (TIMENOW : string) (pre post : list string) (w1 : world),
            map fst apidat = pre ++ cmdname :: post ->
            for_each pre (run_command apidat docdat) (started TIMENOW w) = (Ok tt, w1) ->
            run_main TIMENOW apidat docdat w = stop w1)).
Proof.
  intros Ha Hd Hk Hne stop.
  assert (Hu : String.eqb (cmdtype c) "unknown" = false) by now rewrite Hk.
  pose proof (retstr_function vb2pytype cmdname c Hk) as Hr.
  assert (Hstop : retstr vb2pytype cmdname c = Raise ValueError ->
                  retstr vb2pytype cmdname c = Raise ValueError
                  /\ run_command apidat docdat cmdname w = stop w
                  /\ (forall rest : list string,
                        for_each (cmdname :: rest) (run_command apidat docdat) w = stop w)
                  /\ (forall (TIMENOW : string) (pre post : list string) (w1 : world),
                        map fst apidat = pre ++ cmdname :: post ->
                        for_each pre (run_command apidat docdat) (started TIMENOW w)
                        = (Ok tt, w1) ->
                        run_main TIMENOW apidat docdat w = stop w1)).
  { intros He.
    assert (H : forall w0, run_command apidat docdat cmdname w0 = stop w0)
      by (intros w0; apply (command_raise _ _ _ _ _ _ w0 Ha Hu Hd He)).
    split; [exact He|]. split; [apply H|]. split.
    - intros rest. apply for_each_raise, H.
    - intros TIMENOW pre post w1 Hkeys Hpre.
      apply (main_raises _ _ _ _ _ _ _ _ _ _ Hkeys Hpre (H w1)). }
  destruct (returns c) as [|rn [|rt [|x l]]] eqn:Er; [contradiction| | |].
  - split.
    + split; [|discriminate]. intros [w' Hw].
      rewrite (command_raise _ _ _ _ _ _ _ Ha Hu Hd Hr) in Hw. discriminate.
    + intros _. now apply Hstop.
  - split.
    + split; [reflexivity|]. intros _. eexists.
      apply (command_ok _ _ _ _ _ _ _ Ha Hu Hd Hr).
    + simpl. intros H. now contradict H.
  - split.
    + split; [|discriminate]. intros [w' Hw].
      rewrite (command_raise _ _ _ _ _ _ _ Ha Hu Hd Hr) in Hw. discriminate.
    + intros _. now apply Hstop.
Qed.

(** C3: for a function whose [returns] is empty or a pair, the wrapper is
    written with a return section that is present exactly when [returns] is
    not empty, and that holds the heading and the one pair of the return
    name and its translated type. *)
Theorem function_return_section (apidat : list (string * Command))
    (docdat : gmap string (list (string * string)))
    (cmdname : string) (c : Command) (doc : list (string * string)) (w : world) :
  apidat_get apidat cmdname = Some c ->
  docdat !! cmdname = Some doc ->
  cmdtype c = "function" ->
  returns c = [] \/ length (returns c) = 2 ->
  exists r : string,
    retstr vb2pytype cmdname c = Ok r
    /\ run_command apidat docdat cmdname w
       = (Ok tt, logged w ["... wrapping " +:+ cmdname] (text_of cmdname c doc r))
    /\ (r <> EmptyString <-> returns c <> [])
    /\ (forall rn rt : string,
          returns c = [rn; rt] ->
          r = rethdg +:+ I2 +:+ rn +:+ ": " +:+ vb2pytype rt "repr" +:+ nl).
Proof.
  intros Ha Hd Hk Hwf.
  assert (Hu : String.eqb (cmdtype c) "unknown" = false) by now rewrite Hk.
  pose proof (retstr_function vb2pytype cmdname c Hk) as Hr.
  destruct (returns c) as [|rn [|rt [|x l]]] eqn:Er;
    try (destruct Hwf as [Hwf|Hwf]; simpl in Hwf; (discriminate || lia)).
  - exists EmptyString. split; [exact Hr|]. split.
    + apply (command_ok _ _ _ _ _ _ _ Ha Hu Hd Hr).
    + split; [tauto|]. intros rn rt H. discriminate.
  - eexists. split; [exact Hr|]. split.
    + apply (command_ok _ _ _ _ _ _ _ Ha Hu Hd Hr).
    + split.
      * split; [discriminate|]. intros _. apply rethdg_not_nil.
      * intros rn' rt' H. now injection H as <- <-.
Qed.

(** C2: for a subroutine whose [returns] is empty or a pair, the wrapper is
    written with a return section that is present exactly when there is a
    signature parameter or a return entry.  Its values are the explicit
    return, when there is one, then the signature parameters in their
    order: one value is a bare pair, two or more are a bracketed list. *)
Theorem subroutine_return_section (apidat : list (string * Command))
    (docdat : gmap string (list (string * string)))
    (cmdname : string) (c : Command) (doc : list (string * string)) (w : world) :
  apidat_get apidat cmdname = Some c ->
  docdat !! cmdname = Some doc ->
  cmdtype c = "subroutine" ->
  returns c = [] \/ length (returns c) = 2 ->
  let entries := ret_entries c ++ sig c in
  exists r : string,
    retstr vb2pytype cmdname c = Ok r
    /\ run_command apidat docdat cmdname w
       = (Ok tt, logged w ["... wrapping " +:+ cmdname] (text_of cmdname c doc r))
    /\ (r <> EmptyString <-> (sig c <> [] \/ returns c <> []))
    /\ (returns c = [] -> entries = sig c)
    /\ (forall rn rt : string, returns c = [rn; rt] -> entries = (rn, rt) :: sig c)
    /\ (forall e : string * string,
          entries = [e] -> r = rethdg +:+ I2 +:+ pair_text vb2pytype e +:+ nl)
    /\ (2 <= length entries ->
        r = rethdg +:+ I2 +:+ "[" +:+ join ", " (map (pair_text vb2pytype) entries)
            +:+ "]" +:+ nl).
Proof.
  intros Ha Hd Hk Hwf entries.
  assert (Hu : String.eqb (cmdtype c) "unknown" = false) by now rewrite Hk.
  pose proof (retstr_subroutine vb2pytype cmdname c Hk Hwf) as Hr.
  exists (subroutine_return_spec vb2pytype c). split; [exact Hr|]. split.
  { apply (command_ok _ _ _ _ _ _ _ Ha Hu Hd Hr). }
  unfold subroutine_return_spec. fold entries.
  assert (He : (returns c = [] -> entries = sig c)
               /\ (forall rn rt, returns c = [rn; rt] -> entries = (rn, rt) :: sig c)).
  { unfold entries, ret_entries. split.
    - now intros ->.
    - intros rn rt ->. reflexivity. }
  destruct He as [He0 He2].
  split; [|split; [exact He0|split; [exact He2|]]].
  - destruct (returns c) as [|rn [|rt [|x l]]] eqn:Er;
      try (destruct Hwf as [Hwf|Hwf]; simpl in Hwf; (discriminate || lia)).
    + rewrite (He0 eq_refl). destruct (sig c) as [|e [|e' l]].
      * split; [congruence|]. intros [H|H]; congruence.
      * split; [intros _; left; discriminate | intros _; apply rethdg_not_nil].
      * split; [intros _; left; discriminate | intros _; apply rethdg_not_nil].
    + rewrite (He2 _ _ eq_refl). destruct (sig c) as [|e l].
      * split; [intros _; right; discriminate | intros _; apply rethdg_not_nil].
      * split; [intros _; right; discriminate | intros _; apply rethdg_not_nil].
  - split.
    + intros e ->. reflexivity.
    + intros Hlen. destruct entries as [|e [|e' l]]; simpl in Hlen; try lia.
      reflexivity.
Qed.

Lemma lookup_map {A B : Type} (f : A -> B) (l : list A) (i : nat) (x : A) :
  l !! i = Some x -> map f l !! i = Some (f x).
Proof.
  revert i. induction l as [|y l IH]; intros [|i] H; try discriminate.
  - injection H as ->. reflexivity.
  - simpl. now apply IH.
Qed.

(** The names of the header follow the signature, behind the receiver. *)
Lemma paramlist_lookup_sig (c : Command) (i : nat) (par typ : string) :
  sig c !! i = Some (par, typ) -> paramlist c !! S i = Some (normalized par).
Proof.
  intros H. unfold paramlist. simpl.
  apply (lookup_map normalized). now apply (lookup_map fst) in H.
Qed.

(** The lines of the parameter section follow the signature, behind the
    heading. *)
Lemma param_section_lookup (c : Command) (i : nat) (par typ : string) :
  sig c !! i = Some (par, typ) ->
  param_section vb2pytype c !! (2 + i)
  = Some (I2 +:+ normalized par +:+ ": " +:+ annotation par
          +:+ vb2pytype typ "repr" +:+ nl).
Proof.
  intros H. unfold param_section.
  destruct (sig c) as [|e l] eqn:Es; [destruct i; discriminate|].
  simpl. now apply (lookup_map (param_line vb2pytype)) in H.
Qed.

(** A return section with a value: the heading, the pairs joined, and the
    brackets when there are several. *)
Lemma subroutine_return_spec_pairs (c : Command) :
  ret_entries c ++ sig c <> [] ->
  subroutine_return_spec vb2pytype c
  = rethdg +:+ I2
    +:+ (if 1 <? length (ret_entries c ++ sig c) then "[" else EmptyString)
    +:+ join ", " (map (pair_text vb2pytype) (ret_entries c ++ sig c))
    +:+ (if 1 <? length (ret_entries c ++ sig c) then "]" else EmptyString)
    +:+ nl.
Proof.
  intros Hne. unfold subroutine_return_spec.
  destruct (ret_entries c ++ sig c) as [|e [|e' l]]; [contradiction| |reflexivity].
  simpl. now rewrite append_nil_l.
Qed.

(** The places of the chunks in the text of a wrapper: the line that opens
    the definition, the lines of the parameter section, the return
    section behind them. *)
Lemma wrapper_text_def (cmdname : string) (c : Command)
    (doc : list (string * string)) (r : string) :
  text_of cmdname c doc r !! 1 = Some (def_line wrap_longlines cmdname c).
Proof. reflexivity. Qed.

Lemma param_section_length (c : Command) :
  sig c <> [] -> length (param_section vb2pytype c) = 2 + length (sig c).
Proof.
  intros H. unfold param_section. destruct (sig c) as [|e l]; [contradiction|].
  simpl. now rewrite length_map.
Qed.

Lemma wrapper_text_param (cmdname : string) (c : Command)
    (doc : list (string * string)) (r : string) (i : nat) (par typ : string) :
  sig c !! i = Some (par, typ) ->
  text_of cmdname c doc r !! (9 + i)
  = Some (I2 +:+ normalized par +:+ ": " +:+ annotation par
          +:+ vb2pytype typ "repr" +:+ nl).
Proof.
  intros H. unfold wrapper_text.
  change (9 + i) with (7 + (2 + i)).
  rewrite lookup_app_r by (simpl; lia).
  replace (7 + (2 + i) - _) with (2 + i) by (simpl; lia).
  apply lookup_app_l_Some.
  now apply param_section_lookup.
Qed.

Lemma wrapper_text_retstr (cmdname : string) (c : Command)
    (doc : list (string * string)) (r : string) :
  sig c <> [] -> text_of cmdname c doc r !! (9 + length (sig c)) = Some r.
Proof.
  intros H. unfold wrapper_text.
  change (9 + length (sig c)) with (7 + (2 + length (sig c))).
  rewrite lookup_app_r by (simpl; lia).
  replace (7 + (2 + length (sig c)) - _) with (2 + length (sig c)) by (simpl; lia).
  rewrite lookup_app_r by (rewrite param_section_length by exact H; lia).
  rewrite param_section_length by exact H.
  now replace (2 + length (sig c) - (2 + length (sig c))) with 0 by lia.
Qed.

(** The names of the header are the substituted names, behind the
    receiver, with the default of the command type. *)
Lemma paramlist_sub (c : Command) :
  paramlist c = "self" :: map (fun it : string * string => PARMAT_sub it.1) (sig c).
Proof.
  unfold paramlist. f_equal. rewrite map_map. apply map_ext.
  intros it. apply normalized_sub.
Qed.

Lemma arglist_sub (c : Command) :
  arglist c
  = "self" :: map (fun n => if String.eqb (cmdtype c) "datastruct"
                               && negb (String.eqb n "self")
                            then n +:+ "=None" else n)
                  (map (fun it : string * string => PARMAT_sub it.1) (sig c)).
Proof.
  unfold arglist. rewrite paramlist_sub. simpl. f_equal.
  now destruct (String.eqb (cmdtype c) "datastruct").
Qed.

(** The two chunks that one element of a list gives to a loop writing two
    chunks for each. *)
Lemma flat_map_two_lookup {A : Type} (f g : A -> string) (l : list A) (i : nat) (x : A) :
  l !! i = Some x ->
  flat_map (fun y => [f y; g y]) l !! (2 * i) = Some (f x)
  /\ flat_map (fun y => [f y; g y]) l !! (1 + 2 * i) = Some (g x).
Proof.
  revert i. induction l as [|y l IH]; intros [|i] H; try discriminate.
  - injection H as ->. now split.
  - replace (2 * S i) with (S (S (2 * i))) by lia.
    replace (1 + S (S (2 * i))) with (S (S (1 + 2 * i))) by lia.
    simpl. apply IH, H.
Qed.

(** C10: in the return section of a subroutine the signature parameters
    stand under their raw names.  For a parameter whose name holds the array
    marker, the text of the return section has the raw name, marker and
    all, with its translated type at the place of the parameter, behind the
    explicit return when there is one; the line that opens the definition
    and the line of the parameter section have the name with the marker
    removed, a different name. *)
Theorem subroutine_return_keeps_raw_names (apidat : list (string * Command))
    (docdat : gmap string (list (string * string)))
    (cmdname : string) (c : Command) (doc : list (string * string)) (w : world)
    (i : nat) (par typ : string) :
  apidat_get apidat cmdname = Some c ->
  docdat !! cmdname = Some doc ->
  cmdtype c = "subroutine" ->
  returns c = [] \/ length (returns c) = 2 ->
  sig c !! i = Some (par, typ) ->
  has_marker par ->
  let entries := map (pair_text vb2pytype) (ret_entries c ++ sig c) in
  let k := length (ret_entries c) + i in
  let names := map (fun it : string * string => PARMAT_sub it.1) (sig c) in
  exists r : string,
    run_command apidat docdat cmdname w
    = (Ok tt, logged w ["... wrapping " +:+ cmdname] (text_of cmdname c doc r))
    /\ text_of cmdname c doc r !! (9 + length (sig c)) = Some r
    /\ r = rethdg +:+ I2
           +:+ (if 1 <? length entries then "[" else EmptyString)
           +:+ each_then ", " (take k entries)
           +:+ par +:+ ": " +:+ vb2pytype typ "repr"
           +:+ each_after ", " (drop (S k) entries)
           +:+ (if 1 <? length entries then "]" else EmptyString)
           +:+ nl
    /\ text_of cmdname c doc r !! 1
       = Some (I1 +:+ "def " +:+ cmdname +:+ "("
               +:+ wrap_longlines
                     ("self, " +:+ each_then ", " (take i names)
                      +:+ PARMAT_sub par
                      +:+ each_after ", " (drop (S i) names))
                     (Some 50) (repeat_str " " 12)
               +:+ "):" +:+ nl)
    /\ text_of cmdname c doc r !! (9 + i)
       = Some (I2 +:+ PARMAT_sub par +:+ ": " +:+ "Array-like of "
               +:+ vb2pytype typ "repr" +:+ nl)
    /\ PARMAT_sub par <> par.
Proof.
  intros Ha Hd Hk Hwf Hi Hm entries k names.
  assert (Hu : String.eqb (cmdtype c) "unknown" = false) by now rewrite Hk.
  assert (Hne : sig c <> []) by (intros H; rewrite H in Hi; discriminate).
  pose proof (retstr_subroutine vb2pytype cmdname c Hk Hwf) as Hr.
  exists (subroutine_return_spec vb2pytype c). split.
  { apply (command_ok _ _ _ _ _ _ _ Ha Hu Hd Hr). }
  split; [now apply wrapper_text_retstr|]. split.
  { rewrite subroutine_return_spec_pairs
      by (intros H; apply app_eq_nil in H as [_ H]; contradiction).
    assert (Hk' : entries !! k = Some (par +:+ ": " +:+ vb2pytype typ "repr")).
    { apply (lookup_map (pair_text vb2pytype) _ _ (par, typ)).
      unfold k. rewrite lookup_app_r by lia.
      now replace (length (ret_entries c) + i - length (ret_entries c)) with i by lia. }
    fold entries. rewrite (join_lookup _ _ _ _ Hk').
    replace (length entries) with (length (ret_entries c ++ sig c))
      by (unfold entries; now rewrite length_map).
    now rewrite !append_assoc. }
  split.
  { rewrite wrapper_text_def. unfold def_line. rewrite arglist_sub, Hk. simpl andb.
    rewrite map_id. fold names.
    assert (Hi' : ("self" :: names) !! S i = Some (PARMAT_sub par)).
    { simpl. apply (lookup_map (fun it : string * string => PARMAT_sub it.1) _ _ _ Hi). }
    rewrite (join_lookup _ _ _ _ Hi'). simpl take. simpl drop. simpl each_then.
    now rewrite !append_assoc. }
  split.
  { rewrite (wrapper_text_param _ _ _ _ _ _ _ Hi).
    now rewrite normalized_sub, (annotation_marker _ Hm). }
  apply PARMAT_sub_changes. now apply PARMAT_search_shape.
Qed.

(** C5: every raw name stands in the line that opens the definition, in
    the field sets of a datastruct and in the call of the stub as the name
    with every match of the pattern removed.  A name that holds the marker
    changes by that and its line of the parameter section carries the
    annotation; a name that does not hold it is left as it is and its line
    has no annotation.  The header has the receiver and then one argument
    for every entry of the signature, each behind a comma, and is the same
    for two signatures with the same substituted names, whatever their
    annotations.  A bare
    name followed by the marker, with any white space around and inside the
    parentheses, becomes the bare name. *)
Theorem array_marker_normalised (apidat : list (string * Command))
    (docdat : gmap string (list (string * string)))
    (cmdname : string) (c : Command) (doc : list (string * string)) (r : string)
    (w : world) (i : nat) (par typ : string) :
  apidat_get apidat cmdname = Some c ->
  cmdtype c <> "unknown" ->
  docdat !! cmdname = Some doc ->
  retstr vb2pytype cmdname c = Ok r ->
  sig c !! i = Some (par, typ) ->
  let names := map (fun it : string * string => PARMAT_sub it.1) (sig c) in
  let arg (n : string) :=
    if String.eqb (cmdtype c) "datastruct" && negb (String.eqb n "self")
    then n +:+ "=None" else n in
  let out := text_of cmdname c doc r in
  let body := dispatch wrap_longlines path_join STUBDIR cmdname c in
  run_command apidat docdat cmdname w
  = (Ok tt, logged w ["... wrapping " +:+ cmdname] out)
  /\ out !! 1
     = Some (I1 +:+ "def " +:+ cmdname +:+ "("
             +:+ wrap_longlines ("self" +:+ each_after ", " (map arg names))
                                (Some 50) (repeat_str " " 12)
             +:+ "):" +:+ nl)
  /\ ("self" :: map arg names) !! S i = Some (arg (PARMAT_sub par))
  /\ length ("self" :: map arg names) = S (length (sig c))
  /\ (has_marker par ->
      PARMAT_sub par <> par
      /\ out !! (9 + i)
         = Some (I2 +:+ PARMAT_sub par +:+ ": " +:+ "Array-like of "
                 +:+ vb2pytype typ "repr" +:+ nl))
  /\ (~ has_marker par ->
      PARMAT_sub par = par
      /\ out !! (9 + i) = Some (I2 +:+ par +:+ ": " +:+ vb2pytype typ "repr" +:+ nl))
  /\ (cmdtype c = "datastruct" ->
      body = [I2 +:+ "dstruct = w32.Record(" +:+ dq +:+ cmdname +:+ dq
              +:+ ", self._dobj)" +:+ nl]
             ++ flat_map
                  (fun p =>
                     [I2 +:+ "if " +:+ p +:+ " is not None:" +:+ nl;
                      I2 +:+ I1 +:+ "setattr(dstruct, " +:+ dq +:+ p +:+ dq +:+ ", "
                      +:+ p +:+ ")" +:+ nl]) names
             ++ [I2 +:+ "return dstruct" +:+ nl]
      /\ body !! (1 + 2 * i)
         = Some (I2 +:+ "if " +:+ PARMAT_sub par +:+ " is not None:" +:+ nl)
      /\ body !! (2 + 2 * i)
         = Some (I2 +:+ I1 +:+ "setattr(dstruct, " +:+ dq +:+ PARMAT_sub par +:+ dq
                 +:+ ", " +:+ PARMAT_sub par +:+ ")" +:+ nl))
  /\ (cmdtype c <> "datastruct" ->
      body !! 1
      = Some (I2 +:+ "return lib.libfunct("
              +:+ (let text :=
                     wrap_longlines (join ", " names) (Some 50) (repeat_str " " 12) in
                   if String.eqb text EmptyString then "None" else text)
              +:+ ")" +:+ nl))
  /\ (forall base ws1 ws2 ws3 : string,
        bare base = true ->
        all_space ws1 = true -> all_space ws2 = true -> all_space ws3 = true ->
        par = base +:+ ws1 +:+ "(" +:+ ws2 +:+ ")" +:+ ws3 ->
        has_marker par /\ PARMAT_sub par = base)
  /\ (forall c' : Command,
        cmdtype c' = cmdtype c ->
        map (fun it : string * string => PARMAT_sub it.1) (sig c') = names ->
        def_line wrap_longlines cmdname c' = def_line wrap_longlines cmdname c).
Proof.
  intros Ha Hk Hd Hr Hi names arg out body.
  assert (Hu : String.eqb (cmdtype c) "unknown" = false) by now apply String.eqb_neq.
  pose proof (wrapper_text_param cmdname c doc r i par typ Hi) as Hline.
  rewrite normalized_sub in Hline.
  assert (Hn : names !! i = Some (PARMAT_sub par))
    by apply (lookup_map (fun it : string * string => PARMAT_sub it.1) _ _ _ Hi).
  split; [apply (command_ok _ _ _ _ _ _ _ Ha Hu Hd Hr)|].
  split.
  { unfold out. rewrite wrapper_text_def. unfold def_line.
    now rewrite arglist_sub, join_cons. }
  split; [simpl; apply (lookup_map arg _ _ _ Hn)|].
  split; [unfold names; simpl; now rewrite !length_map|].
  split.
  { intros Hm. split; [apply PARMAT_sub_changes; now apply PARMAT_search_shape|].
    unfold out. rewrite Hline. now rewrite (annotation_marker _ Hm). }
  split.
  { intros Hm.
    assert (Hs : PARMAT_search par = false).
    { destruct (PARMAT_search par) eqn:Hs; [|reflexivity].
      contradict Hm. now apply PARMAT_search_shape. }
    pose proof (PARMAT_sub_nomatch _ Hs) as Hsub. split; [exact Hsub|].
    unfold out. rewrite Hline, Hsub. now rewrite (annotation_plain _ Hm). }
  split.
  { intros Hds.
    assert (Hb : body = [I2 +:+ "dstruct = w32.Record(" +:+ dq +:+ cmdname +:+ dq
                         +:+ ", self._dobj)" +:+ nl]
                        ++ flat_map field_set names
                        ++ [I2 +:+ "return dstruct" +:+ nl]).
    { unfold body, dispatch. rewrite Hds, paramlist_sub. reflexivity. }
    split; [exact Hb|].
    destruct (flat_map_two_lookup
                (fun p => I2 +:+ "if " +:+ p +:+ " is not None:" +:+ nl)
                (fun p => I2 +:+ I1 +:+ "setattr(dstruct, " +:+ dq +:+ p +:+ dq +:+ ", "
                          +:+ p +:+ ")" +:+ nl) names i _ Hn) as [H1 H2].
    rewrite Hb. split.
    - change (1 + 2 * i) with (S (2 * i)). simpl app. cbn [lookup list_lookup].
      now apply lookup_app_l_Some.
    - change (2 + 2 * i) with (S (1 + 2 * i)). simpl app. cbn [lookup list_lookup].
      now apply lookup_app_l_Some. }
  split.
  { intros Hds. apply String.eqb_neq in Hds.
    unfold body, dispatch, call_line, paramstr. rewrite Hds, paramlist_sub. reflexivity. }
  split.
  { intros base ws1 ws2 ws3 Hb H1 H2 H3 ->.
    destruct (marker_suffix base ws1 ws2 ws3 Hb H1 H2 H3) as [Hs Hsub].
    split; [now apply PARMAT_search_shape|exact Hsub]. }
  intros c' Hc' Hnames. unfold def_line. rewrite !arglist_sub, Hc', Hnames. reflexivity.
Qed.

(** X17: for a datastruct none of whose parameters gets the name [self],
    every parameter behind the receiver carries the default [=None] in the
    line that opens the definition; the body builds the record, sets one
    field for every parameter under a test on [None], in their order, and
    returns the record. *)
Theorem datastruct_header_and_body (apidat : list (string * Command))
    (docdat : gmap string (list (string * string)))
    (cmdname : string) (c : Command) (doc : list (string * string)) (w : world) :
  apidat_get apidat cmdname = Some c ->
  docdat !! cmdname = Some doc ->
  cmdtype c = "datastruct" ->
  (forall it : string * string, it ∈ sig c -> PARMAT_sub it.1 <> "self") ->
  let names := map (fun it : string * string => PARMAT_sub it.1) (sig c) in
  let r := rethdg +:+ (I2 +:+ "datastruct: <com_record " +:+ cmdname +:+ ">" +:+ nl) in
  let out := text_of cmdname c doc r in
  run_command apidat docdat cmdname w
  = (Ok tt, logged w ["... wrapping " +:+ cmdname] out)
  /\ out !! 1
     = Some (I1 +:+ "def " +:+ cmdname +:+ "("
             +:+ wrap_longlines
                   ("self" +:+ each_after ", " (map (fun p => p +:+ "=None") names))
                   (Some 50) (repeat_str " " 12)
             +:+ "):" +:+ nl)
  /\ dispatch wrap_longlines path_join STUBDIR cmdname c
     = [I2 +:+ "dstruct = w32.Record(" +:+ dq +:+ cmdname +:+ dq
        +:+ ", self._dobj)" +:+ nl]
       ++ flat_map
            (fun p =>
               [I2 +:+ "if " +:+ p +:+ " is not None:" +:+ nl;
                I2 +:+ I1 +:+ "setattr(dstruct, " +:+ dq +:+ p +:+ dq +:+ ", "
                +:+ p +:+ ")" +:+ nl]) names
       ++ [I2 +:+ "return dstruct" +:+ nl]
  /\ length (flat_map
               (fun p =>
                  [I2 +:+ "if " +:+ p +:+ " is not None:" +:+ nl;
                   I2 +:+ I1 +:+ "setattr(dstruct, " +:+ dq +:+ p +:+ dq +:+ ", "
                   +:+ p +:+ ")" +:+ nl]) names)
     = 2 * length (sig c).
Proof.
  intros Ha Hd Hk Hno names r out.
  assert (Hu : String.eqb (cmdtype c) "unknown" = false) by now rewrite Hk.
  pose proof (retstr_datastruct vb2pytype cmdname c Hk) as Hr.
  split; [apply (command_ok _ _ _ _ _ _ _ Ha Hu Hd Hr)|].
  split.
  { unfold out. rewrite wrapper_text_def. unfold def_line. rewrite arglist_sub, Hk.
    assert (Hl : map (fun n => if String.eqb "datastruct" "datastruct"
                                     && negb (String.eqb n "self")
                                  then n +:+ "=None" else n) names
                 = map (fun p => p +:+ "=None") names).
    { unfold names. rewrite !map_map.
      apply map_ext_in. intros it Hit. apply list_elem_of_In, Hno in Hit.
      apply String.eqb_neq in Hit. simpl. now rewrite Hit. }
    fold names. now rewrite Hl, join_cons. }
  split.
  { unfold dispatch. rewrite Hk, paramlist_sub. reflexivity. }
  unfold names. generalize (sig c). intros l.
  induction l as [|it l IH]; [reflexivity|]. simpl in *. lia.
Qed.

(** C7, as the code has it: the body of a function or of a subroutine calls
    the stub with the normalised names of the signature parameters, in their
    order, joined by commas and laid out by the line wrapper; when that text
    is empty the placeholder [None] stands for it, so the text between the
    parentheses is never empty.  An empty signature gets the placeholder as
    soon as the line wrapper keeps the empty text empty. *)
Theorem stub_call_arguments (apidat : list (string * Command))
    (docdat : gmap string (list (string * string)))
    (cmdname : string) (c : Command) (doc : list (string * string)) (r : string)
    (w : world) :
  apidat_get apidat cmdname = Some c ->
  docdat !! cmdname = Some doc ->
  cmdtype c = "function" \/ cmdtype c = "subroutine" ->
  retstr vb2pytype cmdname c = Ok r ->
  let args :=
    wrap_longlines (join ", " (map normalized (map fst (sig c))))
                   (Some 50) (repeat_str " " 12) in
  run_command apidat docdat cmdname w
  = (Ok tt, logged w ["... wrapping " +:+ cmdname] (text_of cmdname c doc r))
  /\ dispatch wrap_longlines path_join STUBDIR cmdname c
     = [I2 +:+ "lib = self._dobj.CreateLib(r" +:+ dq
        +:+ path_join STUBDIR (cmdname +:+ ".frs") +:+ dq +:+ ")" +:+ nl;
        I2 +:+ "return lib.libfunct(" +:+ paramstr wrap_longlines c +:+ ")" +:+ nl]
  /\ paramstr wrap_longlines c <> EmptyString
  /\ (args <> EmptyString -> paramstr wrap_longlines c = args)
  /\ (args = EmptyString -> paramstr wrap_longlines c = "None")
  /\ (sig c = [] ->
      wrap_longlines EmptyString (Some 50) (repeat_str " " 12) = EmptyString ->
      paramstr wrap_longlines c = "None")
  /\ (join ", " (map normalized (map fst (sig c))) = EmptyString
      <-> sig c = []
          \/ exists par typ : string, sig c = [(par, typ)] /\ normalized par = EmptyString).
Proof.
  intros Ha Hd Hk Hr args.
  assert (Hu : String.eqb (cmdtype c) "unknown" = false)
    by (destruct Hk as [Hk|Hk]; now rewrite Hk).
  assert (Hds : String.eqb (cmdtype c) "datastruct" = false)
    by (destruct Hk as [Hk|Hk]; now rewrite Hk).
  split; [apply (command_ok _ _ _ _ _ _ _ Ha Hu Hd Hr)|].
  split; [unfold dispatch; now rewrite Hds|].
  unfold paramstr, paramlist. simpl tail. fold args.
  split; [|split; [|split; [|split]]].
  - destruct (String.eqb_spec args EmptyString) as [_|Hne]; [discriminate|exact Hne].
  - intros Hne. apply String.eqb_neq in Hne. now rewrite Hne.
  - intros ->. reflexivity.
  - intros Hs He. unfold args. rewrite Hs. cbn [map join]. now rewrite He.
  - split.
    + intros Hj. apply join_eq_nil in Hj; [|discriminate].
      destruct (sig c) as [|[par typ] [|e l]]; [now left| |].
      * right. exists par, typ. split; [reflexivity|].
        destruct Hj as [Hj|Hj]; [discriminate|]. now injection Hj.
      * destruct Hj as [Hj|Hj]; discriminate.
    + intros [->|(par & typ & -> & Hn)]; [reflexivity|]. simpl. exact Hn.
Qed.

End Claims.

(** ** The properties on the sample store *)

Module Instances.

Import Sample.

(** A store whose only command has no documentation entry. *)
Definition undocumented : list (string * Command) := [("GetUnits", GetUnits)].

(** A datastruct with a field called like the receiver. *)
Definition T_SELF : Command :=
  {| cmdtype := "datastruct"; descr := "A record";
     returns := []; sig := [("self", "Long")] |}.

(** A function whose only parameter is named by the array marker alone. *)
Definition Marker : Command :=
  {| cmdtype := "function"; descr := "Marker only";
     returns := ["n"; "Long"]; sig := [("()", "Double")] |}.

(** The return sections of two sample commands. *)
Definition GetUnits_returns : string :=
  rethdg +:+ I2 +:+ "Units: str" +:+ nl.

Definition GetCoords_returns : string :=
  rethdg +:+ I2 +:+ "[ok: bool, n: int, coords ( ): float]" +:+ nl.

End Instances.

Import Instances.

Lemma unknown_command_skipped_witness :
  apidat_get Sample.apidat "Foo" = Some Sample.Foo
  /\ cmdtype Sample.Foo = "unknown"
  /\ Sample.gen_command Sample.apidat Sample.docdat "Foo" Sample.w0
     = (Ok tt, World [] ["... unknown command: Foo. SKIPPING"] false).
Proof.
  split; [reflexivity|]. split; [reflexivity|].
  exact (proj1 (unknown_command_skipped
                  Sample.wrap_longlines Sample.fmt_docstr Sample.vb2pytype
                  Sample.path_join Sample.STUBDIR
                  Sample.apidat Sample.docdat "Foo" Sample.Foo Sample.w0
                  eq_refl eq_refl)).
Defined.

Lemma missing_documentation_raises_witness :
  apidat_get undocumented "GetUnits" = Some Sample.GetUnits
  /\ cmdtype Sample.GetUnits <> "unknown"
  /\ (∅ : gmap string (list (string * string))) !! "GetUnits" = None
  /\ Sample.gen_command undocumented ∅ "GetUnits" Sample.w0
     = (Raise (KeyError "GetUnits"), World [] ["... wrapping GetUnits"] false).
Proof.
  split; [reflexivity|]. split; [discriminate|]. split; [reflexivity|].
  exact (proj1 (missing_documentation_raises
                  Sample.wrap_longlines Sample.fmt_docstr Sample.vb2pytype
                  Sample.path_join Sample.STUBDIR
                  undocumented ∅ "GetUnits" Sample.GetUnits Sample.w0
                  eq_refl ltac:(discriminate) eq_refl)).
Defined.

(** The claim C1 fails on the code: with the command [GetUnits] in the
    descriptor store and no entry for it in the documentation store, the run
    raises a KeyError after the header; no wrapper is written and the file
    is not closed. *)
Lemma missing_documentation_counterexample :
  apidat_get undocumented "GetUnits" = Some Sample.GetUnits
  /\ (∅ : gmap string (list (string * string))) !! "GetUnits" = None
  /\ Sample.gen_main Sample.TIMENOW undocumented ∅ Sample.w0
     = (Raise (KeyError "GetUnits"),
        World [CLASTR Sample.TIMENOW]
              [nl +:+ "Wrapping commands in python..."; "... wrapping GetUnits"]
              false)
  /\ ~ (exists w' : world,
          Sample.gen_main Sample.TIMENOW undocumented ∅ Sample.w0 = (Ok tt, w')).
Proof.
  assert (H : Sample.gen_main Sample.TIMENOW undocumented ∅ Sample.w0
              = (Raise (KeyError "GetUnits"),
                 World [CLASTR Sample.TIMENOW]
                       [nl +:+ "Wrapping commands in python..."; "... wrapping GetUnits"]
                       false)) by (vm_compute; reflexivity).
  split; [reflexivity|]. split; [reflexivity|]. split; [exact H|].
  intros [w' Hw]. rewrite H in Hw. discriminate.
Qed.

Lemma function_return_must_be_pair_witness :
  apidat_get Sample.apidat "GetUnits" = Some Sample.GetUnits
  /\ Sample.docdat !! "GetUnits" = Some [("Description", "Units of the document")]
  /\ cmdtype Sample.GetUnits = "function"
  /\ returns Sample.GetUnits <> []
  /\ ((exists w' : world,
         Sample.gen_command Sample.apidat Sample.docdat "GetUnits" Sample.w0 = (Ok tt, w'))
      <-> length (returns Sample.GetUnits) = 2).
Proof.
  split; [reflexivity|]. split; [reflexivity|]. split; [reflexivity|].
  split; [discriminate|].
  exact (proj1 (function_return_must_be_pair
                  Sample.wrap_longlines Sample.fmt_docstr Sample.vb2pytype
                  Sample.path_join Sample.STUBDIR
                  Sample.apidat Sample.docdat "GetUnits" Sample.GetUnits
                  [("Description", "Units of the document")] Sample.w0
                  eq_refl eq_refl eq_refl ltac:(discriminate))).
Defined.

Lemma function_return_section_witness :
  apidat_get Sample.apidat "GetUnits" = Some Sample.GetUnits
  /\ Sample.docdat !! "GetUnits" = Some [("Description", "Units of the document")]
  /\ cmdtype Sample.GetUnits = "function"
  /\ length (returns Sample.GetUnits) = 2
  /\ Sample.gen_retstr "GetUnits" Sample.GetUnits = Ok GetUnits_returns.
Proof.
  split; [reflexivity|]. split; [reflexivity|]. split; [reflexivity|].
  split; [reflexivity|].
  destruct (function_return_section
              Sample.wrap_longlines Sample.fmt_docstr Sample.vb2pytype
              Sample.path_join Sample.STUBDIR
              Sample.apidat Sample.docdat "GetUnits" Sample.GetUnits
              [("Description", "Units of the document")] Sample.w0
              eq_refl eq_refl eq_refl (or_intror eq_refl))
    as (r & Hr & _ & _ & Hpair).
  rewrite (Hpair "Units" "String" eq_refl) in Hr. exact Hr.
Defined.

Lemma subroutine_return_section_witness :
  apidat_get Sample.apidat "GetCoords" = Some Sample.GetCoords
  /\ Sample.docdat !! "GetCoords" = Some []
  /\ cmdtype Sample.GetCoords = "subroutine"
  /\ length (returns Sample.GetCoords) = 2
  /\ Sample.gen_retstr "GetCoords" Sample.GetCoords = Ok GetCoords_returns.
Proof.
  split; [reflexivity|]. split; [reflexivity|]. split; [reflexivity|].
  split; [reflexivity|].
  destruct (subroutine_return_section
              Sample.wrap_longlines Sample.fmt_docstr Sample.vb2pytype
              Sample.path_join Sample.STUBDIR
              Sample.apidat Sample.docdat "GetCoords" Sample.GetCoords [] Sample.w0
              eq_refl eq_refl eq_refl (or_intror eq_refl))
    as (r & Hr & _ & _ & _ & _ & _ & Hlist).
  rewrite (Hlist ltac:(simpl; lia)) in Hr. exact Hr.
Defined.

Lemma subroutine_return_keeps_raw_names_witness :
  apidat_get Sample.apidat "GetCoords" = Some Sample.GetCoords
  /\ Sample.docdat !! "GetCoords" = Some []
  /\ cmdtype Sample.GetCoords = "subroutine"
  /\ length (returns Sample.GetCoords) = 2
  /\ sig Sample.GetCoords !! 1 = Some ("coords ( )", "Double")
  /\ has_marker "coords ( )"
  /\ exists r : string,
       Sample.gen_command Sample.apidat Sample.docdat "GetCoords" Sample.w0
       = (Ok tt, logged Sample.w0 ["... wrapping GetCoords"]
                   (wrapper_text Sample.wrap_longlines Sample.fmt_docstr Sample.vb2pytype
                      Sample.path_join Sample.STUBDIR "GetCoords" Sample.GetCoords [] r))
       /\ r = rethdg +:+ I2 +:+ "[ok: bool, n: int, coords ( ): float]" +:+ nl
       /\ wrapper_text Sample.wrap_longlines Sample.fmt_docstr Sample.vb2pytype
            Sample.path_join Sample.STUBDIR "GetCoords" Sample.GetCoords [] r !! 1
          = Some (I1 +:+ "def GetCoords(self, n, coords):" +:+ nl)
       /\ wrapper_text Sample.wrap_longlines Sample.fmt_docstr Sample.vb2pytype
            Sample.path_join Sample.STUBDIR "GetCoords" Sample.GetCoords [] r !! 10
          = Some (I2 +:+ "coords: Array-like of float" +:+ nl).
Proof.
  assert (Hm : has_marker "coords ( )")
    by (exists "coords ", " ", EmptyString; split; reflexivity).
  split; [reflexivity|]. split; [reflexivity|]. split; [reflexivity|].
  split; [reflexivity|]. split; [reflexivity|]. split; [exact Hm|].
  destruct (subroutine_return_keeps_raw_names
              Sample.wrap_longlines Sample.fmt_docstr Sample.vb2pytype
              Sample.path_join Sample.STUBDIR
              Sample.apidat Sample.docdat "GetCoords" Sample.GetCoords [] Sample.w0
              1 "coords ( )" "Double"
              eq_refl eq_refl eq_refl (or_intror eq_refl) eq_refl Hm)
    as (r & Hrun & _ & Hr & Hdef & Hline & _).
  exists r. split; [exact Hrun|]. split; [exact Hr|]. split; [exact Hdef|exact Hline].
Defined.

Lemma array_marker_normalised_witness :
  apidat_get Sample.apidat "GetCoords" = Some Sample.GetCoords
  /\ cmdtype Sample.GetCoords <> "unknown"
  /\ Sample.docdat !! "GetCoords" = Some []
  /\ Sample.gen_retstr "GetCoords" Sample.GetCoords = Ok GetCoords_returns
  /\ sig Sample.GetCoords !! 1 = Some ("coords ( )", "Double")
  /\ has_marker "coords ( )"
  /\ wrapper_text Sample.wrap_longlines Sample.fmt_docstr Sample.vb2pytype
       Sample.path_join Sample.STUBDIR "GetCoords" Sample.GetCoords []
       GetCoords_returns !! 1
     = Some (I1 +:+ "def GetCoords(self, n, coords):" +:+ nl)
  /\ wrapper_text Sample.wrap_longlines Sample.fmt_docstr Sample.vb2pytype
       Sample.path_join Sample.STUBDIR "GetCoords" Sample.GetCoords []
       GetCoords_returns !! 10
     = Some (I2 +:+ "coords: Array-like of float" +:+ nl)
  /\ dispatch Sample.wrap_longlines Sample.path_join Sample.STUBDIR
       "GetCoords" Sample.GetCoords !! 1
     = Some (I2 +:+ "return lib.libfunct(n, coords)" +:+ nl).
Proof.
  assert (Hm : has_marker "coords ( )")
    by (exists "coords ", " ", EmptyString; split; reflexivity).
  split; [reflexivity|]. split; [discriminate|]. split; [reflexivity|].
  split; [reflexivity|]. split; [reflexivity|]. split; [exact Hm|].
  destruct (array_marker_normalised
              Sample.wrap_longlines Sample.fmt_docstr Sample.vb2pytype
              Sample.path_join Sample.STUBDIR
              Sample.apidat Sample.docdat "GetCoords" Sample.GetCoords []
              GetCoords_returns Sample.w0 1 "coords ( )" "Double"
              eq_refl ltac:(discriminate) eq_refl eq_refl eq_refl)
    as (_ & Hdef & _ & _ & Hmark & _ & _ & Hcall & _).
  split; [exact Hdef|]. split; [exact (proj2 (Hmark Hm))|].
  exact (Hcall ltac:(discriminate)).
Defined.

Lemma datastruct_header_and_body_witness :
  apidat_get Sample.apidat "T_ENTITY" = Some Sample.T_ENTITY
  /\ Sample.docdat !! "T_ENTITY" = Some []
  /\ cmdtype Sample.T_ENTITY = "datastruct"
  /\ (forall it : string * string,
        it ∈ sig Sample.T_ENTITY -> PARMAT_sub it.1 <> "self")
  /\ wrapper_text Sample.wrap_longlines Sample.fmt_docstr Sample.vb2pytype
       Sample.path_join Sample.STUBDIR "T_ENTITY" Sample.T_ENTITY []
       (rethdg +:+ (I2 +:+ "datastruct: <com_record T_ENTITY>" +:+ nl)) !! 1
     = Some (I1 +:+ "def T_ENTITY(self, Idnum=None, Name=None):" +:+ nl)
  /\ dispatch Sample.wrap_longlines Sample.path_join Sample.STUBDIR
       "T_ENTITY" Sample.T_ENTITY
     = [I2 +:+ "dstruct = w32.Record(" +:+ dq +:+ "T_ENTITY" +:+ dq
        +:+ ", self._dobj)" +:+ nl;
        I2 +:+ "if Idnum is not None:" +:+ nl;
        I2 +:+ I1 +:+ "setattr(dstruct, " +:+ dq +:+ "Idnum" +:+ dq +:+ ", Idnum)" +:+ nl;
        I2 +:+ "if Name is not None:" +:+ nl;
        I2 +:+ I1 +:+ "setattr(dstruct, " +:+ dq +:+ "Name" +:+ dq +:+ ", Name)" +:+ nl;
        I2 +:+ "return dstruct" +:+ nl].
Proof.
  assert (Hno : forall it : string * string,
            it ∈ sig Sample.T_ENTITY -> PARMAT_sub it.1 <> "self").
  { intros it Hit. simpl in Hit.
    apply elem_of_cons in Hit as [->|Hit]; [discriminate|].
    apply elem_of_cons in Hit as [->|Hit]; [discriminate|].
    inversion Hit. }
  split; [reflexivity|]. split; [reflexivity|]. split; [reflexivity|].
  split; [exact Hno|].
  destruct (datastruct_header_and_body
              Sample.wrap_longlines Sample.fmt_docstr Sample.vb2pytype
              Sample.path_join Sample.STUBDIR
              Sample.apidat Sample.docdat "T_ENTITY" Sample.T_ENTITY [] Sample.w0
              eq_refl eq_refl eq_refl Hno)
    as (_ & Hdef & Hbody & _).
  split; [exact Hdef|exact Hbody].
Defined.

Lemma stub_call_arguments_witness :
  apidat_get Sample.apidat "GetUnits" = Some Sample.GetUnits
  /\ Sample.docdat !! "GetUnits" = Some [("Description", "Units of the document")]
  /\ cmdtype Sample.GetUnits = "function"
  /\ Sample.gen_retstr "GetUnits" Sample.GetUnits = Ok GetUnits_returns
  /\ paramstr Sample.wrap_longlines Sample.GetUnits = "None".
Proof.
  split; [reflexivity|]. split; [reflexivity|]. split; [reflexivity|].
  split; [reflexivity|].
  destruct (stub_call_arguments
              Sample.wrap_longlines Sample.fmt_docstr Sample.vb2pytype
              Sample.path_join Sample.STUBDIR
              Sample.apidat Sample.docdat "GetUnits" Sample.GetUnits
              [("Description", "Units of the document")] GetUnits_returns Sample.w0
              eq_refl eq_refl (or_introl eq_refl) eq_refl)
    as (_ & _ & _ & _ & _ & Hnone & _).
  exact (Hnone eq_refl eq_refl).
Defined.

(** C4 at a datastruct with a parameter named like the receiver: the
    datastruct [T_SELF] has the one signature parameter [self].  The line
    written to open its definition has the name twice and gives the
    parameter no default, while the body sets its field under the test on
    [None] like that of any other parameter. *)
Lemma datastruct_parameter_named_self :
  cmdtype T_SELF = "datastruct"
  /\ sig T_SELF = [("self", "Long")]
  /\ (exists w' : world,
        Sample.gen_command [("T_SELF", T_SELF)] (<["T_SELF" := nil]> ∅) "T_SELF" Sample.w0
        = (Ok tt, w')
        /\ artifact w' !! 1 = Some (I1 +:+ "def T_SELF(self, self):" +:+ nl)
        /\ artifact w' !! 17 = Some (I2 +:+ "if self is not None:" +:+ nl)
        /\ artifact w' !! 18
           = Some (I2 +:+ I1 +:+ "setattr(dstruct, " +:+ dq +:+ "self" +:+ dq
                   +:+ ", self)" +:+ nl))
  /\ arglist T_SELF = ["self"; "self"]
  /\ arglist T_SELF
     <> "self" :: map (fun p => p +:+ "=None") (map normalized (map fst (sig T_SELF))).
Proof.
  split; [reflexivity|]. split; [reflexivity|]. split.
  - eexists. split; [vm_compute; reflexivity|]. repeat split; reflexivity.
  - split; [reflexivity|]. vm_compute. discriminate.
Qed.

(** The claim C7 fails on the code: the function [Marker] has a signature
    of one parameter, whose name is the array marker alone; the text of its
    arguments is empty and the body calls the stub with the placeholder. *)
Lemma stub_call_counterexample :
  cmdtype Marker = "function"
  /\ sig Marker = [("()", "Double")]
  /\ Sample.wrap_longlines (join ", " (map normalized (map fst (sig Marker))))
                           (Some 50) (repeat_str " " 12) = EmptyString
  /\ paramstr Sample.wrap_longlines Marker = "None"
  /\ (exists w' : world,
        Sample.gen_command [("Marker", Marker)] (<["Marker" := nil]> ∅) "Marker" Sample.w0
        = (Ok tt, w')
        /\ last (artifact w') = Some (I2 +:+ "return lib.libfunct(None)" +:+ nl)).
Proof.
  split; [reflexivity|]. split; [reflexivity|]. split; [reflexivity|].
  split; [reflexivity|].
  eexists. split; [vm_compute; reflexivity|]. reflexivity.
Qed.

(** ** More on the pattern

    What [PARMAT] matches and what the substitution keeps, read off the
    expression itself. *)

Section PatternFacts.

(** The characters the substitution can remove: white space and the two
    parentheses. *)
Definition marker_char (c : ascii) : bool :=
  is_space c || Ascii.eqb c "("%char || Ascii.eqb c ")"%char.

(** A text without its white space and parentheses. *)
Fixpoint letters (s : string) : string :=
  match s with
  | EmptyString => EmptyString
  | String c t => if marker_char c then letters t else String c (letters t)
  end.

Lemma letters_app (a b : string) : letters (a +:+ b) = letters a +:+ letters b.
Proof.
  induction a as [|c a IH]; [reflexivity|].
  rewrite append_cons. simpl. rewrite IH. now destruct (marker_char c).
Qed.

Lemma letters_blank (ws : string) : all_space ws = true -> letters ws = EmptyString.
Proof.
  induction ws as [|c t IH]; intros H; [reflexivity|].
  simpl in H. apply andb_prop in H as [Hc Ht].
  simpl. unfold marker_char. rewrite Hc. simpl. now apply IH.
Qed.

(** X1: an anchored match of the pattern is exactly white space, an opening
    parenthesis, white space, a closing parenthesis and white space, and it
    is greedy: what is left after it does not start with white space. *)
Theorem PARMAT_match_language (s rest : string) :
  PARMAT_match s = Some rest
  <-> exists ws1 ws2 ws3 : string,
        all_space ws1 = true /\ all_space ws2 = true /\ all_space ws3 = true
        /\ s = ws1 +:+ "(" +:+ ws2 +:+ ")" +:+ ws3 +:+ rest
        /\ skip_space rest = rest.
Proof. exact (PARMAT_match_shape s rest). Qed.

(** X2: the pattern is found in a name exactly when the name holds an
    opening parenthesis followed, after white space only, by a closing
    one. *)
Theorem PARMAT_search_language (s : string) :
  PARMAT_search s = true
  <-> exists pre ws post : string,
        all_space ws = true /\ s = pre +:+ "(" +:+ ws +:+ ")" +:+ post.
Proof. exact (PARMAT_search_shape s). Qed.

Lemma list_ascii_app (a b : string) :
  list_ascii_of_string (a +:+ b) = list_ascii_of_string a ++ list_ascii_of_string b.
Proof.
  induction a as [|c a IH]; [reflexivity|].
  rewrite append_cons. simpl. now rewrite IH.
Qed.

(** What is left after a match is the end of the text, and the match holds
    no letter. *)
Lemma PARMAT_match_rest (s rest : string) :
  PARMAT_match s = Some rest ->
  exists m : string, s = m +:+ rest /\ letters m = EmptyString.
Proof.
  intros H. apply PARMAT_match_shape in H as (ws1 & ws2 & ws3 & H1 & H2 & H3 & -> & _).
  exists (ws1 +:+ "(" +:+ ws2 +:+ ")" +:+ ws3). split.
  - now rewrite !append_assoc.
  - rewrite !letters_app, (letters_blank _ H1), (letters_blank _ H2), (letters_blank _ H3).
    reflexivity.
Qed.

(** X3: the substitution only takes characters away, and none but white
    space and parentheses: its result is a subsequence of the name, with the
    same letters in the same order. *)
Theorem PARMAT_sub_keeps_letters (s : string) :
  sublist (list_ascii_of_string (PARMAT_sub s)) (list_ascii_of_string s)
  /\ letters (PARMAT_sub s) = letters s.
Proof.
  remember (String.length s) as n eqn:Hn.
  assert (Hle : String.length s <= n) by lia. clear Hn.
  revert s Hle. induction n as [|n IH]; intros s Hle.
  - destruct s; simpl in Hle; [|lia]. split; [constructor|reflexivity].
  - destruct (PARMAT_match s) as [rest|] eqn:E.
    + rewrite (PARMAT_sub_match _ _ E).
      pose proof (PARMAT_match_length _ _ E) as Hlen.
      destruct (PARMAT_match_rest _ _ E) as (m & -> & Hm).
      destruct (IH rest ltac:(lia)) as [Hsub Hlet]. split.
      * rewrite list_ascii_app. now apply sublist_inserts_l.
      * rewrite letters_app, Hm. exact Hlet.
    + destruct s as [|c t]; [split; [constructor|reflexivity]|].
      rewrite (PARMAT_sub_keep _ _ E). simpl in Hle.
      destruct (IH t ltac:(lia)) as [Hsub Hlet]. split.
      * simpl. now constructor.
      * simpl. rewrite Hlet. reflexivity.
Qed.

(** X4: the substitution changes a name exactly when the pattern is found in
    it, so both branches of the test on the search store the substituted
    name: the test only chooses the annotation. *)
Theorem normalized_is_substitution (p : string) :
  (PARMAT_search p = false <-> PARMAT_sub p = p)
  /\ normalized p = PARMAT_sub p
  /\ (annotation p = EmptyString <-> PARMAT_sub p = p).
Proof.
  assert (H : PARMAT_search p = false <-> PARMAT_sub p = p).
  { split; [apply PARMAT_sub_nomatch|].
    intros E. destruct (PARMAT_search p) eqn:Hs; [|reflexivity].
    now apply PARMAT_sub_changes in Hs. }
  split; [exact H|]. unfold normalized, annotation.
  destruct (PARMAT_search p) eqn:Hs.
  - split; [reflexivity|]. split; [discriminate|].
    intros E. apply H in E. discriminate.
  - split; [symmetry; now apply H|]. split; [intros _; now apply H|reflexivity].
Qed.

End PatternFacts.

(** ** More on the dictionaries of the loop body *)

Section DictionaryFacts.

Lemma foldl_classify_lookup (params : list string)
    (acc : gmap string string * gmap string string) (p : string) :
  (foldl classify acc params).1 !! p
  = (if decide (p ∈ params) then Some (normalized p) else acc.1 !! p)
  /\ (foldl classify acc params).2 !! p
     = (if decide (p ∈ params) then Some (annotation p) else acc.2 !! p).
Proof.
  revert acc. induction params as [|x l IH]; intros acc.
  - simpl. destruct (decide (p ∈ [])) as [H|_]; [inversion H|]. now split.
  - simpl. destruct (IH (classify acc x)) as [H1 H2]. rewrite H1, H2.
    rewrite classify_fst, classify_snd.
    destruct (decide (p ∈ l)) as [Hl|Hl].
    + destruct (decide (p ∈ x :: l)) as [_|Hn]; [now split|].
      contradict Hn. now constructor.
    + destruct (decide (x = p)) as [->|Hne].
      * rewrite !lookup_insert_eq.
        destruct (decide (p ∈ p :: l)) as [_|Hn]; [now split|].
        contradict Hn. constructor.
      * rewrite !lookup_insert_ne by exact Hne.
        destruct (decide (p ∈ x :: l)) as [Hin|_]; [|now split].
        apply elem_of_cons in Hin as [->|Hin]; contradiction.
Qed.

(** X5: after the loop over the parameters, [newparams] and [annots] hold
    the raw names of the signature and nothing else: a raw name gives its
    normalised name and its annotation, any other key is missing. *)
Theorem dictionaries_hold_raw_names (params : list string) (p : string) :
  (newparams_annots params).1 !! p
  = (if decide (p ∈ params) then Some (normalized p) else None)
  /\ (newparams_annots params).2 !! p
     = (if decide (p ∈ params) then Some (annotation p) else None).
Proof.
  unfold newparams_annots.
  destruct (foldl_classify_lookup params (∅, ∅) p) as [H1 H2].
  rewrite H1, H2. simpl. rewrite !lookup_empty. now split.
Qed.

(** X6: no subscript of the loop body on [newparams] or [annots] can raise:
    the keys looked up, [self] and the raw names for [newparams] and the raw
    names for [annots], are all present; the receiver itself has an entry in
    [annots] only when a parameter bears its name. *)
Theorem dictionary_subscripts_defined (c : Command) :
  let params := map fst (sig c) in
  let newparams : gmap string string := <["self" := "self"]> (newparams_annots params).1 in
  let annots := (newparams_annots params).2 in
  (forall p : string, p ∈ "self" :: params -> newparams !! p = Some (normalized p))
  /\ (forall it : string * string, it ∈ sig c -> annots !! it.1 = Some (annotation it.1))
  /\ (annots !! "self" = None <-> "self" ∉ params).
Proof.
  intros params newparams annots. split; [|split].
  - intros p Hp. unfold newparams.
    destruct (decide ("self" = p)) as [<-|Hne]; [now rewrite lookup_insert_eq|].
    rewrite lookup_insert_ne by exact Hne.
    apply elem_of_cons in Hp as [->|Hp]; [contradiction|].
    now apply newparams_lookup.
  - intros it Hit. apply annots_lookup.
    apply list_elem_of_In, in_map, list_elem_of_In, Hit.
  - unfold annots, newparams_annots.
    destruct (foldl_classify_lookup params (∅, ∅) "self") as [_ H].
    rewrite H. simpl. rewrite lookup_empty.
    destruct (decide ("self" ∈ params)); split; try tauto; discriminate.
Qed.

End DictionaryFacts.

(** ** More on the loop body *)

Section CommandFacts.

Variable wrap_longlines : string -> option nat -> string -> string.
Variable fmt_docstr : list (string * string) -> string -> string.
Variable vb2pytype : string -> string -> string.
Variable path_join : string -> string -> string.
Variable STUBDIR : string.

Local Abbreviation run_command :=
  (wrap_command wrap_longlines fmt_docstr vb2pytype path_join STUBDIR).
Local Abbreviation run_main :=
  (main wrap_longlines fmt_docstr vb2pytype path_join STUBDIR).
Local Abbreviation text_of :=
  (wrapper_text wrap_longlines fmt_docstr vb2pytype path_join STUBDIR).
Local Abbreviation effect_of :=
  (command_effect wrap_longlines fmt_docstr vb2pytype path_join STUBDIR).
Local Abbreviation effects_of :=
  (loop_effect wrap_longlines fmt_docstr vb2pytype path_join STUBDIR).

(** A subroutine whose [returns] is neither empty nor a pair: the loop over
    [sigits] raises on its first entry. *)
Lemma retstr_subroutine_raise (cmdname : string) (c : Command) :
  cmdtype c = "subroutine" ->
  returns c <> [] ->
  length (returns c) <> 2 ->
  retstr vb2pytype cmdname c = Raise ValueError.
Proof.
  intros Hk Hne Hlen. unfold retstr. rewrite Hk. simpl.
  destruct (returns c) as [|a [|b [|x l]]] eqn:Er;
    [contradiction| |simpl in Hlen; lia|];
    rewrite orb_true_r; simpl; destruct (sig c); reflexivity.
Qed.

(** X8: a command type that is none of the four names is not skipped: its
    wrapper is written like that of a function without a return value, with
    an empty return section, no default in the header and the stub call as
    its body. *)
Theorem other_command_type_wrapped (apidat : list (string * Command))
    (docdat : gmap string (list (string * string)))
    (cmdname : string) (c : Command) (doc : list (string * string)) (w : world) :
  apidat_get apidat cmdname = Some c ->
  docdat !! cmdname = Some doc ->
  cmdtype c <> "unknown" ->
  cmdtype c <> "function" ->
  cmdtype c <> "subroutine" ->
  cmdtype c <> "datastruct" ->
  run_command apidat docdat cmdname w
  = (Ok tt, logged w ["... wrapping " +:+ cmdname] (text_of cmdname c doc EmptyString))
  /\ arglist c = paramlist c
  /\ dispatch wrap_longlines path_join STUBDIR cmdname c
     = [I2 +:+ "lib = self._dobj.CreateLib(r" +:+ dq
        +:+ path_join STUBDIR (cmdname +:+ ".frs") +:+ dq +:+ ")" +:+ nl;
        I2 +:+ "return lib.libfunct(" +:+ paramstr wrap_longlines c +:+ ")" +:+ nl].
Proof.
  intros Ha Hd Hu Hf Hs Hds.
  apply String.eqb_neq in Hu, Hf, Hs, Hds.
  assert (Hr : retstr vb2pytype cmdname c = Ok EmptyString).
  { unfold retstr. now rewrite Hf, Hs, Hds. }
  split; [|split].
  - rewrite wrap_command_run. unfold command_effect. now rewrite Ha, Hu, Hd, Hr.
  - unfold arglist, paramlist. rewrite Hds. simpl. f_equal. apply map_id.
  - unfold dispatch. now rewrite Hds.
Qed.

(** X9: a function and a subroutine without parameters that have the same
    [returns] get the same return section, and raise alike when [returns] is
    neither empty nor a pair: without parameters, treating a return value as
    that of a subroutine changes nothing. *)
Theorem function_subroutine_agree (n1 n2 : string) (c1 c2 : Command) :
  cmdtype c1 = "function" ->
  cmdtype c2 = "subroutine" ->
  returns c1 = returns c2 ->
  sig c2 = [] ->
  retstr vb2pytype n1 c1 = retstr vb2pytype n2 c2.
Proof.
  intros H1 H2 Hr Hs.
  rewrite (retstr_function vb2pytype n1 c1 H1), Hr.
  destruct (returns c2) as [|rn [|rt [|x l]]] eqn:Er.
  - rewrite (retstr_subroutine vb2pytype n2 c2 H2) by (left; exact Er).
    unfold subroutine_return_spec, ret_entries, pair_text. rewrite ?Er, Hs. simpl.
    now rewrite ?append_assoc.
  - rewrite (retstr_subroutine_raise n2 c2 H2); rewrite ?Er; (discriminate || reflexivity || (simpl; lia)).
  - rewrite (retstr_subroutine vb2pytype n2 c2 H2) by (right; now rewrite Er).
    unfold subroutine_return_spec, ret_entries, pair_text. rewrite ?Er, Hs. simpl.
    now rewrite ?append_assoc.
  - rewrite (retstr_subroutine_raise n2 c2 H2); rewrite ?Er; (discriminate || reflexivity || (simpl; lia)).
Qed.

(** X11: a command is wrapped on its own: what the loop body returns,
    prints and writes for a name depends on the entries of the two stores
    under that name only, not on the other commands and not on what has been
    written before. *)
Theorem command_depends_on_own_entries (a1 a2 : list (string * Command))
    (d1 d2 : gmap string (list (string * string))) (cmdname : string) :
  apidat_get a1 cmdname = apidat_get a2 cmdname ->
  d1 !! cmdname = d2 !! cmdname ->
  exists (o : result unit) (lines chunks : list string),
    forall w1 w2 : world,
      run_command a1 d1 cmdname w1 = (o, logged w1 lines chunks)
      /\ run_command a2 d2 cmdname w2 = (o, logged w2 lines chunks).
Proof.
  intros Ha Hd.
  destruct (effect_of a1 d1 cmdname) as [[o lines] chunks] eqn:E1.
  assert (E2 : effect_of a2 d2 cmdname = (o, lines, chunks)).
  { rewrite <- E1. unfold command_effect. now rewrite Ha, Hd. }
  exists o, lines, chunks. intros w1 w2.
  rewrite !wrap_command_run, E1, E2. now split.
Qed.

End CommandFacts.

(** ** More on [main] *)

(** Every key of the descriptor store has an entry. *)
Lemma apidat_get_key (apidat : list (string * Command)) (k : string) :
  k ∈ map fst apidat -> exists c : Command, apidat_get apidat k = Some c.
Proof.
  induction apidat as [|[k' c] rest IH]; intros H; [inversion H|].
  simpl. destruct (String.eqb_spec k' k) as [->|Hne]; [now exists c|].
  apply IH. simpl in H. apply elem_of_cons in H as [H|H]; [congruence|exact H].
Qed.

(** A name made of letters only holds no match. *)
Lemma bare_not_found (s : string) : bare s = true -> PARMAT_search s = false.
Proof.
  induction s as [|c t IH]; intros H; [reflexivity|].
  simpl in H. apply andb_prop in H as [H Ht]. apply andb_prop in H as [Hs Hp].
  apply negb_true_iff in Hs, Hp.
  cbn [PARMAT_search]. rewrite (bare_head_no_match c t Hs Hp). now apply IH.
Qed.

Section MainFacts.

Variable wrap_longlines : string -> option nat -> string -> string.
Variable fmt_docstr : list (string * string) -> string -> string.
Variable vb2pytype : string -> string -> string.
Variable path_join : string -> string -> string.
Variable STUBDIR : string.

Local Abbreviation run_command :=
  (wrap_command wrap_longlines fmt_docstr vb2pytype path_join STUBDIR).
Local Abbreviation run_main :=
  (main wrap_longlines fmt_docstr vb2pytype path_join STUBDIR).
Local Abbreviation effect_of :=
  (command_effect wrap_longlines fmt_docstr vb2pytype path_join STUBDIR).
Local Abbreviation effects_of :=
  (loop_effect wrap_longlines fmt_docstr vb2pytype path_join STUBDIR).

(** The loop body run on one command from an empty world: what it returns,
    and the world holding what this command alone prints and writes. *)
Definition alone (apidat : list (string * Command))
    (docdat : gmap string (list (string * string))) (cmdname : string)
  : result unit * world :=
  run_command apidat docdat cmdname (World [] [] false).

Lemma effect_alone (apidat : list (string * Command))
    (docdat : gmap string (list (string * string))) (k : string)
    (o : result unit) (lines chunks : list string) :
  effect_of apidat docdat k = (o, lines, chunks) ->
  alone apidat docdat k = (o, World chunks lines false).
Proof. intros H. unfold alone. now rewrite wrap_command_run, H. Qed.

(** A command of the store prints exactly one line. *)
Lemma effect_one_line (apidat : list (string * Command))
    (docdat : gmap string (list (string * string))) (k : string) :
  k ∈ map fst apidat -> length (effect_of apidat docdat k).1.2 = 1.
Proof.
  intros Hk. destruct (apidat_get_key apidat k Hk) as [c Hc].
  unfold command_effect. rewrite Hc.
  destruct (String.eqb (cmdtype c) "unknown"); [reflexivity|].
  destruct (docdat !! k); [|reflexivity].
  destruct (retstr vb2pytype k c); reflexivity.
Qed.

(** A loop that returns: every command returned, and the lines and chunks
    are those of the commands, in their order. *)
Lemma loop_effect_ok (apidat : list (string * Command))
    (docdat : gmap string (list (string * string)))
    (keys lines chunks : list string) :
  effects_of apidat docdat keys = (Ok tt, lines, chunks) ->
  lines = flat_map (fun k => status (alone apidat docdat k).2) keys
  /\ chunks = flat_map (fun k => artifact (alone apidat docdat k).2) keys
  /\ forall k : string, k ∈ keys -> (alone apidat docdat k).1 = Ok tt.
Proof.
  revert lines chunks. induction keys as [|n rest IH]; intros lines chunks H.
  - simpl in H. injection H as <- <-. repeat split. intros k Hk. inversion Hk.
  - simpl in H.
    destruct (effect_of apidat docdat n) as [[[[]|e] l0] c0] eqn:En; [|discriminate].
    destruct (effects_of apidat docdat rest) as [[o l1] c1] eqn:Er.
    injection H as -> <- <-.
    destruct (IH _ _ eq_refl) as (Hl & Hc & Hok).
    rewrite Hl, Hc. simpl. rewrite (effect_alone _ _ _ _ _ _ En). simpl.
    repeat split. intros k Hk. apply elem_of_cons in Hk as [->|Hk]; [|now apply Hok].
    now rewrite (effect_alone _ _ _ _ _ _ En).
Qed.

(** X12: a run that returns has closed the file, and its output is the
    header followed by what each command writes on its own, in the order of
    the keys of the descriptor store; the status stream gets the banner and
    then exactly one line for every command. *)
Theorem main_output_is_concatenation (TIMENOW : string)
    (apidat : list (string * Command))
    (docdat : gmap string (list (string * string))) (w w' : world) :
  run_main TIMENOW apidat docdat w = (Ok tt, w') ->
  closed w' = true
  /\ artifact w'
     = artifact w ++ CLASTR TIMENOW
         :: flat_map (fun k => artifact (alone apidat docdat k).2) (map fst apidat)
  /\ status w'
     = status w ++ (nl +:+ "Wrapping commands in python...")
         :: flat_map (fun k => status (alone apidat docdat k).2) (map fst apidat)
  /\ length (status w') = length (status w) + 1 + length apidat.
Proof.
  rewrite main_run.
  destruct (effects_of apidat docdat (map fst apidat)) as [[o lines] chunks] eqn:E.
  intros H. injection H as -> <-.
  destruct (loop_effect_ok _ _ _ _ _ E) as (Hl & Hc & _). simpl.
  split; [reflexivity|]. split; [now rewrite Hc|]. split; [now rewrite Hl|].
  rewrite length_app. simpl.
  assert (Hlen : forall keys : list string,
            (forall k, k ∈ keys -> k ∈ map fst apidat) ->
            length (effects_of apidat docdat keys).1.2 <= length keys
            /\ ((effects_of apidat docdat keys).1.1 = Ok tt ->
                length (effects_of apidat docdat keys).1.2 = length keys)).
  { induction keys as [|n rest IH]; intros Hin; [simpl; auto|].
    simpl. pose proof (effect_one_line apidat docdat n (Hin n ltac:(constructor))) as H1.
    destruct (effect_of apidat docdat n) as [[[[]|e0] l0] c0]; simpl in H1.
    - destruct IH as [IH1 IH2]; [intros k Hk; apply Hin; now constructor|].
      destruct (effects_of apidat docdat rest) as [[o l1] c1]. simpl in *.
      rewrite length_app. split; [lia|]. intros Ho. rewrite (IH2 Ho). lia.
    - simpl. split; [lia|discriminate]. }
  destruct (Hlen (map fst apidat) ltac:(auto)) as [_ Hl2].
  rewrite E in Hl2. simpl in Hl2. rewrite (Hl2 eq_refl), length_map. lia.
Qed.

End MainFacts.

Section SuccessFacts.

Variable vb2pytype : string -> string -> string.

(** The return section is composed unless the command is a function or a
    subroutine whose [returns] is neither empty nor a pair. *)
Lemma retstr_cases (cmdname : string) (c : Command) :
  (returns c = [] \/ length (returns c) = 2
   \/ (cmdtype c <> "function" /\ cmdtype c <> "subroutine"))
  <-> exists r : string, retstr vb2pytype cmdname c = Ok r.
Proof.
  destruct (String.eqb_spec (cmdtype c) "function") as [Hf|Hf].
  - rewrite (retstr_function vb2pytype cmdname c Hf).
    destruct (returns c) as [|a [|b [|x l]]]; simpl; split;
      try (intros _; eexists; reflexivity);
      try (intros _; now auto);
      try (intros [H|[H|[H _]]]; (discriminate || lia || contradiction));
      intros [r Hr]; discriminate.
  - destruct (String.eqb_spec (cmdtype c) "subroutine") as [Hs|Hs].
    + destruct (returns c) as [|a [|b [|x l]]] eqn:Er.
      * rewrite (retstr_subroutine vb2pytype cmdname c Hs) by (left; exact Er).
        split; [intros _; eexists; reflexivity | now auto].
      * rewrite (retstr_subroutine_raise vb2pytype cmdname c Hs)
          by (rewrite Er; (discriminate || (simpl; lia))).
        split; [|intros [r Hr]; discriminate].
        intros [H|[H|[_ H]]]; (discriminate || (simpl in H; lia) || contradiction).
      * rewrite (retstr_subroutine vb2pytype cmdname c Hs) by (right; now rewrite Er).
        split; [intros _; eexists; reflexivity | now auto].
      * rewrite (retstr_subroutine_raise vb2pytype cmdname c Hs)
          by (rewrite Er; (discriminate || (simpl; lia))).
        split; [|intros [r Hr]; discriminate].
        intros [H|[H|[_ H]]]; (discriminate || (simpl in H; lia) || contradiction).
    + split; [intros _|now auto].
      unfold retstr. apply String.eqb_neq in Hf, Hs. rewrite Hf, Hs.
      destruct (String.eqb (cmdtype c) "datastruct"); eexists; reflexivity.
Qed.

End SuccessFacts.

(** X15: the names of a header are not kept apart: when a signature holds a
    bare name and the same name with the array marker, both stand in the
    header under the bare name, so the header has that name twice. *)
Theorem header_names_collide (c : Command) (i j : nat) (p t1 t2 ws1 ws2 ws3 : string) :
  bare p = true ->
  all_space ws1 = true -> all_space ws2 = true -> all_space ws3 = true ->
  sig c !! i = Some (p, t1) ->
  sig c !! j = Some (p +:+ ws1 +:+ "(" +:+ ws2 +:+ ")" +:+ ws3, t2) ->
  paramlist c !! S i = Some p
  /\ paramlist c !! S j = Some p
  /\ i <> j
  /\ ~ NoDup (paramlist c).
Proof.
  intros Hb H1 H2 H3 Hi Hj.
  assert (Hpi : paramlist c !! S i = Some p).
  { rewrite (paramlist_lookup_sig c i p t1 Hi). unfold normalized.
    now rewrite (bare_not_found p Hb). }
  assert (Hpj : paramlist c !! S j = Some p).
  { rewrite (paramlist_lookup_sig c j _ t2 Hj). unfold normalized.
    destruct (marker_suffix p ws1 ws2 ws3 Hb H1 H2 H3) as [Hs Hsub].
    now rewrite Hs, Hsub. }
  assert (Hne : i <> j).
  { intros ->. rewrite Hi in Hj. injection Hj as Hp _.
    apply (f_equal String.length) in Hp.
    assert (Hlen : forall a b, String.length (a +:+ b) = String.length a + String.length b).
    { intros a b. induction a as [|x a IH]; [reflexivity|].
      rewrite append_cons. simpl. now rewrite IH. }
    rewrite !Hlen in Hp. simpl in Hp. lia. }
  repeat split; try assumption.
  intros Hnd. apply Hne.
  pose proof (NoDup_lookup _ _ _ _ Hnd Hpi Hpj) as H. now injection H.
Qed.

(** ** The time stamp in the header *)

Lemma append_inv_tail (a b c : string) : a +:+ c = b +:+ c -> a = b.
Proof.
  assert (Hlen : forall x y, String.length (x +:+ y) = String.length x + String.length y).
  { intros x y. induction x as [|h x IH]; [reflexivity|].
    rewrite append_cons. simpl. now rewrite IH. }
  revert b. induction a as [|x a IH]; intros [|y b] H.
  - reflexivity.
  - apply (f_equal String.length) in H. rewrite append_nil_l, Hlen in H. simpl in H. lia.
  - apply (f_equal String.length) in H. rewrite append_nil_l, Hlen in H. simpl in H. lia.
  - rewrite !append_cons in H. injection H as -> H. f_equal. now apply IH.
Qed.

(** The header holds the time stamp in one place, between two fixed texts. *)
Lemma CLASTR_inj (t1 t2 : string) : CLASTR t1 = CLASTR t2 -> t1 = t2.
Proof.
  unfold CLASTR. intros H.
  apply (inj (String.append CLASTR_head)) in H.
  now apply append_inv_tail in H.
Qed.

Section TimeStamp.

Variable wrap_longlines : string -> option nat -> string -> string.
Variable fmt_docstr : list (string * string) -> string -> string.
Variable vb2pytype : string -> string -> string.
Variable path_join : string -> string -> string.
Variable STUBDIR : string.

(** X16: the time of the run can be read back from the output: two runs
    that leave the same file have the same time stamp, whatever the stores,
    also when they raise. *)
Theorem output_determines_timestamp (t1 t2 : string)
    (a1 a2 : list (string * Command))
    (d1 d2 : gmap string (list (string * string))) (w w1 w2 : world)
    (o1 o2 : result unit) :
  main wrap_longlines fmt_docstr vb2pytype path_join STUBDIR t1 a1 d1 w = (o1, w1) ->
  main wrap_longlines fmt_docstr vb2pytype path_join STUBDIR t2 a2 d2 w = (o2, w2) ->
  artifact w1 = artifact w2 ->
  t1 = t2.
Proof.
  rewrite !main_run.
  destruct (loop_effect _ _ _ _ _ a1 d1 (map fst a1)) as [[p1 l1] c1].
  destruct (loop_effect _ _ _ _ _ a2 d2 (map fst a2)) as [[p2 l2] c2].
  intros H1 H2 Ha. injection H1 as _ <-. injection H2 as _ <-. cbn [artifact] in Ha.
  apply app_inv_head in Ha. apply (f_equal (hd EmptyString)) in Ha.
  exact (CLASTR_inj _ _ Ha).
Qed.

End TimeStamp.

(** ** The descriptor store as it is read

    The reader of the descriptor file gives sequences: [returns] and every
    entry of [sig] hold what the file holds.  The loop body takes the first
    element of every entry of [sig] for the name of the parameter, and
    unpacks every entry into a name and a type, in the return section of a
    subroutine and in the parameter section: an empty entry raises an
    IndexError, and an entry that is not a pair raises a ValueError, in the
    parameter section after the head of the wrapper is written.  Here the
    loop body and [main] are taken with [sig] as the list of the entries as
    they are; the command of the sections above is the one whose entries
    are all pairs, and on such a store the two runs are the same
    ([loaded_main]). *)

Module Loaded.

Record Command : Type := {
  cmdtype : string;
  descr : string;
  returns : list string;
  sig : list (list string)
}.

(** [apidat[k]]. *)
Fixpoint apidat_get (apidat : list (string * Command)) (k : string) : option Command :=
  match apidat with
  | [] => None
  | (k', c) :: rest => if String.eqb k' k then Some c else apidat_get rest k
  end.

(** [it[0]]. *)
Definition first (it : list string) : result string :=
  match it with
  | x :: _ => Ok x
  | [] => Raise IndexError
  end.

Section Generator.

Variable wrap_longlines : string -> option nat -> string -> string.
Variable fmt_docstr : list (string * string) -> string -> string.
Variable vb2pytype : string -> string -> string.
Variable path_join : string -> string -> string.
Variable STUBDIR : string.
Variable TIMENOW : string.

Definition descstr (cmdname : string) (c : Command) : string :=
  let descstr :=
    "Wrapper for FRED " +:+ cmdname +:+ " " +:+ upper (cmdtype c) +:+ "." +:+ nl in
  let descstr :=
    if String.eqb (cmdtype c) "datastruct"
    then descstr +:+ (I2 +:+ "Does not require all parameters to be set when invoked." +:+ nl)
    else descstr +:+ (I2 +:+ "Requires all parameters to be set when invoked." +:+ nl) in
  let descstr := descstr +:+ nl in
  let descstr := descstr +:+ I2 in
  descstr +:+ wrap_longlines (descr c) None I2.

(** The return section: the loop over [sigits] unpacks the return entry
    and the entries of the signature alike. *)
Definition retstr (cmdname : string) (c : Command) : result string :=
  let rlist := returns c in
  let sigitems := sig c in
  if String.eqb (cmdtype c) "function" then
    match rlist with
    | [] => mret EmptyString
    | _ =>
        '(rname, rtype) ← unpack2 rlist;
        let rtype := vb2pytype rtype "repr" in
        mret (rethdg +:+ (I2 +:+ rname +:+ ": " +:+ rtype +:+ nl))
    end
  else if String.eqb (cmdtype c) "subroutine" then
    if (0 <? length sigitems) || (0 <? length rlist) then
      let sigits := if 0 <? length rlist then [rlist] else [] in
      let sigits := if 0 <? length sigitems then sigits ++ sigitems else sigits in
      let opening := if 1 <? length sigits then "[" else EmptyString in
      rstr ← collect (fun it =>
                        '(rn, rt) ← unpack2 it;
                        mret (rn +:+ ": " +:+ vb2pytype rt "repr")) sigits;
      let closing := if 1 <? length sigits then "]" else EmptyString in
      mret (((((rethdg +:+ I2) +:+ opening) +:+ join ", " rstr) +:+ closing) +:+ nl)
    else mret EmptyString
  else if String.eqb (cmdtype c) "datastruct" then
    mret (rethdg +:+ (I2 +:+ "datastruct: <com_record " +:+ cmdname +:+ ">" +:+ nl))
  else mret EmptyString.

(** The body of the loop of [main]. *)
Definition wrap_command (apidat : list (string * Command))
    (docdat : gmap string (list (string * string))) (cmdname : string) : M unit :=
  c ← lift (getitem (apidat_get apidat cmdname) cmdname);
  let cmdtype := cmdtype c in
  if String.eqb cmdtype "unknown" then
    print ("... unknown command: " +:+ cmdname +:+ ". SKIPPING")
  else
    print ("... wrapping " +:+ cmdname);;
    let descstr := descstr cmdname c in
    let sigitems := sig c in
    params ← lift (collect first sigitems);
    let newparams := (newparams_annots params).1 in
    let annots := (newparams_annots params).2 in
    doc ← lift (getitem (docdat !! cmdname) cmdname);
    let docstr := fmt_docstr doc I2 in
    retstr ← lift (retstr cmdname c);
    write (I1 +:+ "# " +:+ repeat_str "=-" 36 +:+ "=" +:+ nl);;
    let params := "self" :: params in
    let newparams := <["self" := "self"]> newparams in
    let paramlist := map (fun p => newparams !!! p) params in
    let arglist :=
      map (fun li =>
             if String.eqb cmdtype "datastruct" && negb (String.eqb li "self")
             then li +:+ "=None" else li) paramlist in
    write (I1 +:+ "def " +:+ cmdname +:+ "("
           +:+ wrap_longlines (join ", " arglist) (Some 50) (repeat_str " " 12)
           +:+ "):" +:+ nl);;
    write (I2 +:+ "r" +:+ dq +:+ dq +:+ dq +:+ nl);;
    write (I2 +:+ "Python API documentation:" +:+ nl);;
    write (I2 +:+ "=========================" +:+ nl);;
    write (I2 +:+ descstr +:+ nl);;
    write nl;;
    (if 0 <? length (tail params) then
       write (I2 +:+ "Parameters" +:+ nl);;
       write (I2 +:+ "----------" +:+ nl);;
       for_each sigitems (fun it =>
         '(par, typ) ← lift (unpack2 it);
         let paramdoc := vb2pytype typ "repr" in
         write (I2 +:+ (newparams !!! par) +:+ ": " +:+ (annots !!! par)
                +:+ paramdoc +:+ nl))
     else mret tt);;
    write retstr;;
    write nl;;
    write (I2 +:+ "FRED documentation:" +:+ nl);;
    write (I2 +:+ "===================" +:+ nl);;
    write docstr;;
    write (I2 +:+ dq +:+ dq +:+ dq +:+ nl);;
    if String.eqb cmdtype "datastruct" then
      write (I2 +:+ "dstruct = w32.Record(" +:+ dq +:+ cmdname +:+ dq
             +:+ ", self._dobj)" +:+ nl);;
      for_each (tail paramlist) (fun p =>
        write (I2 +:+ "if " +:+ p +:+ " is not None:" +:+ nl);;
        write (I2 +:+ I1 +:+ "setattr(dstruct, " +:+ dq +:+ p +:+ dq +:+ ", "
               +:+ p +:+ ")" +:+ nl));;
      write (I2 +:+ "return dstruct" +:+ nl)
    else
      let paramstr :=
        wrap_longlines (join ", " (tail paramlist)) (Some 50) (repeat_str " " 12) in
      let paramstr := if String.eqb paramstr EmptyString then "None" else paramstr in
      let stubpath := path_join STUBDIR (cmdname +:+ ".frs") in
      write (I2 +:+ "lib = self._dobj.CreateLib(r" +:+ dq +:+ stubpath +:+ dq
             +:+ ")" +:+ nl);;
      write (I2 +:+ "return lib.libfunct(" +:+ paramstr +:+ ")" +:+ nl).

(** [main]. *)
Definition main (apidat : list (string * Command))
    (docdat : gmap string (list (string * string))) : M unit :=
  let cmdnames := map fst apidat in
  write (CLASTR TIMENOW);;
  print (nl +:+ "Wrapping commands in python...");;
  for_each cmdnames (wrap_command apidat docdat);;
  close.

End Generator.

End Loaded.

(** *** The entries read as pairs *)

(** The first two elements of an entry. *)
Definition as_pair (it : list string) : string * string :=
  (hd EmptyString it, hd EmptyString (tail it)).

Definition is_pair (it : list string) : bool := Nat.eqb (length it) 2.

(** The command whose signature has the entries read as pairs, and the
    command as read whose entries are the pairs of a signature. *)
Definition typed (c : Loaded.Command) : Command :=
  {| cmdtype := Loaded.cmdtype c; descr := Loaded.descr c;
     returns := Loaded.returns c; sig := map as_pair (Loaded.sig c) |}.

Definition loaded (c : Command) : Loaded.Command :=
  {| Loaded.cmdtype := cmdtype c; Loaded.descr := descr c;
     Loaded.returns := returns c;
     Loaded.sig := map (fun it : string * string => [it.1; it.2]) (sig c) |}.

(** The entries before the first that is not a pair. *)
Fixpoint pairs_before (l : list (list string)) : list (string * string) :=
  match l with
  | [a; b] :: r => (a, b) :: pairs_before r
  | _ => []
  end.

Section Entries.

Lemma is_pair_spec (it : list string) :
  is_pair it = true <-> exists a b : string, it = [a; b].
Proof.
  unfold is_pair. destruct it as [|a [|b [|x l]]]; simpl; split;
    try discriminate; try (intros (a' & b' & H); discriminate).
  - intros _. now exists a, b.
  - reflexivity.
Qed.

Lemma pairs_before_all (l : list (list string)) :
  forallb is_pair l = true -> pairs_before l = map as_pair l.
Proof.
  induction l as [|it l IH]; [reflexivity|].
  simpl forallb. intros H. apply andb_prop in H as [Hit Hl].
  apply is_pair_spec in Hit as (a & b & ->). simpl. f_equal. now apply IH.
Qed.

Lemma untyped_all (l : list (list string)) :
  forallb is_pair l = true ->
  map (fun it : string * string => [it.1; it.2]) (map as_pair l) = l.
Proof.
  induction l as [|it l IH]; [reflexivity|].
  simpl forallb. intros H. apply andb_prop in H as [Hit Hl].
  apply is_pair_spec in Hit as (a & b & ->). simpl. f_equal. now apply IH.
Qed.

Lemma loaded_all (l : list (string * string)) :
  forallb is_pair (map (fun it : string * string => [it.1; it.2]) l) = true
  /\ map as_pair (map (fun it : string * string => [it.1; it.2]) l) = l.
Proof.
  induction l as [|[a b] l [IH1 IH2]]; [now split|].
  simpl. rewrite IH1, IH2. now split.
Qed.

(** The names of a parameter before the first entry that is not a pair are
    first elements of entries. *)
Lemma pairs_before_names (l : list (list string)) (it : string * string) :
  it ∈ pairs_before l -> it.1 ∈ map fst (map as_pair l).
Proof.
  induction l as [|e l IH]; intros H; [inversion H|].
  destruct e as [|a [|b [|x y]]]; try (inversion H; fail).
  simpl in H. apply elem_of_cons in H as [->|H].
  - simpl. constructor.
  - simpl. constructor. now apply IH.
Qed.

(** The list of the first elements: it is there unless an entry is
    empty. *)
Lemma collect_first (l : list (list string)) :
  collect Loaded.first l
  = if forallb (fun it => negb (Nat.eqb (length it) 0)) l
    then Ok (map fst (map as_pair l)) else Raise IndexError.
Proof.
  induction l as [|it l IH]; [reflexivity|].
  simpl. unfold mbind, result_bind. destruct it as [|a it]; [reflexivity|].
  simpl. unfold mbind, result_bind in IH. rewrite IH.
  now destruct (forallb _ l).
Qed.

(** An entry that is a pair is not empty. *)
Lemma pairs_not_empty (l : list (list string)) :
  forallb is_pair l = true ->
  forallb (fun it => negb (Nat.eqb (length it) 0)) l = true.
Proof.
  induction l as [|it l IH]; [reflexivity|].
  simpl. intros H. apply andb_prop in H as [Hit Hl].
  rewrite (IH Hl). apply is_pair_spec in Hit as (a & b & ->). reflexivity.
Qed.

End Entries.

(** *** Running the loop body on the store as read *)

Section LoadedRun.

Variable wrap_longlines : string -> option nat -> string -> string.
Variable fmt_docstr : list (string * string) -> string -> string.
Variable vb2pytype : string -> string -> string.
Variable path_join : string -> string -> string.
Variable STUBDIR : string.

(** The head of a wrapper: the chunks up to the lines of the parameter
    section for the entries before the first that is not a pair. *)
Definition wrapper_head (cmdname : string) (c : Loaded.Command) : list string :=
  [I1 +:+ "# " +:+ repeat_str "=-" 36 +:+ "=" +:+ nl;
   def_line wrap_longlines cmdname (typed c);
   I2 +:+ "r" +:+ dq +:+ dq +:+ dq +:+ nl;
   I2 +:+ "Python API documentation:" +:+ nl;
   I2 +:+ "=========================" +:+ nl;
   I2 +:+ descstr wrap_longlines cmdname (typed c) +:+ nl;
   nl;
   I2 +:+ "Parameters" +:+ nl;
   I2 +:+ "----------" +:+ nl]
  ++ map (param_line vb2pytype) (pairs_before (Loaded.sig c)).

(** The outcome of the loop body on one command as read, the status lines
    it prints and the chunks it writes. *)
Definition loaded_effect (apidat : list (string * Loaded.Command))
    (docdat : gmap string (list (string * string))) (cmdname : string)
  : result unit * list string * list string :=
  match Loaded.apidat_get apidat cmdname with
  | None => (Raise (KeyError cmdname), [], [])
  | Some c =>
      if String.eqb (Loaded.cmdtype c) "unknown" then
        (Ok tt, ["... unknown command: " +:+ cmdname +:+ ". SKIPPING"], [])
      else if negb (forallb (fun it => negb (Nat.eqb (length it) 0)) (Loaded.sig c)) then
        (Raise IndexError, ["... wrapping " +:+ cmdname], [])
      else
        match docdat !! cmdname with
        | None => (Raise (KeyError cmdname), ["... wrapping " +:+ cmdname], [])
        | Some doc =>
            match Loaded.retstr vb2pytype cmdname c with
            | Raise e => (Raise e, ["... wrapping " +:+ cmdname], [])
            | Ok r =>
                if forallb is_pair (Loaded.sig c) then
                  (Ok tt, ["... wrapping " +:+ cmdname],
                   wrapper_text wrap_longlines fmt_docstr vb2pytype path_join STUBDIR
                     cmdname (typed c) doc r)
                else
                  (Raise ValueError, ["... wrapping " +:+ cmdname],
                   wrapper_head cmdname c)
            end
        end
  end.

Lemma bind_raise {A B : Type} (m : M A) (k : A -> M B) (w w' : world) (e : exn) :
  m w = (Raise e, w') -> (m ≫= k) w = (Raise e, w').
Proof. intros H. unfold mbind, M_bind. now rewrite H. Qed.

(** The loop over the entries that unpacks each and writes one chunk: it
    goes up to the first entry that is not a pair. *)
Lemma unpack_loop_run (f : string -> string -> string) (l : list (list string))
    (w : world) :
  for_each l (fun it => '(par, typ) ← lift (unpack2 it); write (f par typ)) w
  = (if forallb is_pair l then Ok tt else Raise ValueError,
     logged w [] (map (fun it : string * string => f it.1 it.2) (pairs_before l))).
Proof.
  revert w. induction l as [|it l IH]; intros w.
  - simpl. now rewrite logged_nil.
  - destruct it as [|a [|b [|x y]]];
      try (simpl; unfold mbind, M_bind, lift; simpl; now rewrite logged_nil).
    simpl for_each. unfold mbind at 1. unfold M_bind at 1.
    unfold mbind at 1. unfold M_bind at 1. unfold lift at 1. simpl unpack2.
    cbv iota beta. rewrite write_run, IH, logged_logged. reflexivity.
Qed.

(** Unpacking a list of entries for a return section. *)
Lemma collect_unpack (g : string -> string -> string) (l : list (list string)) :
  collect (fun it => '(rn, rt) ← unpack2 it; mret (g rn rt)) l
  = if forallb is_pair l
    then Ok (map (fun it : string * string => g it.1 it.2) (map as_pair l))
    else Raise ValueError.
Proof.
  induction l as [|it l IH]; [reflexivity|].
  destruct it as [|a [|b [|x y]]]; try reflexivity.
  simpl. unfold mbind, result_bind. simpl. unfold mbind, result_bind in IH. rewrite IH.
  now destruct (forallb is_pair l).
Qed.

(** The return section of a command as read is the one of its typed view
    when the entries of its signature are pairs, and whenever the command
    is not a subroutine. *)
Lemma loaded_retstr_typed (cmdname : string) (c : Loaded.Command) :
  forallb is_pair (Loaded.sig c) = true
  \/ Loaded.cmdtype c <> "subroutine" ->
  Loaded.retstr vb2pytype cmdname c = retstr vb2pytype cmdname (typed c).
Proof.
  intros H. unfold Loaded.retstr, retstr. simpl.
  destruct (String.eqb (Loaded.cmdtype c) "function"); [reflexivity|].
  destruct (String.eqb_spec (Loaded.cmdtype c) "subroutine") as [Hs|Hs]; [|reflexivity].
  destruct H as [H|H]; [|contradiction].
  rewrite length_map, (untyped_all _ H). reflexivity.
Qed.

(** A subroutine with a signature entry that is not a pair: the loop over
    [sigits] raises. *)
Lemma loaded_retstr_subroutine_raise (cmdname : string) (c : Loaded.Command) :
  Loaded.cmdtype c = "subroutine" ->
  forallb is_pair (Loaded.sig c) = false ->
  Loaded.retstr vb2pytype cmdname c = Raise ValueError.
Proof.
  intros Hs H. unfold Loaded.retstr. rewrite Hs. simpl.
  destruct (Loaded.sig c) as [|it l] eqn:El; [discriminate|].
  change (0 <? length (it :: l)) with true. cbv iota. simpl orb. cbv iota.
  rewrite collect_unpack, forallb_app, H, andb_false_r. reflexivity.
Qed.

(** The parameter section on the store as read: the headings, then the
    lines up to the first entry that is not a pair. *)
Lemma loaded_param_section_run (c : Loaded.Command) (w : world) :
  (if 0 <? length (map fst (sig (typed c)))
   then
     write (I2 +:+ "Parameters" +:+ nl);;
     write (I2 +:+ "----------" +:+ nl);;
     for_each (Loaded.sig c)
       (fun it =>
          '(par, typ) ← lift (unpack2 it);
          write (I2 +:+ ((<["self" := "self"]> (newparams_annots (map fst (sig (typed c)))).1
                          : gmap string string) !!! par)
                 +:+ ": " +:+ ((newparams_annots (map fst (sig (typed c)))).2 !!! par)
                 +:+ vb2pytype typ "repr" +:+ nl))
   else mret tt) w
  = (if forallb is_pair (Loaded.sig c) then Ok tt else Raise ValueError,
     logged w []
       (match Loaded.sig c with
        | [] => []
        | _ => [I2 +:+ "Parameters" +:+ nl; I2 +:+ "----------" +:+ nl]
               ++ map (param_line vb2pytype) (pairs_before (Loaded.sig c))
        end)).
Proof.
  destruct (Loaded.sig c) as [|it l] eqn:El.
  - simpl. rewrite El. simpl. now rewrite logged_nil.
  - assert (H : (0 <? length (map fst (sig (typed c)))) = true)
      by (simpl; now rewrite El).
    rewrite H, !bind_write. rewrite <- El.
    rewrite (unpack_loop_run
               (fun par typ =>
                  I2 +:+ ((<["self" := "self"]> (newparams_annots (map fst (sig (typed c)))).1
                           : gmap string string) !!! par)
                  +:+ ": " +:+ ((newparams_annots (map fst (sig (typed c)))).2 !!! par)
                  +:+ vb2pytype typ "repr" +:+ nl)).
    rewrite !logged_logged. f_equal. f_equal. simpl. do 2 f_equal.
    apply map_ext_in. intros e He. apply list_elem_of_In, pairs_before_names in He.
    unfold param_line.
    now rewrite (newparams_self_lookup _ _ He), (annots_total_lookup _ _ He).
Qed.

(** The loop body on the store as read. *)
Lemma loaded_command_run (apidat : list (string * Loaded.Command))
    (docdat : gmap string (list (string * string))) (cmdname : string) (w : world) :
  Loaded.wrap_command wrap_longlines fmt_docstr vb2pytype path_join STUBDIR
    apidat docdat cmdname w
  = (let '(o, lines, chunks) := loaded_effect apidat docdat cmdname in
     (o, logged w lines chunks)).
Proof.
  unfold Loaded.wrap_command, loaded_effect.
  destruct (Loaded.apidat_get apidat cmdname) as [c|].
  2:{ unfold mbind, M_bind, lift. simpl. now rewrite logged_nil. }
  unfold mbind at 1. unfold M_bind at 1. unfold lift at 1. simpl getitem. cbv iota beta.
  destruct (String.eqb (Loaded.cmdtype c) "unknown") eqn:Eu.
  { unfold print, logged. simpl. now rewrite app_nil_r. }
  rewrite bind_print, collect_first.
  destruct (forallb (fun it => negb (Nat.eqb (length it) 0)) (Loaded.sig c)) eqn:En;
    [|reflexivity].
  simpl negb. cbv iota. rewrite bind_lift_ok.
  destruct (docdat !! cmdname) as [doc|]; [|reflexivity].
  simpl getitem. rewrite bind_lift_ok.
  destruct (Loaded.retstr vb2pytype cmdname c) as [r|e]; [|reflexivity].
  rewrite bind_lift_ok.
  change (map fst (map as_pair (Loaded.sig c))) with (map fst (sig (typed c))).
  rewrite paramlist_lookup.
  rewrite !bind_write, !logged_logged.
  change (tail ("self" :: map fst (sig (typed c)))) with (map fst (sig (typed c))).
  pose proof (loaded_param_section_run c) as Hp.
  destruct (forallb is_pair (Loaded.sig c)) eqn:Ep.
  - rewrite (bind_ok _ _ _ _ _ (Hp _)).
    rewrite !bind_write, !logged_logged.
    unfold wrapper_text, dispatch, call_line, paramstr, def_line, arglist, param_section.
    change (tail (paramlist (typed c)))
      with (map normalized (map fst (sig (typed c)))).
    rewrite (pairs_before_all _ Ep).
    change (map as_pair (Loaded.sig c)) with (sig (typed c)).
    change (cmdtype (typed c)) with (Loaded.cmdtype c).
    assert (Hs : match Loaded.sig c with
                 | [] => []
                 | _ :: _ => [I2 +:+ "Parameters" +:+ nl; I2 +:+ "----------" +:+ nl]
                             ++ map (param_line vb2pytype) (sig (typed c))
                 end
                 = match sig (typed c) with
                   | [] => []
                   | _ :: _ => [I2 +:+ "Parameters" +:+ nl; I2 +:+ "----------" +:+ nl]
                               ++ map (param_line vb2pytype) (sig (typed c))
                   end).
    { simpl. now destruct (Loaded.sig c). }
    rewrite Hs.
    destruct (String.eqb (Loaded.cmdtype c) "datastruct").
    + rewrite bind_write.
      rewrite (bind_ok _ _ _ _ _ (for_each_write2 _ _ _ _)).
      rewrite write_run, !logged_logged.
      simpl. rewrite <- !app_assoc. reflexivity.
    + rewrite bind_write, write_run, !logged_logged.
      simpl. rewrite <- !app_assoc. reflexivity.
  - rewrite (bind_raise _ _ _ _ _ (Hp _)). rewrite !logged_logged.
    unfold wrapper_head.
    destruct (Loaded.sig c) as [|it l] eqn:El; [discriminate|].
    simpl. rewrite <- ?app_assoc. reflexivity.
Qed.

End LoadedRun.

(** *** The loop over the commands, for any loop body given by its effect *)

Section Loops.

Variable effect : string -> result unit * list string * list string.

(** The effects of the commands up to the first that raises. *)
Fixpoint loop_of (cmdnames : list string) : result unit * list string * list string :=
  match cmdnames with
  | [] => (Ok tt, [], [])
  | n :: rest =>
      match effect n with
      | (Ok _, lines, chunks) =>
          match loop_of rest with
          | (o, lines', chunks') => (o, lines ++ lines', chunks ++ chunks')
          end
      | (Raise e, lines, chunks) => (Raise e, lines, chunks)
      end
  end.

Lemma for_each_effect (body : string -> M unit) :
  (forall (k : string) (w : world),
     body k w = (let '(o, lines, chunks) := effect k in (o, logged w lines chunks))) ->
  forall (keys : list string) (w : world),
    for_each keys body w
    = (let '(o, lines, chunks) := loop_of keys in (o, logged w lines chunks)).
Proof.
  intros Hb keys. induction keys as [|n rest IH]; intros w.
  - simpl. now rewrite logged_nil.
  - simpl. unfold mbind, M_bind. rewrite Hb.
    destruct (effect n) as [[[[]|e] lines] chunks]; [|reflexivity].
    rewrite IH. destruct (loop_of rest) as [[o lines'] chunks'].
    now rewrite logged_logged.
Qed.

Lemma loop_of_ok (keys lines chunks : list string) :
  loop_of keys = (Ok tt, lines, chunks) ->
  lines = flat_map (fun k => (effect k).1.2) keys
  /\ chunks = flat_map (fun k => (effect k).2) keys
  /\ forall k : string, k ∈ keys -> (effect k).1.1 = Ok tt.
Proof.
  revert lines chunks. induction keys as [|n rest IH]; intros lines chunks H.
  - simpl in H. injection H as <- <-. repeat split. intros k Hk. inversion Hk.
  - simpl in H. destruct (effect n) as [[[[]|e] l0] c0] eqn:En; [|discriminate].
    destruct (loop_of rest) as [[o l1] c1] eqn:Er.
    injection H as -> <- <-.
    destruct (IH _ _ eq_refl) as (Hl & Hc & Hok).
    rewrite Hl, Hc. simpl. rewrite En. simpl.
    repeat split. intros k Hk. apply elem_of_cons in Hk as [->|Hk]; [|now apply Hok].
    now rewrite En.
Qed.

Lemma loop_of_stop (keys lines chunks : list string) (e : exn) :
  loop_of keys = (Raise e, lines, chunks) ->
  exists (pre : list string) (n : string) (post : list string),
    keys = pre ++ n :: post
    /\ (forall k : string, k ∈ pre -> (effect k).1.1 = Ok tt)
    /\ (effect n).1.1 = Raise e
    /\ lines = flat_map (fun k => (effect k).1.2) pre ++ (effect n).1.2
    /\ chunks = flat_map (fun k => (effect k).2) pre ++ (effect n).2.
Proof.
  revert lines chunks. induction keys as [|n rest IH]; intros lines chunks H.
  - discriminate.
  - simpl in H. destruct (effect n) as [[[[]|e0] l0] c0] eqn:En.
    + destruct (loop_of rest) as [[o l1] c1] eqn:Er.
      injection H as -> <- <-.
      destruct (IH _ _ eq_refl) as (pre & m & post & -> & Hpre & Hm & Hl & Hc).
      exists (n :: pre), m, post. split; [reflexivity|]. split.
      { intros k Hk. apply elem_of_cons in Hk as [->|Hk]; [|now apply Hpre].
        now rewrite En. }
      split; [exact Hm|]. simpl. rewrite En. simpl.
      rewrite Hl, Hc. now rewrite !app_assoc.
    + injection H as -> <- <-.
      exists [], n, rest. rewrite En. simpl. repeat split.
      intros k Hk. inversion Hk.
Qed.

Lemma loop_of_all_ok (keys : list string) :
  (forall k : string, k ∈ keys -> (effect k).1.1 = Ok tt) ->
  exists lines chunks : list string, loop_of keys = (Ok tt, lines, chunks).
Proof.
  induction keys as [|n rest IH]; intros H.
  - now exists [], [].
  - simpl. pose proof (H n ltac:(constructor)) as Hn.
    destruct (effect n) as [[o l0] c0]. simpl in Hn. subst o.
    destruct IH as (l1 & c1 & Hr).
    { intros k Hk. apply H. now constructor. }
    rewrite Hr. now eexists _, _.
Qed.

End Loops.

(** *** [main] on the store as read *)

Section LoadedMain.

Variable wrap_longlines : string -> option nat -> string -> string.
Variable fmt_docstr : list (string * string) -> string -> string.
Variable vb2pytype : string -> string -> string.
Variable path_join : string -> string -> string.
Variable STUBDIR : string.

Local Abbreviation run_command :=
  (Loaded.wrap_command wrap_longlines fmt_docstr vb2pytype path_join STUBDIR).
Local Abbreviation run_main :=
  (Loaded.main wrap_longlines fmt_docstr vb2pytype path_join STUBDIR).
Local Abbreviation effect_of :=
  (loaded_effect wrap_longlines fmt_docstr vb2pytype path_join STUBDIR).

Lemma loaded_main_run (TIMENOW : string) (apidat : list (string * Loaded.Command))
    (docdat : gmap string (list (string * string))) (w : world) :
  run_main TIMENOW apidat docdat w
  = (let '(o, lines, chunks) := loop_of (effect_of apidat docdat) (map fst apidat) in
     (o, World (artifact w ++ CLASTR TIMENOW :: chunks)
               (status w ++ (nl +:+ "Wrapping commands in python...") :: lines)
               (match o with Ok _ => true | Raise _ => closed w end))).
Proof.
  unfold Loaded.main. rewrite bind_write, bind_print, logged_logged.
  unfold mbind, M_bind.
  rewrite (for_each_effect (effect_of apidat docdat) _
             (loaded_command_run _ _ _ _ _ apidat docdat)).
  destruct (loop_of (effect_of apidat docdat) (map fst apidat)) as [[[[]|e] lines] chunks];
    unfold logged, close; simpl; rewrite <- ?app_assoc; reflexivity.
Qed.

(** The loop body run on one command from an empty world. *)
Definition loaded_alone (apidat : list (string * Loaded.Command))
    (docdat : gmap string (list (string * string))) (cmdname : string)
  : result unit * world :=
  run_command apidat docdat cmdname (World [] [] false).

Lemma loaded_effect_alone (apidat : list (string * Loaded.Command))
    (docdat : gmap string (list (string * string))) (k : string) :
  loaded_alone apidat docdat k
  = ((effect_of apidat docdat k).1.1,
     World (effect_of apidat docdat k).2 (effect_of apidat docdat k).1.2 false).
Proof.
  unfold loaded_alone. rewrite loaded_command_run.
  now destruct (effect_of apidat docdat k) as [[o lines] chunks].
Qed.

(** A store whose entries are all pairs: the typed command is the view of
    the command as read, and the run is the run of the sections above. *)
Lemma typed_loaded (c : Command) : typed (loaded c) = c.
Proof.
  destruct c as [k d r s]. unfold typed, loaded. simpl. f_equal.
  apply (loaded_all s).
Qed.

Lemma loaded_apidat_get (apidat : list (string * Command)) (k : string) :
  Loaded.apidat_get (map (fun kc : string * Command => (kc.1, loaded kc.2)) apidat) k
  = option_map loaded (apidat_get apidat k).
Proof.
  induction apidat as [|[k' c] rest IH]; [reflexivity|].
  simpl. now destruct (String.eqb k' k).
Qed.

Lemma loaded_effect_typed (apidat : list (string * Command))
    (docdat : gmap string (list (string * string))) (k : string) :
  effect_of (map (fun kc : string * Command => (kc.1, loaded kc.2)) apidat) docdat k
  = command_effect wrap_longlines fmt_docstr vb2pytype path_join STUBDIR apidat docdat k.
Proof.
  unfold loaded_effect, command_effect. rewrite loaded_apidat_get.
  destruct (apidat_get apidat k) as [c|]; [|reflexivity]. simpl option_map. cbv iota.
  change (Loaded.cmdtype (loaded c)) with (cmdtype c).
  destruct (String.eqb (cmdtype c) "unknown"); [reflexivity|].
  pose proof (loaded_all (sig c)) as [Hp _].
  change (Loaded.sig (loaded c)) with (map (fun it : string * string => [it.1; it.2]) (sig c)).
  rewrite (pairs_not_empty _ Hp), Hp. simpl negb. cbv iota.
  destruct (docdat !! k) as [doc|]; [|reflexivity].
  rewrite (loaded_retstr_typed vb2pytype k (loaded c) (or_introl Hp)), typed_loaded.
  reflexivity.
Qed.

Lemma loaded_main (TIMENOW : string) (apidat : list (string * Command))
    (docdat : gmap string (list (string * string))) (w : world) :
  run_main TIMENOW (map (fun kc : string * Command => (kc.1, loaded kc.2)) apidat) docdat w
  = main wrap_longlines fmt_docstr vb2pytype path_join STUBDIR TIMENOW apidat docdat w.
Proof.
  rewrite loaded_main_run, main_run, map_map. simpl.
  assert (H : forall keys : list string,
            loop_of (effect_of (map (fun kc : string * Command => (kc.1, loaded kc.2)) apidat)
                               docdat) keys
            = loop_effect wrap_longlines fmt_docstr vb2pytype path_join STUBDIR
                apidat docdat keys).
  { induction keys as [|n rest IH]; [reflexivity|].
    simpl. now rewrite loaded_effect_typed, IH. }
  now rewrite H.
Qed.

End LoadedMain.

(** *** What a run on the store as read leaves behind *)

Lemma all_pairs_iff (l : list (list string)) :
  forallb is_pair l = true <-> forall it : list string, it ∈ l -> length it = 2.
Proof.
  induction l as [|x l IH]; simpl.
  - split; [intros _ it H; inversion H|reflexivity].
  - rewrite andb_true_iff, IH. unfold is_pair. rewrite Nat.eqb_eq. split.
    + intros [Hx Hl] it Hit. apply elem_of_cons in Hit as [->|Hit]; auto.
    + intros H. split; [apply H; constructor|]. intros it Hit. apply H. now constructor.
Qed.

Lemma not_all_pairs_iff (l : list (list string)) :
  forallb is_pair l = false <-> exists it : list string, it ∈ l /\ length it <> 2.
Proof.
  induction l as [|x l IH]; simpl.
  - split; [discriminate|]. intros (it & H & _). inversion H.
  - rewrite andb_false_iff, IH. unfold is_pair. rewrite Nat.eqb_neq. split.
    + intros [Hx|(it & Hit & Hl)].
      * exists x. split; [constructor|exact Hx].
      * exists it. split; [now constructor|exact Hl].
    + intros (it & Hit & Hl). apply elem_of_cons in Hit as [->|Hit]; [now left|].
      right. now exists it.
Qed.

Section LoadedFacts.

Variable wrap_longlines : string -> option nat -> string -> string.
Variable fmt_docstr : list (string * string) -> string -> string.
Variable vb2pytype : string -> string -> string.
Variable path_join : string -> string -> string.
Variable STUBDIR : string.

Local Abbreviation run_command :=
  (Loaded.wrap_command wrap_longlines fmt_docstr vb2pytype path_join STUBDIR).
Local Abbreviation run_main :=
  (Loaded.main wrap_longlines fmt_docstr vb2pytype path_join STUBDIR).
Local Abbreviation effect_of :=
  (loaded_effect wrap_longlines fmt_docstr vb2pytype path_join STUBDIR).
Local Abbreviation alone_of :=
  (loaded_alone wrap_longlines fmt_docstr vb2pytype path_join STUBDIR).
Local Abbreviation text_of :=
  (wrapper_text wrap_longlines fmt_docstr vb2pytype path_join STUBDIR).
Local Abbreviation head_of := (wrapper_head wrap_longlines vb2pytype).

(** When the return section of a command as read is composed. *)
Lemma loaded_retstr_cases (cmdname : string) (c : Loaded.Command) :
  (exists r : string, Loaded.retstr vb2pytype cmdname c = Ok r)
  <-> (Loaded.returns c = [] \/ length (Loaded.returns c) = 2
       \/ (Loaded.cmdtype c <> "function" /\ Loaded.cmdtype c <> "subroutine"))
      /\ (Loaded.cmdtype c = "subroutine" ->
          forall it : list string, it ∈ Loaded.sig c -> length it = 2).
Proof.
  destruct (String.eqb_spec (Loaded.cmdtype c) "subroutine") as [Hs|Hs].
  - destruct (forallb is_pair (Loaded.sig c)) eqn:Hp.
    + rewrite (loaded_retstr_typed vb2pytype cmdname c (or_introl Hp)).
      rewrite <- (retstr_cases vb2pytype cmdname (typed c)). simpl.
      pose proof (proj1 (all_pairs_iff _) Hp) as Hall. tauto.
    + rewrite (loaded_retstr_subroutine_raise vb2pytype cmdname c Hs Hp).
      apply not_all_pairs_iff in Hp as (it & Hit & Hl). split.
      * intros [r Hr]. discriminate.
      * intros [_ H]. contradict Hl. now apply H.
  - rewrite (loaded_retstr_typed vb2pytype cmdname c (or_intror Hs)).
    rewrite <- (retstr_cases vb2pytype cmdname (typed c)). simpl. tauto.
Qed.

(** The return section raises nothing but the exception of an unpacking. *)
Lemma loaded_retstr_exn (cmdname : string) (c : Loaded.Command) (e : exn) :
  Loaded.retstr vb2pytype cmdname c = Raise e -> e = ValueError.
Proof.
  unfold Loaded.retstr.
  destruct (String.eqb (Loaded.cmdtype c) "function").
  { destruct (Loaded.returns c) as [|a [|b [|x l]]]; simpl; intros H;
      (discriminate || now injection H). }
  destruct (String.eqb (Loaded.cmdtype c) "subroutine").
  { destruct (_ || _); [|discriminate]. rewrite collect_unpack.
    destruct (forallb is_pair _); simpl; intros H; (discriminate || now injection H). }
  destruct (String.eqb (Loaded.cmdtype c) "datastruct"); discriminate.
Qed.

(** X7: composing the return section raises exactly for a function or a
    subroutine whose [returns] is neither empty nor a pair, and for a
    subroutine with a signature entry that is not a pair; what it raises is
    the ValueError of the unpacking.  A datastruct, and any other command
    type, never raises there. *)
Theorem retstr_raises_exactly (cmdname : string) (c : Loaded.Command) :
  ((exists e : exn, Loaded.retstr vb2pytype cmdname c = Raise e)
   <-> ((Loaded.cmdtype c = "function" \/ Loaded.cmdtype c = "subroutine")
        /\ Loaded.returns c <> [] /\ length (Loaded.returns c) <> 2)
       \/ (Loaded.cmdtype c = "subroutine"
           /\ exists it : list string, it ∈ Loaded.sig c /\ length it <> 2))
  /\ (forall e : exn, Loaded.retstr vb2pytype cmdname c = Raise e -> e = ValueError).
Proof.
  split; [|apply loaded_retstr_exn].
  pose proof (loaded_retstr_cases cmdname c) as Hc.
  assert (Hwf : Loaded.returns c = [] \/ length (Loaded.returns c) = 2
                \/ (Loaded.returns c <> [] /\ length (Loaded.returns c) <> 2)).
  { destruct (Loaded.returns c) as [|a [|b [|x l]]]; simpl; auto;
      right; right; split; (discriminate || lia). }
  assert (Hp : forallb is_pair (Loaded.sig c) = true
               \/ exists it : list string, it ∈ Loaded.sig c /\ length it <> 2).
  { destruct (forallb is_pair (Loaded.sig c)) eqn:E; [now left|].
    right. now apply not_all_pairs_iff. }
  destruct (Loaded.retstr vb2pytype cmdname c) as [r|e] eqn:Hr.
  - assert (Hok : exists r0 : string, Ok r = Ok r0) by now exists r.
    apply Hc in Hok as [H1 H2]. split; [intros [e He]; discriminate|].
    intros [([Hf|Hs] & Hne & Hlen)|(Hs & it & Hit & Hl)].
    + destruct H1 as [H|[H|[H _]]]; contradiction.
    + destruct H1 as [H|[H|[_ H]]]; contradiction.
    + contradict Hl. now apply H2.
  - split; [|intros _; now exists e]. intros _.
    destruct (String.eqb_spec (Loaded.cmdtype c) "subroutine") as [Hs|Hs].
    + destruct Hp as [Hp|Hp]; [|now right].
      left. split; [now right|].
      destruct Hwf as [H|[H|H]]; [| |exact H]; exfalso;
        assert (Hok : exists r0 : string, Raise e = Ok r0)
          by (apply Hc; split; [tauto|intros _; now apply all_pairs_iff]);
        destruct Hok as [r0 Hr0]; discriminate.
    + left.
      destruct (String.eqb_spec (Loaded.cmdtype c) "function") as [Hf|Hf].
      * split; [now left|].
        destruct Hwf as [H|[H|H]]; [| |exact H]; exfalso;
          assert (Hok : exists r0 : string, Raise e = Ok r0)
            by (apply Hc; split; [tauto|intros; contradiction]);
          destruct Hok as [r0 Hr0]; discriminate.
      * exfalso.
        assert (Hok : exists r0 : string, Raise e = Ok r0)
          by (apply Hc; split; [tauto|intros; contradiction]).
        destruct Hok as [r0 Hr0]. discriminate.
Qed.

(** X10: what the loop body leaves behind.  It keeps what was written and
    printed before and prints at most one line.  When it returns it has
    written nothing, for a command of kind unknown, or the whole wrapper.
    When it raises it has written nothing, but for one case: a signature
    entry that is not a pair, in a command that is not a subroutine, raises
    the ValueError in the parameter section, after the head of the wrapper
    is written up to the line of the parameter before that entry. *)
Theorem command_whole_head_or_nothing (apidat : list (string * Loaded.Command))
    (docdat : gmap string (list (string * string))) (cmdname : string) (w : world) :
  exists (o : result unit) (lines chunks : list string),
    run_command apidat docdat cmdname w = (o, logged w lines chunks)
    /\ length lines <= 1
    /\ (o = Ok tt ->
        chunks = []
        \/ exists (c : Loaded.Command) (doc : list (string * string)) (r : string),
             Loaded.apidat_get apidat cmdname = Some c
             /\ docdat !! cmdname = Some doc
             /\ Loaded.retstr vb2pytype cmdname c = Ok r
             /\ (forall it : list string, it ∈ Loaded.sig c -> length it = 2)
             /\ chunks = text_of cmdname (typed c) doc r)
    /\ (forall e : exn, o = Raise e ->
        chunks = []
        \/ (e = ValueError
            /\ exists c : Loaded.Command,
                 Loaded.apidat_get apidat cmdname = Some c
                 /\ Loaded.cmdtype c <> "subroutine"
                 /\ (exists it : list string, it ∈ Loaded.sig c /\ length it <> 2)
                 /\ chunks = head_of cmdname c
                 /\ 9 <= length chunks)).
Proof.
  rewrite loaded_command_run. unfold loaded_effect.
  destruct (Loaded.apidat_get apidat cmdname) as [c|].
  2:{ eexists _, _, _. split; [reflexivity|]. simpl. repeat split; auto. }
  destruct (String.eqb (Loaded.cmdtype c) "unknown").
  { eexists _, _, _. split; [reflexivity|]. simpl. repeat split; auto. }
  destruct (negb _).
  { eexists _, _, _. split; [reflexivity|]. simpl. repeat split; auto. }
  destruct (docdat !! cmdname) as [doc|].
  2:{ eexists _, _, _. split; [reflexivity|]. simpl. repeat split; auto. }
  destruct (Loaded.retstr vb2pytype cmdname c) as [r|e] eqn:Hr.
  2:{ eexists _, _, _. split; [reflexivity|]. simpl. repeat split; auto. }
  destruct (forallb is_pair (Loaded.sig c)) eqn:Hp.
  - eexists _, _, _. split; [reflexivity|]. simpl. split; [lia|]. split.
    + intros _. right. exists c, doc, r. repeat split; try assumption.
      now apply all_pairs_iff.
    + intros e He. discriminate.
  - eexists _, _, _. split; [reflexivity|]. simpl. split; [lia|]. split.
    + discriminate.
    + intros e He. injection He as <-. right. split; [reflexivity|].
      exists c. split; [reflexivity|]. split.
      { intros Hs. rewrite (loaded_retstr_subroutine_raise vb2pytype cmdname c Hs Hp) in Hr.
        discriminate. }
      split; [now apply not_all_pairs_iff|]. split; [reflexivity|].
      unfold wrapper_head. simpl. lia.
Qed.

(** X18: a command that is neither of kind unknown nor a subroutine, with
    its documentation and a return section, whose signature has no empty
    entry but an entry that is not a pair: the loop body raises a
    ValueError after it has written the head of the wrapper, and [main]
    raises there, leaving the file open with that head at its end. *)
Theorem malformed_entry_leaves_head (apidat : list (string * Loaded.Command))
    (docdat : gmap string (list (string * string)))
    (cmdname : string) (c : Loaded.Command) (doc : list (string * string)) (r : string)
    (w : world) :
  Loaded.apidat_get apidat cmdname = Some c ->
  Loaded.cmdtype c <> "unknown" ->
  docdat !! cmdname = Some doc ->
  Loaded.retstr vb2pytype cmdname c = Ok r ->
  (forall it : list string, it ∈ Loaded.sig c -> it <> []) ->
  (exists it : list string, it ∈ Loaded.sig c /\ length it <> 2) ->
  let stop (w0 : world) :=
    (Raise ValueError : result unit,
     logged w0 ["... wrapping " +:+ cmdname] (head_of cmdname c)) in
  run_command apidat docdat cmdname w = stop w
  /\ (forall rest : list string,
        for_each (cmdname :: rest) (run_command apidat docdat) w = stop w)
  /\ (forall (TIMENOW : string) (pre post : list string) (w1 : world),
        map fst apidat = pre ++ cmdname :: post ->
        for_each pre (run_command apidat docdat) (started TIMENOW w) = (Ok tt, w1) ->
        run_main TIMENOW apidat docdat w = stop w1
        /\ closed (stop w1).2 = closed w1).
Proof.
  intros Ha Hk Hd Hr Hne Hbad stop.
  apply String.eqb_neq in Hk. apply not_all_pairs_iff in Hbad.
  assert (Hn : forallb (fun it => negb (Nat.eqb (length it) 0)) (Loaded.sig c) = true).
  { apply forallb_forall. intros it Hit. apply list_elem_of_In, Hne in Hit.
    now destruct it. }
  assert (H : forall w0, run_command apidat docdat cmdname w0 = stop w0).
  { intros w0. rewrite loaded_command_run. unfold loaded_effect.
    now rewrite Ha, Hk, Hn, Hd, Hr, Hbad. }
  split; [apply H|]. split.
  - intros rest. apply for_each_raise, H.
  - intros TIMENOW pre post w1 Hkeys Hpre. split; [|reflexivity].
    unfold Loaded.main. rewrite bind_write, bind_print, logged_logged.
    rewrite Hkeys. unfold mbind at 1. unfold M_bind.
    change (logged w ([] ++ [nl +:+ "Wrapping commands in python..."])
                     ([CLASTR TIMENOW] ++ []))
      with (started TIMENOW w).
    rewrite (for_each_app _ _ _ _ _ Hpre).
    now rewrite (for_each_raise _ _ _ _ _ _ (H w1)).
Qed.

(** Every key of the store as read has an entry. *)
Lemma loaded_apidat_get_key (apidat : list (string * Loaded.Command)) (k : string) :
  k ∈ map fst apidat -> exists c : Loaded.Command, Loaded.apidat_get apidat k = Some c.
Proof.
  induction apidat as [|[k' c] rest IH]; intros H; [inversion H|].
  simpl. destruct (String.eqb_spec k' k) as [->|Hne]; [now exists c|].
  apply IH. simpl in H. apply elem_of_cons in H as [H|H]; [congruence|exact H].
Qed.

(** What a command that raises has written. *)
Lemma loaded_effect_raise (apidat : list (string * Loaded.Command))
    (docdat : gmap string (list (string * string))) (k : string) (e : exn) :
  (effect_of apidat docdat k).1.1 = Raise e ->
  (effect_of apidat docdat k).2 = []
  \/ (e = ValueError
      /\ exists c : Loaded.Command,
           Loaded.apidat_get apidat k = Some c
           /\ Loaded.cmdtype c <> "subroutine"
           /\ (exists it : list string, it ∈ Loaded.sig c /\ length it <> 2)
           /\ (effect_of apidat docdat k).2 = head_of k c).
Proof.
  unfold loaded_effect.
  destruct (Loaded.apidat_get apidat k) as [c|]; [|now left].
  destruct (String.eqb (Loaded.cmdtype c) "unknown"); [now left|].
  destruct (negb _); [now left|].
  destruct (docdat !! k) as [doc|]; [|now left].
  destruct (Loaded.retstr vb2pytype k c) as [r|e0] eqn:Hr; [|now left].
  destruct (forallb is_pair (Loaded.sig c)) eqn:Hp; [discriminate|].
  simpl. intros He. injection He as <-. right. split; [reflexivity|].
  exists c. split; [reflexivity|]. split.
  { intros Hs. rewrite (loaded_retstr_subroutine_raise vb2pytype k c Hs Hp) in Hr.
    discriminate. }
  split; [now apply not_all_pairs_iff|reflexivity].
Qed.

(** X13: a run that raises stops at the first command that raises.  The
    commands before it have returned and their wrappers are in the output
    in full; nothing is written for any later command; the file is not
    closed by the run.  For the command that raised, the output has nothing,
    or, when a signature entry that is not a pair raised the ValueError in
    the parameter section, the head of its wrapper. *)
Theorem main_stops_at_first_raise (TIMENOW : string)
    (apidat : list (string * Loaded.Command))
    (docdat : gmap string (list (string * string))) (w w' : world) (e : exn) :
  run_main TIMENOW apidat docdat w = (Raise e, w') ->
  closed w' = closed w
  /\ exists (pre : list string) (n : string) (post : list string),
       map fst apidat = pre ++ n :: post
       /\ (forall k : string, k ∈ pre -> (alone_of apidat docdat k).1 = Ok tt)
       /\ (alone_of apidat docdat n).1 = Raise e
       /\ artifact w'
          = artifact w ++ CLASTR TIMENOW
              :: flat_map (fun k => artifact (alone_of apidat docdat k).2) pre
              ++ artifact (alone_of apidat docdat n).2
       /\ status w'
          = status w ++ (nl +:+ "Wrapping commands in python...")
              :: flat_map (fun k => status (alone_of apidat docdat k).2) pre
              ++ status (alone_of apidat docdat n).2
       /\ (artifact (alone_of apidat docdat n).2 = []
           \/ (e = ValueError
               /\ exists c : Loaded.Command,
                    Loaded.apidat_get apidat n = Some c
                    /\ Loaded.cmdtype c <> "subroutine"
                    /\ (exists it : list string, it ∈ Loaded.sig c /\ length it <> 2)
                    /\ artifact (alone_of apidat docdat n).2 = head_of n c)).
Proof.
  rewrite loaded_main_run.
  destruct (loop_of (effect_of apidat docdat) (map fst apidat)) as [[o lines] chunks] eqn:E.
  intros H. injection H as -> <-. simpl. split; [reflexivity|].
  destruct (loop_of_stop _ _ _ _ _ E) as (pre & n & post & Hk & Hpre & Hn & Hl & Hc).
  exists pre, n, post. rewrite Hl, Hc.
  split; [exact Hk|]. split.
  { intros k Hin. rewrite loaded_effect_alone. simpl. now apply Hpre. }
  split; [rewrite loaded_effect_alone; exact Hn|].
  rewrite !loaded_effect_alone. simpl.
  split.
  { do 3 f_equal. apply flat_map_ext. intros k. now rewrite loaded_effect_alone. }
  split.
  { do 3 f_equal. apply flat_map_ext. intros k. now rewrite loaded_effect_alone. }
  now apply loaded_effect_raise.
Qed.

(** When one command of the store as read returns. *)
Lemma loaded_effect_ok_iff (apidat : list (string * Loaded.Command))
    (docdat : gmap string (list (string * string))) (k : string) (c : Loaded.Command) :
  Loaded.apidat_get apidat k = Some c ->
  ((effect_of apidat docdat k).1.1 = Ok tt
   <-> Loaded.cmdtype c = "unknown"
       \/ (is_Some (docdat !! k)
           /\ (forall it : list string, it ∈ Loaded.sig c -> length it = 2)
           /\ (Loaded.returns c = [] \/ length (Loaded.returns c) = 2
               \/ (Loaded.cmdtype c <> "function" /\ Loaded.cmdtype c <> "subroutine")))).
Proof.
  intros Hc. unfold loaded_effect. rewrite Hc.
  destruct (String.eqb_spec (Loaded.cmdtype c) "unknown") as [Hu|Hu].
  { split; [now left|reflexivity]. }
  pose proof (loaded_retstr_cases k c) as Hr.
  destruct (forallb is_pair (Loaded.sig c)) eqn:Hp.
  - rewrite (pairs_not_empty _ Hp). simpl negb. cbv iota.
    pose proof (proj1 (all_pairs_iff _) Hp) as Hall.
    destruct (docdat !! k) as [doc|].
    + destruct (Loaded.retstr vb2pytype k c) as [r|e]; simpl.
      * split; [|reflexivity]. intros _. right. split; [now exists doc|].
        split; [exact Hall|]. apply Hr. now exists r.
      * split; [discriminate|]. intros [H|(_ & _ & H)]; [contradiction|].
        assert (Hok : exists r0 : string, Raise e = Ok r0)
          by (apply Hr; split; [exact H|intros _; exact Hall]).
        destruct Hok as [r0 Hr0]. discriminate.
    + simpl. split; [discriminate|].
      intros [H|([doc H] & _)]; [contradiction|discriminate].
  - apply not_all_pairs_iff in Hp as (it & Hit & Hl).
    assert (Hno : ~ (forall it : list string, it ∈ Loaded.sig c -> length it = 2))
      by (intros H; apply Hl, H, Hit).
    assert (Hp : forallb is_pair (Loaded.sig c) = false)
      by (apply not_all_pairs_iff; now exists it).
    destruct (negb _); simpl.
    { split; [discriminate|]. intros [H|(_ & H & _)]; contradiction. }
    destruct (docdat !! k) as [doc|]; simpl.
    2:{ split; [discriminate|]. intros [H|(_ & H & _)]; contradiction. }
    destruct (Loaded.retstr vb2pytype k c) as [r|e]; rewrite ?Hp; simpl;
      (split; [discriminate|]; intros [H|(_ & H & _)]; contradiction).
Qed.

(** X14: the run returns exactly when every command of the descriptor store
    is of kind unknown, or has an entry in the documentation store, a
    signature whose entries are all pairs and, if it is a function or a
    subroutine, a [returns] that is empty or a pair. *)
Theorem main_succeeds_iff (TIMENOW : string) (apidat : list (string * Loaded.Command))
    (docdat : gmap string (list (string * string))) (w : world) :
  (exists w' : world, run_main TIMENOW apidat docdat w = (Ok tt, w'))
  <-> forall (k : string) (c : Loaded.Command),
        k ∈ map fst apidat ->
        Loaded.apidat_get apidat k = Some c ->
        Loaded.cmdtype c = "unknown"
        \/ (is_Some (docdat !! k)
            /\ (forall it : list string, it ∈ Loaded.sig c -> length it = 2)
            /\ (Loaded.returns c = [] \/ length (Loaded.returns c) = 2
                \/ (Loaded.cmdtype c <> "function" /\ Loaded.cmdtype c <> "subroutine"))).
Proof.
  rewrite loaded_main_run.
  destruct (loop_of (effect_of apidat docdat) (map fst apidat)) as [[o lines] chunks] eqn:E.
  split.
  - intros [w' H]. injection H as -> _. intros k c Hk Hc.
    destruct (loop_of_ok _ _ _ _ E) as (_ & _ & Hok).
    apply (loaded_effect_ok_iff apidat docdat k c Hc), Hok, Hk.
  - intros H.
    destruct (loop_of_all_ok (effect_of apidat docdat) (map fst apidat)) as (l & ch & Hok).
    { intros k Hk. destruct (loaded_apidat_get_key apidat k Hk) as [c Hc].
      apply (loaded_effect_ok_iff apidat docdat k c Hc), H; assumption. }
    rewrite E in Hok. injection Hok as -> _ _. now eexists.
Qed.

End LoadedFacts.

(** ** The further properties on sample stores *)

Module MoreInstances.

(** A command whose type is none of the four names. *)
Definition Macro : Command :=
  {| cmdtype := "macro"; descr := "A macro";
     returns := []; sig := [("n", "Long")] |}.

(** The subroutine form of [GetUnits]: the same return value, no parameter. *)
Definition GetUnitsSub : Command :=
  {| cmdtype := "subroutine"; descr := "Gets the units";
     returns := ["Units"; "String"]; sig := [] |}.

(** A signature with a name and its array form. *)
Definition Twice : Command :=
  {| cmdtype := "subroutine"; descr := "Twice the same name";
     returns := []; sig := [("coords", "Double"); ("coords ( )", "Double")] |}.

(** The store with [GetUnits] alone, and its documentation. *)
Definition small_apidat : list (string * Command) := [("GetUnits", Sample.GetUnits)].

Definition small_docdat : gmap string (list (string * string)) :=
  <["GetUnits" := [("Description", "Units of the document")] ]> ∅.

Definition macro_docdat : gmap string (list (string * string)) :=
  <["Macro" := nil]> ∅.

(** A function as read whose second signature entry has no type. *)
Definition Bad : Loaded.Command :=
  {| Loaded.cmdtype := "function"; Loaded.descr := "A function";
     Loaded.returns := []; Loaded.sig := [["n"; "Long"]; ["x"]] |}.

(** A store as read with that function between two sample commands. *)
Definition bad_apidat : list (string * Loaded.Command) :=
  [("GetUnits", loaded Sample.GetUnits); ("Bad", Bad);
   ("SetUnits", loaded Sample.SetUnits)].

Definition bad_docdat : gmap string (list (string * string)) :=
  <["Bad" := nil]> Sample.docdat.

Definition gen_loaded_command :=
  Loaded.wrap_command Sample.wrap_longlines Sample.fmt_docstr Sample.vb2pytype
    Sample.path_join Sample.STUBDIR.

Definition gen_loaded_main :=
  Loaded.main Sample.wrap_longlines Sample.fmt_docstr Sample.vb2pytype
    Sample.path_join Sample.STUBDIR.

End MoreInstances.

Import MoreInstances.

Lemma other_command_type_wrapped_witness :
  apidat_get [("Macro", Macro)] "Macro" = Some Macro
  /\ macro_docdat !! "Macro" = Some []
  /\ cmdtype Macro <> "unknown" /\ cmdtype Macro <> "function"
  /\ cmdtype Macro <> "subroutine" /\ cmdtype Macro <> "datastruct"
  /\ arglist Macro = ["self"; "n"].
Proof.
  repeat (split; [first [reflexivity | discriminate]|]).
  destruct (other_command_type_wrapped
              Sample.wrap_longlines Sample.fmt_docstr Sample.vb2pytype
              Sample.path_join Sample.STUBDIR
              [("Macro", Macro)] macro_docdat "Macro" Macro [] Sample.w0
              eq_refl eq_refl ltac:(discriminate) ltac:(discriminate)
              ltac:(discriminate) ltac:(discriminate))
    as (_ & Hargs & _).
  exact Hargs.
Defined.

Lemma function_subroutine_agree_witness :
  cmdtype Sample.GetUnits = "function"
  /\ cmdtype GetUnitsSub = "subroutine"
  /\ returns Sample.GetUnits = returns GetUnitsSub
  /\ sig GetUnitsSub = []
  /\ Sample.gen_retstr "GetUnits" Sample.GetUnits
     = Sample.gen_retstr "GetUnits" GetUnitsSub.
Proof.
  repeat (split; [reflexivity|]).
  exact (function_subroutine_agree Sample.vb2pytype "GetUnits" "GetUnits"
           Sample.GetUnits GetUnitsSub eq_refl eq_refl eq_refl eq_refl).
Defined.

Lemma command_depends_on_own_entries_witness :
  apidat_get Sample.apidat "GetUnits" = apidat_get small_apidat "GetUnits"
  /\ Sample.docdat !! "GetUnits" = small_docdat !! "GetUnits"
  /\ exists (o : result unit) (lines chunks : list string),
       forall w1 w2 : world,
         Sample.gen_command Sample.apidat Sample.docdat "GetUnits" w1
         = (o, logged w1 lines chunks)
         /\ Sample.gen_command small_apidat small_docdat "GetUnits" w2
            = (o, logged w2 lines chunks).
Proof.
  split; [reflexivity|]. split; [reflexivity|].
  exact (command_depends_on_own_entries
           Sample.wrap_longlines Sample.fmt_docstr Sample.vb2pytype
           Sample.path_join Sample.STUBDIR
           Sample.apidat small_apidat Sample.docdat small_docdat "GetUnits"
           eq_refl eq_refl).
Defined.

Lemma main_output_is_concatenation_witness :
  Sample.gen_main Sample.TIMENOW Sample.apidat Sample.docdat Sample.w0
  = (Ok tt, (Sample.gen_main Sample.TIMENOW Sample.apidat Sample.docdat Sample.w0).2)
  /\ closed (Sample.gen_main Sample.TIMENOW Sample.apidat Sample.docdat Sample.w0).2
     = true
  /\ length (status (Sample.gen_main Sample.TIMENOW Sample.apidat Sample.docdat
                       Sample.w0).2) = 6.
Proof.
  assert (H : Sample.gen_main Sample.TIMENOW Sample.apidat Sample.docdat Sample.w0
              = (Ok tt, (Sample.gen_main Sample.TIMENOW Sample.apidat Sample.docdat
                           Sample.w0).2)) by (vm_compute; reflexivity).
  split; [exact H|].
  destruct (main_output_is_concatenation
              Sample.wrap_longlines Sample.fmt_docstr Sample.vb2pytype
              Sample.path_join Sample.STUBDIR
              Sample.TIMENOW Sample.apidat Sample.docdat Sample.w0 _ H)
    as (Hc & _ & _ & Hl).
  split; [exact Hc|exact Hl].
Defined.

Lemma header_names_collide_witness :
  bare "coords" = true
  /\ all_space " " = true /\ all_space EmptyString = true
  /\ sig Twice !! 0 = Some ("coords", "Double")
  /\ sig Twice !! 1 = Some ("coords ( )", "Double")
  /\ paramlist Twice = ["self"; "coords"; "coords"]
  /\ def_line Sample.wrap_longlines "Twice" Twice
     = I1 +:+ "def Twice(self, coords, coords):" +:+ nl
  /\ ~ NoDup (paramlist Twice).
Proof.
  repeat (split; [reflexivity|]).
  exact (proj2 (proj2 (proj2
           (header_names_collide Twice 0 1 "coords" "Double" "Double"
              " " " " EmptyString eq_refl eq_refl eq_refl eq_refl eq_refl eq_refl)))).
Defined.

Lemma output_determines_timestamp_witness :
  Sample.gen_main Sample.TIMENOW undocumented ∅ Sample.w0
  = (Raise (KeyError "GetUnits"),
     (Sample.gen_main Sample.TIMENOW undocumented ∅ Sample.w0).2)
  /\ Sample.gen_main Sample.TIMENOW [] ∅ Sample.w0
     = (Ok tt, (Sample.gen_main Sample.TIMENOW [] ∅ Sample.w0).2)
  /\ artifact (Sample.gen_main Sample.TIMENOW undocumented ∅ Sample.w0).2
     = artifact (Sample.gen_main Sample.TIMENOW [] ∅ Sample.w0).2
  /\ Sample.TIMENOW = Sample.TIMENOW.
Proof.
  assert (H1 : Sample.gen_main Sample.TIMENOW undocumented ∅ Sample.w0
               = (Raise (KeyError "GetUnits"),
                  (Sample.gen_main Sample.TIMENOW undocumented ∅ Sample.w0).2))
    by (vm_compute; reflexivity).
  assert (H2 : Sample.gen_main Sample.TIMENOW [] ∅ Sample.w0
               = (Ok tt, (Sample.gen_main Sample.TIMENOW [] ∅ Sample.w0).2))
    by (vm_compute; reflexivity).
  assert (H3 : artifact (Sample.gen_main Sample.TIMENOW undocumented ∅ Sample.w0).2
               = artifact (Sample.gen_main Sample.TIMENOW [] ∅ Sample.w0).2)
    by (vm_compute; reflexivity).
  split; [exact H1|]. split; [exact H2|]. split; [exact H3|].
  exact (output_determines_timestamp
           Sample.wrap_longlines Sample.fmt_docstr Sample.vb2pytype
           Sample.path_join Sample.STUBDIR
           Sample.TIMENOW Sample.TIMENOW undocumented [] ∅ ∅ Sample.w0 _ _ _ _
           H1 H2 H3).
Defined.

Lemma malformed_entry_leaves_head_witness :
  Loaded.apidat_get bad_apidat "Bad" = Some Bad
  /\ Loaded.cmdtype Bad <> "unknown"
  /\ bad_docdat !! "Bad" = Some []
  /\ Loaded.retstr Sample.vb2pytype "Bad" Bad = Ok EmptyString
  /\ (forall it : list string, it ∈ Loaded.sig Bad -> it <> [])
  /\ (exists it : list string, it ∈ Loaded.sig Bad /\ length it <> 2)
  /\ gen_loaded_command bad_apidat bad_docdat "Bad" Sample.w0
     = (Raise ValueError,
        logged Sample.w0 ["... wrapping Bad"]
          (wrapper_head Sample.wrap_longlines Sample.vb2pytype "Bad" Bad))
  /\ wrapper_head Sample.wrap_longlines Sample.vb2pytype "Bad" Bad !! 1
     = Some (I1 +:+ "def Bad(self, n, x):" +:+ nl)
  /\ wrapper_head Sample.wrap_longlines Sample.vb2pytype "Bad" Bad !! 9
     = Some (I2 +:+ "n: int" +:+ nl)
  /\ length (wrapper_head Sample.wrap_longlines Sample.vb2pytype "Bad" Bad) = 10.
Proof.
  assert (Hne : forall it : list string, it ∈ Loaded.sig Bad -> it <> []).
  { intros it Hit. simpl in Hit.
    apply elem_of_cons in Hit as [->|Hit]; [discriminate|].
    apply elem_of_cons in Hit as [->|Hit]; [discriminate|].
    inversion Hit. }
  assert (Hbad : exists it : list string, it ∈ Loaded.sig Bad /\ length it <> 2).
  { exists ["x"]. split; [simpl; constructor; constructor|simpl; lia]. }
  split; [reflexivity|]. split; [discriminate|]. split; [reflexivity|].
  split; [reflexivity|]. split; [exact Hne|]. split; [exact Hbad|].
  split.
  - exact (proj1 (malformed_entry_leaves_head
                    Sample.wrap_longlines Sample.fmt_docstr Sample.vb2pytype
                    Sample.path_join Sample.STUBDIR
                    bad_apidat bad_docdat "Bad" Bad [] EmptyString Sample.w0
                    eq_refl ltac:(discriminate) eq_refl eq_refl Hne Hbad)).
  - repeat split; reflexivity.
Defined.

Lemma main_stops_at_first_raise_witness :
  gen_loaded_main Sample.TIMENOW bad_apidat bad_docdat Sample.w0
  = (Raise ValueError,
     (gen_loaded_main Sample.TIMENOW bad_apidat bad_docdat Sample.w0).2)
  /\ closed (gen_loaded_main Sample.TIMENOW bad_apidat bad_docdat Sample.w0).2 = false
  /\ last (artifact (gen_loaded_main Sample.TIMENOW bad_apidat bad_docdat Sample.w0).2)
     = Some (I2 +:+ "n: int" +:+ nl)
  /\ status (gen_loaded_main Sample.TIMENOW bad_apidat bad_docdat Sample.w0).2
     = [nl +:+ "Wrapping commands in python..."; "... wrapping GetUnits";
        "... wrapping Bad"].
Proof.
  assert (H : gen_loaded_main Sample.TIMENOW bad_apidat bad_docdat Sample.w0
              = (Raise ValueError,
                 (gen_loaded_main Sample.TIMENOW bad_apidat bad_docdat Sample.w0).2))
    by (vm_compute; reflexivity).
  split; [exact H|]. split.
  - exact (proj1 (main_stops_at_first_raise
                    Sample.wrap_longlines Sample.fmt_docstr Sample.vb2pytype
                    Sample.path_join Sample.STUBDIR
                    Sample.TIMENOW bad_apidat bad_docdat Sample.w0 _ _ H)).
  - split; vm_compute; reflexivity.
Defined.
